(** * Feedlot: settings merging, command files, ISO discovery and builder synthesis

    A shallow embedding of the parts of the feedlot (formerly rancher)
    template generator that its specification makes statements about:
    the [strings]/[strconv] routines the code calls, [commandFromSlice],
    the centOS release and mirror selection, [createVBoxManage], [setHTTP],
    [updateCommon], [createAmazonChroot] and [createVirtualBoxISO].

    Go values are modelled as follows.  A Go [string] is a [string] (a
    sequence of bytes); a [[]string] is a [list string]; a
    [map[string]interface{}] is a [gmap string value]; a function returning
    [(T, error)] returns an [outcome T], whose third constructor stands for
    a run-time panic. *)

From Stdlib Require Import ZArith Ascii String List Lia Bool.
From stdpp Require Import base option list gmap strings.

Set Warnings "-register-all".

(** ** Go's [strings] package, as far as the code uses it *)

Module strings.

(** White space of [unicode.IsSpace] in the ASCII range: tab, line feed,
    vertical tab, form feed, carriage return and space.  The white space
    code points outside ASCII are not modelled. *)
Definition isSpace (c : ascii) : bool :=
  let n := nat_of_ascii c in
  ((9 <=? n) && (n <=? 13))%nat || (n =? 32)%nat.

Fixpoint TrimLeftSpace (s : string) : string :=
  match s with
  | EmptyString => EmptyString
  | String c s' => if isSpace c then TrimLeftSpace s' else s
  end.

Fixpoint TrimRightSpace (s : string) : string :=
  match s with
  | EmptyString => EmptyString
  | String c s' =>
      match TrimRightSpace s' with
      | EmptyString => if isSpace c then EmptyString else String c EmptyString
      | t => String c t
      end
  end.

Definition TrimSpace (s : string) : string :=
  TrimRightSpace (TrimLeftSpace s).

Definition HasPrefix (s pre : string) : bool := String.prefix pre s.

Fixpoint HasSuffix (s suf : string) : bool :=
  String.eqb s suf ||
  match s with
  | EmptyString => false
  | String _ s' => HasSuffix s' suf
  end.

Definition TrimSuffix (s suf : string) : string :=
  if HasSuffix s suf
  then String.substring 0 (String.length s - String.length suf) s
  else s.

Fixpoint Contains (s sub : string) : bool :=
  String.prefix sub s ||
  match s with
  | EmptyString => false
  | String _ s' => Contains s' sub
  end.

(** [strings.Split(s, sep)] for a separator of one byte, the only kind
    the code passes.  The result is never empty: a string without the
    separator gives the one-element list of itself. *)
Fixpoint Split (s : string) (sep : ascii) : list string :=
  match s with
  | EmptyString => [EmptyString]
  | String c s' =>
      if Ascii.eqb c sep then EmptyString :: Split s' sep
      else match Split s' sep with
           | h :: t => String c h :: t
           | [] => [String c EmptyString]
           end
  end.

(** [strings.SplitN(s, sep, 2)]: cut at the first separator, if any. *)
Fixpoint SplitN2 (s : string) (sep : ascii) : string * option string :=
  match s with
  | EmptyString => (EmptyString, None)
  | String c s' =>
      if Ascii.eqb c sep then (EmptyString, Some s')
      else let '(h, t) := SplitN2 s' sep in (String c h, t)
  end.

(** [strings.Index]: the byte offset of the first occurrence of [sub]. *)
Fixpoint IndexOf (s sub : string) : option nat :=
  if String.prefix sub s then Some 0%nat
  else match s with
       | EmptyString => None
       | String _ s' => S <$> IndexOf s' sub
       end.

Definition Index (s sub : string) : Z :=
  match IndexOf s sub with
  | Some n => Z.of_nat n
  | None => (-1)%Z
  end.

(** [strings.ToLower] and [strings.ToUpper] on the letters of ASCII; other
    bytes are kept. *)
Definition lowerByte (c : ascii) : ascii :=
  let n := nat_of_ascii c in
  if ((65 <=? n) && (n <=? 90))%nat then ascii_of_nat (n + 32) else c.

Definition upperByte (c : ascii) : ascii :=
  let n := nat_of_ascii c in
  if ((97 <=? n) && (n <=? 122))%nat then ascii_of_nat (n - 32) else c.

Fixpoint mapBytes (f : ascii -> ascii) (s : string) : string :=
  match s with
  | EmptyString => EmptyString
  | String c s' => String (f c) (mapBytes f s')
  end.

Definition ToLower (s : string) : string := mapBytes lowerByte s.
Definition ToUpper (s : string) : string := mapBytes upperByte s.

(** Whether [s] is made of ASCII bytes only.  On such a string Go's
    [strings.ToLower] and [strings.ToUpper] are [ToLower] and [ToUpper]
    above; on any other string they map the letters outside ASCII too, by
    the Unicode tables. *)
Fixpoint isASCII (s : string) : bool :=
  match s with
  | EmptyString => true
  | String c s' => (nat_of_ascii c <? 128)%nat && isASCII s'
  end.

End strings.

(** The concatenation of a list of strings. *)
Definition concatAll (l : list string) : string := foldr String.append EmptyString l.

(** ** Go's [strconv] package *)

Module strconv.

Definition isDigit (c : ascii) : bool :=
  let n := nat_of_ascii c in ((48 <=? n) && (n <=? 57))%nat.

Definition digitVal (c : ascii) : Z := Z.of_nat (nat_of_ascii c - 48).

(** The value of a non-empty run of decimal digits. *)
Fixpoint digits (s : string) (acc : Z) : option Z :=
  match s with
  | EmptyString => Some acc
  | String c s' =>
      if isDigit c then digits s' (10 * acc + digitVal c)%Z else None
  end.

(** Why a conversion failed: [strconv.ErrSyntax] or [strconv.ErrRange]. *)
Inductive NumErr := ErrSyntax | ErrRange.

(** [strconv.Atoi] on a platform whose [int] has 64 bits: an optional sign
    and decimal digits, within the range of [int]. *)
Definition Atoi (s : string) : Z + NumErr :=
  let '(neg, body) :=
    match s with
    | String "-"%char s' => (true, s')
    | String "+"%char s' => (false, s')
    | _ => (false, s)
    end in
  match body with
  | EmptyString => inr ErrSyntax
  | _ =>
      match digits body 0 with
      | None => inr ErrSyntax
      | Some n =>
          let v := if neg then (- n)%Z else n in
          if ((- 2 ^ 63 <=? v) && (v <? 2 ^ 63))%Z then inl v else inr ErrRange
      end
  end.

(** [strconv.ParseBool]; [None] is its syntax error, where Go returns
    [false] as the value. *)
Definition ParseBool (s : string) : option bool :=
  if existsb (String.eqb s) ["1"; "t"; "T"; "TRUE"; "true"; "True"] then Some true
  else if existsb (String.eqb s) ["0"; "f"; "F"; "FALSE"; "false"; "False"] then Some false
  else None.

End strconv.

(** ** Results, errors and dynamic values *)

(** Packer builder kinds (the [Builder] constants of the app package). *)
Inductive Builder :=
| UnsupportedBuilder | Common | Custom | AmazonChroot | AmazonEBS
| AmazonInstance | DigitalOcean | Docker | GoogleCompute | Null | OpenStack
| ParallelsISO | ParallelsPVM | QEMU | VirtualBoxISO | VirtualBoxOVF
| VMWareISO | VMWareVMX.

(** The [builders] table behind [Builder.String]. *)
Definition Builder_String (b : Builder) : string :=
  match b with
  | UnsupportedBuilder => "unsupported builder"
  | Common => "common"
  | Custom => "custom"
  | AmazonChroot => "amazon-chroot"
  | AmazonEBS => "amazon-ebs"
  | AmazonInstance => "amazon-instance"
  | DigitalOcean => "digitalocean"
  | Docker => "docker"
  | GoogleCompute => "googlecompute"
  | Null => "null"
  | OpenStack => "openstack"
  | ParallelsISO => "parallels-iso"
  | ParallelsPVM => "parallels-pvm"
  | QEMU => "qemu"
  | VirtualBoxISO => "virtualbox-iso"
  | VirtualBoxOVF => "virtualbox-ovf"
  | VMWareISO => "vmware-iso"
  | VMWareVMX => "vmware-vmx"
  end.

Section case_mapping.

(** The Unicode case tables of Go are not modelled: [unicode_ToLower]
    stands for the result of [strings.ToLower] on a string that has a byte
    outside ASCII. *)
Variable unicode_ToLower : string -> string.

(** Go's [strings.ToLower] on every string. *)
Definition strings_ToLower (s : string) : string :=
  if strings.isASCII s then strings.ToLower s else unicode_ToLower s.

(** [ParseBuilder] *)
Definition ParseBuilder (s : string) : Builder :=
  let s := strings_ToLower s in
  if String.eqb s "common" then Common
  else if String.eqb s "custom" then Custom
  else if String.eqb s "amazon-chroot" then AmazonChroot
  else if String.eqb s "amazon-ebs" then AmazonEBS
  else if String.eqb s "amazon-instance" then AmazonInstance
  else if String.eqb s "digitalocean" then DigitalOcean
  else if String.eqb s "docker" then Docker
  else if String.eqb s "googlecompute" then GoogleCompute
  else if String.eqb s "null" then Null
  else if String.eqb s "openstack" then OpenStack
  else if String.eqb s "parallels-iso" then ParallelsISO
  else if String.eqb s "parallels-pvm" then ParallelsPVM
  else if String.eqb s "qemu" then QEMU
  else if String.eqb s "virtualbox-iso" then VirtualBoxISO
  else if String.eqb s "virtualbox-ovf" then VirtualBoxOVF
  else if String.eqb s "vmware-iso" then VMWareISO
  else if String.eqb s "vmware-vmx" then VMWareVMX
  else UnsupportedBuilder.

End case_mapping.

(** Go [error] values.  [SettingErr] keeps the error it wraps as an option,
    since the code also builds one around a nil error. *)
Inductive error :=
| ErrBuilderNotFound
| ErrNoCommands
| ErrEmptyPath
| ErrNotExist (path : string)
| NumError (fn num : string) (why : strconv.NumErr)
| RequiredSettingErr (Key : string)
| SettingErr (Key Value : string) (err : option error)
| UnsupportedDistroErr (distro : string)
| BuilderErr (id : string) (b : Builder) (Err : error)
| Errorf (msg : string) (cause : option error).

(** What a call produces: a value, a non-nil [error] (with the other
    results nil or zero), or a run-time panic. *)
Inductive outcome (A : Type) :=
| Ok (a : A)
| Fail (e : error)
| Panic.
Arguments Ok {A} a.
Arguments Fail {A} e.
Arguments Panic {A}.

(** Sequencing: an error or a panic of the first call ends the function. *)
Definition bind {A B} (m : outcome A) (f : A -> outcome B) : outcome B :=
  match m with
  | Ok a => f a
  | Fail e => Fail e
  | Panic => Panic
  end.

Notation "'let!' x ':=' m 'in' k" := (bind m (fun x => k))
  (at level 10, x name, m at level 100, k at level 200).
Notation "'let!' ' pat ':=' m 'in' k" := (bind m (fun x => match x with pat => k end))
  (at level 10, pat pattern, m at level 100, k at level 200).

(** [if err != nil { return nil, wrap(err) }] *)
Definition wrapErr {A} (wrap : error -> error) (m : outcome A) : outcome A :=
  match m with
  | Fail e => Fail (wrap e)
  | other => other
  end.

(** Collaborators outside the modelled code (network, file system, other
    files of the repository) return a value or an error. *)
Definition call {A} (x : error + A) : outcome A :=
  match x with
  | inl e => Fail e
  | inr a => Ok a
  end.

(** [l[i]] on a slice: an index out of range panics. *)
Definition index {A} (l : list A) (i : Z) : outcome A :=
  if (i <? 0)%Z then Panic
  else match l !! Z.to_nat i with
       | Some a => Ok a
       | None => Panic
       end.

Definition len {A} (l : list A) : Z := Z.of_nat (length l).

(** [len(s)] of a string, in bytes. *)
Definition strlen (s : string) : Z := Z.of_nat (String.length s).

(** The slice expression [s[lo:hi]] on a string: it panics unless
    [0 <= lo <= hi <= len(s)]. *)
Definition slice (s : string) (lo hi : Z) : outcome string :=
  if ((lo <? 0) || (hi <? lo) || (strlen s <? hi))%Z then Panic
  else Ok (String.substring (Z.to_nat lo) (Z.to_nat (hi - lo)) s).

(** The static element types a nil slice or map can have. *)
Inductive kind := KStrings | KStringss | KIfaces | KMap.

(** The dynamic values an [interface{}] holds in settings and arrays. *)
Inductive value :=
| VNil
| VString (s : string)
| VInt (n : Z)
| VBool (b : bool)
| VStrings (l : list string)
| VStringss (l : list (list string))
| VIfaces (l : list value)
| VMap (m : list (string * value))
| VNilOf (k : kind).

(** [deepcopy.Copy]: the copy has the dynamic type and contents of the
    original; values here are immutable, so it is the original. *)
Definition deepcopy_Copy (v : value) : value := v.

(** [reflect.ValueOf(v).IsNil()]: defined on slices and maps only; it
    panics on the nil interface and on strings, numbers and booleans. *)
Definition reflect_IsNil (v : value) : outcome bool :=
  match v with
  | VNil | VString _ | VInt _ | VBool _ => Panic
  | VNilOf _ => Ok true
  | _ => Ok false
  end.

(** The type assertion [v.([]string)]. *)
Definition assertStrings (v : value) : outcome (list string) :=
  match v with
  | VStrings l => Ok l
  | VNilOf KStrings => Ok []
  | _ => Panic
  end.

Definition isSliceOfStrings (v : value) : bool :=
  match v with
  | VStrings _ | VNilOf KStrings => true
  | _ => false
  end.

(** The last byte of a string, if it has one. *)
Fixpoint lastByte (s : string) : option ascii :=
  match s with
  | EmptyString => None
  | String c EmptyString => Some c
  | String _ s' => lastByte s'
  end.

Definition backslash : string := String (ascii_of_nat 92) EmptyString.

(** Whether byte [c] occurs in [s]. *)
Fixpoint hasByte (c : ascii) (s : string) : bool :=
  match s with
  | EmptyString => false
  | String x s' => Ascii.eqb x c || hasByte c s'
  end.

(** ** Package ranchr: centOS release information (release.go) *)

Module ranchr.

(** The [iso] and [release] structs, flattened: Go embeds [iso] in
    [release] and [release] in [centOS]. *)
Record release := mkRelease {
  BaseURL : string;
  Checksum : string;
  ChecksumType : string;
  Name : string;
  isoURL : string;
  Arch : string;
  Distro : string;
  Image : string;
  Release : string;
  ReleaseFull : string
}.

Definition centOS := release.

Definition set_ReleaseFull (v : string) (c : centOS) : centOS :=
  mkRelease (BaseURL c) (Checksum c) (ChecksumType c) (Name c) (isoURL c)
            (Arch c) (Distro c) (Image c) (Release c) v.

Definition set_Release (v : string) (c : centOS) : centOS :=
  mkRelease (BaseURL c) (Checksum c) (ChecksumType c) (Name c) (isoURL c)
            (Arch c) (Distro c) (Image c) v (ReleaseFull c).

(** Nodes of [html.Parse]'s document tree, with the fields the code reads:
    [Type], [Data], [Attr] and the children from [FirstChild] along
    [NextSibling]. *)
Inductive NodeType :=
| ErrorNode | TextNode | DocumentNode | ElementNode | CommentNode | DoctypeNode.

Record Attribute := mkAttr { Key : string; Val : string }.

Inductive Node :=
| mkNode (Type_ : NodeType) (Data : string) (Attr : list Attribute)
         (children : list Node).

Definition isElementNode (t : NodeType) : bool :=
  match t with ElementNode => true | _ => false end.

(** The [for _, a := range n.Attr] loop of the closure in [randomISOURL]:
    only the first [href] attribute is looked at, then the loop breaks. *)
Fixpoint hrefCandidate (arch : string) (attrs : list Attribute) : list string :=
  match attrs with
  | [] => []
  | a :: rest =>
      if String.eqb (Key a) "href" then
        if strings.Contains (Val a) arch && negb (strings.Contains (Val a) "ftp://")
        then [Val a] else []
      else hrefCandidate arch rest
  end.

(** The closure [f] of [randomISOURL]: a pre-order walk that appends to
    [isoURLs]. *)
Fixpoint collectISOURLs (arch : string) (n : Node) : list string :=
  match n with
  | mkNode t data attrs children =>
      (if isElementNode t && String.eqb data "a" then hrefCandidate arch attrs else [])
      ++ flat_map (collectISOURLs arch) children
  end.

(** The value of the first [href] attribute of a node, if it has one. *)
Fixpoint firstHref (attrs : list Attribute) : option string :=
  match attrs with
  | [] => None
  | a :: rest => if String.eqb (Key a) "href" then Some (Val a) else firstHref rest
  end.

(** The links of a document: for every element [a] with an [href]
    attribute, the value of its first one, in document order. *)
Fixpoint anchorHrefs (n : Node) : list string :=
  match n with
  | mkNode t data attrs children =>
      (if isElementNode t && String.eqb data "a"
       then match firstHref attrs with Some u => [u] | None => [] end
       else [])
      ++ flat_map anchorHrefs children
  end.

(** [rand.Intn(n)]: panics unless [0 < n]; otherwise some number in
    [[0, n)], here the generator's next draw [rnd] reduced modulo [n]. *)
Definition rand_Intn (rnd : Z) (n : Z) : outcome Z :=
  if (n <=? 0)%Z then Panic else Ok (rnd mod n)%Z.

Definition isoRedirectURL (c : centOS) : string :=
  "http://isoredirect.centos.org/centos/" +:+ Release c +:+ "/isos/" +:+ Arch c +:+ "/".

Definition newline : ascii := ascii_of_nat 10.

Definition mirrorlistURL (c : centOS) : string :=
  "http://mirrorlist.centos.org/?release=" +:+ Release c +:+ "&arch="
    +:+ Arch c +:+ "&repo=os".

Definition set_Name (v : string) (c : release) : release :=
  mkRelease (BaseURL c) (Checksum c) (ChecksumType c) v (isoURL c)
            (Arch c) (Distro c) (Image c) (Release c) (ReleaseFull c).

Definition set_isoURL (v : string) (c : release) : release :=
  mkRelease (BaseURL c) (Checksum c) (ChecksumType c) (Name c) v
            (Arch c) (Distro c) (Image c) (Release c) (ReleaseFull c).

Definition set_Checksum (v : string) (c : release) : release :=
  mkRelease (BaseURL c) v (ChecksumType c) (Name c) (isoURL c)
            (Arch c) (Distro c) (Image c) (Release c) (ReleaseFull c).

Definition set_BaseURL (v : string) (c : release) : release :=
  mkRelease v (Checksum c) (ChecksumType c) (Name c) (isoURL c)
            (Arch c) (Distro c) (Image c) (Release c) (ReleaseFull c).

Definition debian := release.
Definition ubuntu := release.

Definition dquote : string := String (ascii_of_nat 34) EmptyString.

(** [centOS.setISOName] *)
Definition setISOName (c : centOS) : centOS :=
  set_Name ("CentOS-" +:+ ReleaseFull c +:+ "-" +:+ Arch c +:+ "-" +:+ Image c +:+ ".iso") c.

(** [centOS.checksumURL]; [trimSuffix] is taken as [strings.TrimSuffix],
    as in [randomISOURL]. *)
Definition checksumURL (c : centOS) : string :=
  strings.TrimSuffix (isoURL c) (Name c) +:+ strings.ToLower (ChecksumType c) +:+ "sum.txt".

(** The text of the line before position [pos] of the page, trimmed: the
    common end of [centOS.findChecksum] and [debian.findISOChecksum]. *)
Definition checksumBefore (page : string) (pos : Z) : outcome string :=
  let! tmpRel := slice page 0 pos in
  let tmpSl := strings.Split tmpRel newline in
  let! last := index tmpSl (len tmpSl - 1) in
  Ok (strings.TrimSpace last).

(** [centOS.findChecksum] *)
Definition findChecksum (c : centOS) (page : string) : outcome string :=
  if String.eqb page "" then
    Fail (Errorf "the string passed to centOS.findChecksum(s string) was empty; unable to process request" None)
  else
    let pos := strings.Index page (Name c) in
    if (pos <? 0)%Z then
      Fail (Errorf "unable to find ISO information while looking for the release string on the CentOS checksums page" None)
    else checksumBefore page pos.

(** [centOS.getOSType] *)
Definition getOSType (c : centOS) (buildType : string) : outcome string :=
  let unsupported := Fail (Errorf "%s does not support the %s builder" None) in
  if String.eqb buildType "vmware-iso" || String.eqb buildType "vmware-vmx" then
    if String.eqb (Arch c) "x86_64" then Ok "centos-64"
    else if String.eqb (Arch c) "x386" then Ok "centos-32"
    else unsupported
  else if String.eqb buildType "virtualbox-iso" || String.eqb buildType "virtualbox-ovf" then
    if String.eqb (Arch c) "x86_64" then Ok "RedHat_64"
    else if String.eqb (Arch c) "x386" then Ok "RedHat_32"
    else unsupported
  else unsupported.

(** [debian.findISOChecksum] *)
Definition debian_findISOChecksum (d : debian) (page : string) : outcome string :=
  if String.eqb page "" then
    Fail (Errorf "page to parse was empty; unable to process request for %s" None)
  else
    let pos := strings.Index page (Name d) in
    if (pos <? 0)%Z then Fail (Errorf "unable to find %s's checksum" None)
    else checksumBefore page pos.

(** [debian.setISOName] *)
Definition debian_setISOName (d : debian) : debian :=
  let d := if String.eqb (ReleaseFull d) "" then set_ReleaseFull (Release d) d else d in
  set_Name ("debian-" +:+ ReleaseFull d +:+ "-" +:+ Arch d +:+ "-" +:+ Image d +:+ ".iso") d.

(** [debian.getOSType] *)
Definition debian_getOSType (d : debian) (buildType : string) : outcome string :=
  let unsupported := Fail (Errorf "%s does not support the %s builder" None) in
  if String.eqb buildType "vmware-iso" || String.eqb buildType "vmware-vmx" then
    if String.eqb (Arch d) "amd64" then Ok "debian-64"
    else if String.eqb (Arch d) "i386" then Ok "debian-32"
    else unsupported
  else if String.eqb buildType "virtualbox-iso" || String.eqb buildType "vmware-ovf" then
    if String.eqb (Arch d) "amd64" then Ok "Debian_64"
    else if String.eqb (Arch d) "i386" then Ok "Debian_32"
    else unsupported
  else unsupported.

(** [debian.setReleaseInfo(s)]: the five bytes after the first
    [a href=] followed by a quote and the release become the full release. *)
Definition debian_setReleaseInfo (d : debian) (s : string) : outcome debian :=
  let pos := strings.Index s ("a href=" +:+ dquote +:+ Release d) in
  if (pos <? 0)%Z then
    Fail (Errorf "unable to determine the current debian version: search string not found" None)
  else
    let! s := slice s (pos + 8) (strlen s) in
    let pos := strings.Index s dquote in
    let! s := (if (0 <? pos)%Z then slice s 0 pos else Ok s) in
    if (strlen s <? 5)%Z then
      Fail (Errorf "unable to determine the current debian version: the version string is less than the expected 5 chars" None)
    else
      let! full := slice s 0 5 in
      Ok (set_ReleaseFull full d).

(** [ubuntu.setISOName] *)
Definition ubuntu_setISOName (u : ubuntu) : ubuntu :=
  let u := if String.eqb (ReleaseFull u) "" then set_ReleaseFull (Release u) u else u in
  set_Name ("ubuntu-" +:+ ReleaseFull u +:+ "-" +:+ Image u +:+ "-" +:+ Arch u +:+ ".iso") u.

(** [ubuntu.getOSType] *)
Definition ubuntu_getOSType (u : ubuntu) (buildType : string) : outcome string :=
  let unsupported := Fail (Errorf "%s does not support the %s builder" None) in
  if String.eqb buildType "vmware-iso" || String.eqb buildType "vmware-vmx" then
    if String.eqb (Arch u) "amd64" then Ok "ubuntu-64"
    else if String.eqb (Arch u) "i386" then Ok "ubuntu-32"
    else unsupported
  else if String.eqb buildType "virtualbox-iso" || String.eqb buildType "vmware-ovf" then
    if String.eqb (Arch u) "amd64" then Ok "Ubuntu_64"
    else if String.eqb (Arch u) "i386" then Ok "Ubuntu_32"
    else unsupported
  else unsupported.

(** [ubuntu.findChecksum]: the release object comes back with its
    checksum, and with the name and full release the second search set. *)
Definition ubuntu_findChecksum (u : ubuntu) (page : string) : outcome (ubuntu * string) :=
  if String.eqb page "" then
    Fail (Errorf "page to parse was empty; unable to process request for %s" None)
  else
    let pos := strings.Index page (Name u) in
    let! '(u, pos) :=
      (if (pos <=? 0)%Z then
         let pos := strings.Index page ".iso" in
         if (pos <? 0)%Z then
           Fail (Errorf "unable to find ISO information while looking for the release string on the Ubuntu checksums page" None)
         else
           let! tmpRel := slice page 0 pos in
           let tmpSl := strings.Split tmpRel "-"%char in
           if (len tmpSl <? 3)%Z then
             Fail (Errorf "unable to parse release information for %s" None)
           else
             let! full := index tmpSl 1 in
             let u := ubuntu_setISOName (set_ReleaseFull full u) in
             let pos := strings.Index page (Name u) in
             if (pos <? 0)%Z then Fail (Errorf "unable to find %s's checksum" None)
             else Ok (u, pos)
       else Ok (u, pos)) in
    if (strlen page <? pos - 2)%Z then
      Fail (Errorf "unable to retrieve checksum information for %s" None)
    else
      let! checksum :=
        (if (pos - 66 <? 1)%Z then slice page 0 (pos - 2)
         else slice page (pos - 66) (pos - 2)) in
      Ok (set_Checksum checksum u, checksum).

Section net.

(** The network and the HTML parser are collaborators: [getStringFromURL]
    performs an HTTP GET, [html.Parse] comes from the go.net library. *)
Variable getStringFromURL : string -> error + string.
Variable html_Parse : string -> error + Node.

Definition setReleaseNumber (c : centOS) : outcome centOS :=
  let mirrorURL := mirrorlistURL c in
  let! page := call (getStringFromURL mirrorURL) in
  let lines := strings.Split page newline in
  let! line0 := index lines 0 in
  let urlParts := strings.Split line0 "/"%char in
  let! full := index urlParts (len urlParts - 4) in
  Ok (set_ReleaseFull full c).

Definition setReleaseInfo (c : centOS) : outcome centOS :=
  let version := strings.Split (Release c) "."%char in
  if (1 <? len version)%Z then
    let! v0 := index version 0 in
    Ok (set_Release v0 (set_ReleaseFull (Release c) c))
  else setReleaseNumber c.

(** [rnd] is the value the process-wide generator yields at this call. *)
Definition randomISOURL (rnd : Z) (c : centOS) : outcome string :=
  let! page := call (getStringFromURL (isoRedirectURL c)) in
  let! doc := call (html_Parse page) in
  let isoURLs := collectISOURLs (Arch c) doc in
  if (len isoURLs <? 1)%Z then Fail (Errorf "no valid iso URLs were found" None)
  else
    let! i := rand_Intn rnd (len isoURLs - 1) in
    let! u := index isoURLs i in
    Ok (strings.TrimSuffix u (String newline EmptyString) +:+ Name c).

(** [centOS.setISOURL] *)
Definition setISOURL (rnd : Z) (c : centOS) : outcome centOS :=
  if negb (String.eqb (BaseURL c) "") then
    Ok (set_isoURL
          (BaseURL c +:+ (if strings.HasSuffix (BaseURL c) "/" then "" else "/")
             +:+ ReleaseFull c +:+ "/isos/" +:+ Arch c +:+ "/" +:+ Name c) c)
  else
    let! u := randomISOURL rnd c in
    Ok (set_isoURL u c).

(** [centOS.setISOChecksum] *)
Definition setISOChecksum (c : centOS) : outcome centOS :=
  if String.eqb (ChecksumType c) "" then Fail (Errorf "Checksum Type not set" None)
  else
    let! page := call (getStringFromURL (checksumURL c)) in
    let! checksum := findChecksum c page in
    Ok (set_Checksum checksum c).

(** [centOS.SetISOInfo] *)
Definition SetISOInfo (rnd : Z) (c : centOS) : outcome centOS :=
  if String.eqb (Arch c) "" then
    Fail (Errorf "arch for %s was empty, unable to continue" None)
  else if String.eqb (Release c) "" then
    Fail (Errorf "release for %s was empty, unable to continue" None)
  else
    let! c := setReleaseInfo c in
    let c := setISOName c in
    let! c := setISOURL rnd c in
    setISOChecksum c.

(** [debian.getReleaseVersion]: an error of the fetch is logged only, and
    the page is then the empty string. *)
Definition debian_getReleaseVersion (d : debian) : outcome debian :=
  if negb (String.eqb (ReleaseFull d) "") then Ok d
  else
    let p := match getStringFromURL (BaseURL d) with
             | inr p => p
             | inl _ => EmptyString
             end in
    debian_setReleaseInfo d p.

(** The helper [appendSlash] of package ranchr is not under src. *)
Variable appendSlash : string -> string.

(** [debian.setISOURL] *)
Definition debian_setISOURL (d : debian) : debian :=
  let d := if String.eqb (BaseURL d) ""
           then set_BaseURL "http://cdimage.debian.org/debian-cd/" d else d in
  set_isoURL (appendSlash (BaseURL d) +:+ appendSlash (ReleaseFull d)
                +:+ appendSlash (Arch d) +:+ appendSlash "iso-cd" +:+ Name d) d.

(** [debian.setISOChecksum] *)
Definition debian_setISOChecksum (d : debian) : outcome debian :=
  let! page :=
    call (getStringFromURL
            (appendSlash (BaseURL d) +:+ appendSlash (ReleaseFull d) +:+ "amd64/iso-cd/"
               +:+ strings.ToUpper (ChecksumType d) +:+ "SUMS")) in
  let! checksum := debian_findISOChecksum d page in
  Ok (set_Checksum checksum d).

(** [debian.SetISOInfo] *)
Definition debian_SetISOInfo (d : debian) : outcome debian :=
  if String.eqb (Arch d) "" then
    Fail (Errorf "arch for %s was empty, unable to continue" None)
  else if String.eqb (Release d) "" then
    Fail (Errorf "release for %s was empty, unable to continue" None)
  else
    let! d := debian_getReleaseVersion d in
    let d := debian_setISOName d in
    let d := debian_setISOURL d in
    debian_setISOChecksum d.

(** [ubuntu.setISOChecksum] *)
Definition ubuntu_setISOChecksum (u : ubuntu) : outcome ubuntu :=
  let! page :=
    call (getStringFromURL
            (appendSlash (BaseURL u) +:+ appendSlash (Release u)
               +:+ strings.ToUpper (ChecksumType u) +:+ "SUMS")) in
  let! '(u, checksum) := ubuntu_findChecksum u page in
  Ok (set_Checksum checksum u).

(** [ubuntu.setISOURL] *)
Definition ubuntu_setISOURL (u : ubuntu) : ubuntu :=
  set_isoURL (appendSlash (BaseURL u) +:+ appendSlash (Release u) +:+ Name u) u.

(** [ubuntu.SetISOInfo] *)
Definition ubuntu_SetISOInfo (u : ubuntu) : outcome ubuntu :=
  let u := ubuntu_setISOName u in
  let! u := ubuntu_setISOChecksum u in
  Ok (ubuntu_setISOURL u).

End net.

End ranchr.

(** ** Package app: raw templates and their builders *)

Module app.

(** [TemplateSection], which [BuilderC] embeds. *)
Record TemplateSection := mkSection {
  Type_ : string;
  Settings : list string;
  Arrays : gmap string value
}.

Abbreviation BuilderC := TemplateSection.

(** Modelled from the spec: the types [centos], [debian] and [ubuntu] of
    package app and their [imageURL] method are not under src.  An ISO
    release has a derived image URL, a checksum and a checksum type. *)
Record isoRelease := mkISO {
  imageURL : string;
  Checksum : string;
  ChecksumType : string
}.

(** The [ReleaseISO] interface value: nil or a pointer to one variant. *)
Inductive releaser :=
| NoRelease
| Centos (c : isoRelease)
| Debian (d : isoRelease)
| Ubuntu (u : isoRelease).

(** The fields of [RawTemplate] that the modelled functions read or write. *)
Record RawTemplate := mkRaw {
  Distro : string;
  Release : string;
  Arch : string;
  Image : string;
  BuildName : string;
  OSType : string;
  SourceDir : string;
  TemplateOutputDir : string;
  IncludeComponentString : bool;
  IsExample : bool;
  Dirs : gmap string string;
  Builders : gmap string BuilderC;
  ReleaseISO : releaser
}.

Definition set_Dirs (d : gmap string string) (r : RawTemplate) : RawTemplate :=
  mkRaw (Distro r) (Release r) (Arch r) (Image r) (BuildName r) (OSType r)
        (SourceDir r) (TemplateOutputDir r) (IncludeComponentString r)
        (IsExample r) d (Builders r) (ReleaseISO r).

Definition set_Builders (b : gmap string BuilderC) (r : RawTemplate) : RawTemplate :=
  mkRaw (Distro r) (Release r) (Arch r) (Image r) (BuildName r) (OSType r)
        (SourceDir r) (TemplateOutputDir r) (IncludeComponentString r)
        (IsExample r) (Dirs r) b (ReleaseISO r).

(** *** Parsing and merging of settings *)

(** Modelled from the spec: [parseVar] is not under src.  An entry
    [key = value] is cut at its first equals sign and both sides are
    trimmed; an entry without a value has the empty value. *)
Definition parseVar (s : string) : string * string :=
  let '(k, v) := strings.SplitN2 s "="%char in
  (strings.TrimSpace k, strings.TrimSpace (default EmptyString v)).

Definition settingKey (s : string) : string := fst (parseVar s).
Definition settingValue (s : string) : string := snd (parseVar s).

(** Whether some entry of [l] has key [k]. *)
Definition hasKey (k : string) (l : list string) : bool :=
  existsb (fun e => String.eqb (settingKey e) k) l.

(** The entry of the last occurrence of key [k] in [l]. *)
Definition lastEntry (k : string) (l : list string) : option string :=
  head (List.filter (fun e => String.eqb (settingKey e) k) (rev l)).

(** Put entry [e] at the place of the entry with key [k], or at the end
    when there is none. *)
Fixpoint upsert (k e : string) (acc : list string) : list string :=
  match acc with
  | [] => [e]
  | x :: acc' =>
      if String.eqb (settingKey x) k then e :: acc' else x :: upsert k e acc'
  end.

(** One entry taken into the merge: it supersedes the entry of its key. *)
Definition mergeStep (acc : list string) (e : string) : list string :=
  upsert (settingKey e) e acc.

(** An entry of [new] that unsets its key: it has no value, and its key is
    not the reserved [guest_os_type]. *)
Definition unsets (new : list string) (e : string) : bool :=
  hasKey (settingKey e) new && String.eqb (settingValue e) ""
  && negb (String.eqb (settingKey e) "guest_os_type").

(** Modelled from the spec: [mergeSettingsSlices] is not under src.  The
    keys of the result are those of both inputs in the order of their first
    appearance across [old] followed by [new]; a later entry supersedes an
    earlier one with the same key; an unset marker of [new] removes its
    key, except for [guest_os_type].  On slices of strings it does not
    fail. *)
Definition mergeSettingsSlices (old new : list string) : outcome (list string) :=
  let merged := foldl mergeStep [] (old ++ new) in
  Ok (List.filter (fun e => negb (unsets new e)) merged).

(** Modelled from the spec: the method [mergeSettings] of [TemplateSection]
    is not under src; as in cfg.go, it replaces the section's settings by
    their merge with [new]. *)
Definition mergeSettings (b : TemplateSection) (new : list string) : outcome TemplateSection :=
  let! merged := mergeSettingsSlices (Settings b) new in
  Ok (mkSection (Type_ b) merged (Arrays b)).

(** The entry a settings sequence holds for key [k]: the first one with
    that key. *)
Definition entryOf (k : string) (l : list string) : option string :=
  find (fun e => String.eqb (settingKey e) k) l.

(** The value a settings sequence associates with [k], the last occurrence
    of a key winning. *)
Definition lookupSetting (k : string) (l : list string) : option string :=
  settingValue <$> lastEntry k l.

(** The keys of a settings sequence in the order of their first appearance. *)
Fixpoint firstKeys (l : list string) : list string :=
  match l with
  | [] => []
  | e :: rest =>
      settingKey e
        :: List.filter (fun k => negb (String.eqb k (settingKey e))) (firstKeys rest)
  end.

(** Whether [new] unsets key [k]: its last entry for [k] is an unset marker. *)
Definition unsetsKey (new : list string) (k : string) : bool :=
  match lastEntry k new with
  | Some e => unsets new e
  | None => false
  end.

(** *** Paths *)

Definition slash : string := "/".

(** Modelled from the spec: the path helpers of package app are not under
    src.  Path elements joined by separators, empty elements left out. *)
Definition pathJoin (elems : list string) : string :=
  foldr (fun e acc =>
           if String.eqb e "" then acc
           else if String.eqb acc "" then e
           else e +:+ slash +:+ acc) EmptyString elems.

Definition withSeparator (p : string) : string :=
  if strings.HasSuffix p slash then p else p +:+ slash.

(** Modelled from the spec: [buildOutPath] is not under src.  The
    destination of a resource in the output tree, with the component as a
    sub-directory when [include_component_string] is set. *)
Definition buildOutPath (r : RawTemplate) (component p : string) : string :=
  if IncludeComponentString r
  then pathJoin [TemplateOutputDir r; component; p]
  else pathJoin [TemplateOutputDir r; p].

(** Modelled from the spec: [buildTemplateResourcePath] is not under src.
    The same location relative to the output tree, as the template refers
    to it. *)
Definition buildTemplateResourcePath (r : RawTemplate) (component p : string)
    (isDir : bool) : string :=
  let rel := if IncludeComponentString r then pathJoin [component; p] else pathJoin [p] in
  if isDir then withSeparator rel else rel.

(** Modelled from the spec: the layered search path of [findSource], which
    is not under src, first candidate first. *)
Definition sourceCandidates (r : RawTemplate) (component p : string) : list string :=
  let s := SourceDir r in
  let d := Distro r in
  let rel := Release r in
  [ pathJoin [s; d; rel; BuildName r; p];
    pathJoin [s; d; rel; component; p];
    pathJoin [s; d; rel; Arch r; p];
    pathJoin [s; d; rel; p];
    pathJoin [s; d; Arch r; p];
    pathJoin [s; d; BuildName r; p];
    pathJoin [s; d; component; p];
    pathJoin [s; d; p];
    pathJoin [s; component; p];
    pathJoin [s; BuildName r; p];
    pathJoin [s; p] ].

(** Modelled from the spec: the search of [findSource], which is not under
    src.  The first candidate that exists; [stat] tells for a path whether
    it is missing ([None]), a directory ([Some true]) or a file. *)
Fixpoint firstExisting (stat : string -> option bool) (cands : list string)
    : option (string * bool) :=
  match cands with
  | [] => None
  | c :: rest =>
      match stat c with
      | Some d => Some (c, d)
      | None => firstExisting stat rest
      end
  end.

(** Modelled from the spec: [findSource] is not under src.  An empty path
    is an error; in example mode the relative form [component/path] is the
    answer and the disk is not looked at; otherwise the first existing
    candidate of the layered search, with a trailing separator when it is a
    directory. *)
Definition findSource (stat : string -> option bool) (r : RawTemplate)
    (p component : string) (isDir : bool) : outcome string :=
  if String.eqb p "" then Fail ErrEmptyPath
  else if IsExample r then
    let rel := pathJoin [component; p] in
    Ok (if isDir then withSeparator rel else rel)
  else
    match firstExisting stat (sourceCandidates r component p) with
    | Some (c, d) => Ok (if d then withSeparator c else c)
    | None => Fail (ErrNotExist p)
    end.

(** *** Command files *)

(** The loop of [commandFromSlice]; [cmd] is the command built so far. *)
Fixpoint commandFromSlice_loop (cmd : string) (lines : list string) : string :=
  match lines with
  | [] => cmd
  | line :: rest =>
      let line := strings.TrimSpace line in
      if negb (strings.HasSuffix line backslash) then cmd +:+ line
      else commandFromSlice_loop (cmd +:+ strings.TrimSuffix line backslash) rest
  end.

Definition commandFromSlice (lines : list string) : string :=
  match lines with
  | [] => EmptyString
  | [l] => l
  | _ => commandFromSlice_loop EmptyString lines
  end.

Definition stringIsCommandFilename (s : string) : bool :=
  let parts := strings.Split s "."%char in
  if (length parts <? 2)%nat then false
  else
    match parts !! (length parts - 2)%nat, parts !! (length parts - 1)%nat with
    | Some before, Some final =>
        if String.eqb before "" then false else strings.HasSuffix final "command"
    | _, _ => false
    end.

(** A line that continues on the next one: trimmed, it ends in a backslash. *)
Definition continued (line : string) : bool :=
  strings.HasSuffix (strings.TrimSpace line) backslash.

(** The trimmed line without its trailing backslash. *)
Definition lineBody (line : string) : string :=
  strings.TrimSuffix (strings.TrimSpace line) backslash.

(** *** State of the settings walk of a builder *)

Record walk := mkWalk {
  w_settings : gmap string value;
  hasChecksum : bool;
  hasChecksumType : bool;
  hasISOURL : bool;
  hasUsername : bool;
  hasPassword : bool;
  bootCmdFile : string;
  guestOSType : string
}.

(** [settings[k] = v] *)
Definition put (k : string) (v : value) (w : walk) : walk :=
  mkWalk (<[k := v]> (w_settings w)) (hasChecksum w) (hasChecksumType w)
         (hasISOURL w) (hasUsername w) (hasPassword w) (bootCmdFile w)
         (guestOSType w).

Definition set_hasChecksum (w : walk) : walk :=
  mkWalk (w_settings w) true (hasChecksumType w) (hasISOURL w)
         (hasUsername w) (hasPassword w) (bootCmdFile w) (guestOSType w).

Definition set_hasChecksumType (w : walk) : walk :=
  mkWalk (w_settings w) (hasChecksum w) true (hasISOURL w)
         (hasUsername w) (hasPassword w) (bootCmdFile w) (guestOSType w).

Definition set_hasISOURL (w : walk) : walk :=
  mkWalk (w_settings w) (hasChecksum w) (hasChecksumType w) true
         (hasUsername w) (hasPassword w) (bootCmdFile w) (guestOSType w).

Definition set_hasUsername (w : walk) : walk :=
  mkWalk (w_settings w) (hasChecksum w) (hasChecksumType w) (hasISOURL w)
         true (hasPassword w) (bootCmdFile w) (guestOSType w).

Definition set_hasPassword (w : walk) : walk :=
  mkWalk (w_settings w) (hasChecksum w) (hasChecksumType w) (hasISOURL w)
         (hasUsername w) true (bootCmdFile w) (guestOSType w).

Definition set_bootCmdFile (f : string) (w : walk) : walk :=
  mkWalk (w_settings w) (hasChecksum w) (hasChecksumType w) (hasISOURL w)
         (hasUsername w) (hasPassword w) f (guestOSType w).

Definition set_guestOSType (g : string) (w : walk) : walk :=
  mkWalk (w_settings w) (hasChecksum w) (hasChecksumType w) (hasISOURL w)
         (hasUsername w) (hasPassword w) (bootCmdFile w) g.

(** [for _, s := range workSlice] with a body that may return early. *)
Fixpoint forEach {S A} (body : S -> A -> outcome S) (st : S) (l : list A) : outcome S :=
  match l with
  | [] => Ok st
  | a :: rest => let! st' := body st a in forEach body st' rest
  end.

(** [i, err := strconv.Atoi(v)] with the error as the code wraps it. *)
Definition atoiErr (v : string) : option error :=
  match strconv.Atoi v with
  | inl _ => None
  | inr why => Some (NumError "Atoi" v why)
  end.

Definition atoiVal (v : string) : Z :=
  match strconv.Atoi v with
  | inl i => i
  | inr _ => 0%Z
  end.

(** [b, _ := strconv.ParseBool(v)] *)
Definition parseBoolVal (v : string) : bool := default false (strconv.ParseBool v).

Definition oneOf (k : string) (keys : list string) : bool :=
  existsb (String.eqb k) keys.

(** The keys [createVirtualBoxISO] copies as strings. *)
Definition vbisoStringKeys : list string :=
  [ "boot_wait"; "format"; "guest_additions_mode"; "guest_additions_path";
    "guest_additions_sha256"; "guest_additions_url"; "hard_drive_interface";
    "http_directory"; "iso_interface"; "iso_target_path"; "output_directory";
    "shutdown_timeout"; "virtualbox_version_file"; "vm_name" ].

(** The keys [createAmazonChroot] copies as strings without a flag. *)
Definition chrootStringKeys : list string :=
  [ "ami_description"; "ami_virtualization_type"; "command_wrapper";
    "device_path"; "mount_path" ].

(** The array names [createAmazonChroot] copies. *)
Definition chrootArrayNames : list string :=
  [ "ami_groups"; "ami_product_codes"; "ami_regions"; "ami_users";
    "chroot_mounts"; "copy_files"; "mount_options"; "tags" ].

(** The required-key flags of [createAmazonChroot] with its settings. *)
Record chrootWalk := mkChroot {
  c_settings : gmap string value;
  hasAccessKey : bool;
  hasAmiName : bool;
  hasSecretKey : bool;
  hasSourceAmi : bool
}.

(** What [createVirtualBoxISO] holds when it turns to the ISO settings. *)
Record prepared := mkPrepared {
  p_template : RawTemplate;
  p_settings : gmap string value;
  p_hasISOURL : bool;
  p_hasChecksum : bool;
  p_hasChecksumType : bool
}.

(** The state of the arrays loop of [createVirtualBoxISO]. *)
Record arraysState := mkArrays {
  a_settings : gmap string value;
  a_hasBootCmd : bool;
  a_hasISOURL : bool
}.

Section builders.

(** Collaborators that are not under src: variable replacement, the
    communicator pass, command file loading, ISO discovery, and the file
    system behind the source resolver. *)
Variable replaceVariables : RawTemplate -> string -> string.
Variable processCommunicator :
  RawTemplate -> string -> list string -> gmap string value ->
  error + (string * gmap string value).
Variable commandsFromFile : RawTemplate -> string -> string -> error + list string.
Variable ISOInfo : RawTemplate -> Builder -> list string -> error + RawTemplate.
Variable stat : string -> option bool.

(** [createVBoxManage] *)
Definition vboxManageRow (r : RawTemplate) (v : string) : list string :=
  let '(k, vv) := parseVar v in
  let k := if strings.HasPrefix k "--" then k else "--" +:+ k in
  ["modifyvm"; "{{.Name}}"; k; replaceVariables r vv].

Definition createVBoxManage (r : RawTemplate) (v : value) : outcome (list (list string)) :=
  let! vms := assertStrings (deepcopy_Copy v) in
  Ok (map (vboxManageRow r) vms).

(** [setHTTP]; the raw template comes back with its [Dirs] updated, next
    to the settings map [m]. *)
Definition setHTTP (r : RawTemplate) (component : string) (m : gmap string value)
    : outcome (RawTemplate * gmap string value) :=
  let v := default (VString "http") (m !! "http_directory") in
  match v with
  | VString val =>
      let! src := wrapErr (fun e => Errorf "setHTTP error" (Some e))
                    (findSource stat r val component true) in
      let r' :=
        if negb (String.eqb src "")
        then set_Dirs (<[buildOutPath r "" val := src]> (Dirs r)) r
        else r in
      Ok (r', <["http_directory" := VString (buildTemplateResourcePath r "" val false)]> m)
  | VNil => Panic
  | _ => Fail (Errorf "http_directory: expected string" None)
  end.

(** [updateCommon] *)
Definition updateCommon (r : RawTemplate) (newB : BuilderC) : outcome RawTemplate :=
  match Builders r !! Builder_String Common with
  | None =>
      Ok (set_Builders
            (<[Builder_String Common := mkSection (Type_ newB) (Settings newB) (Arrays newB)]>
               (Builders r)) r)
  | Some b =>
      let! b' := mergeSettings b (Settings b) in
      Ok (set_Builders (<[Builder_String Common := b']> (Builders r)) r)
  end.

(** The merge of the common settings with those of builder [b] that every
    create function starts with. *)
Definition workSettings (r : RawTemplate) (b : BuilderC) : outcome (list string) :=
  match Builders r !! Builder_String Common with
  | Some c => mergeSettingsSlices (Settings c) (Settings b)
  | None => Ok (Settings b)
  end.

(** The copy of an array into the settings that the arrays loops end
    with: [array := deepcopy.Copy(val)], stored unless it is nil. *)
Definition copyArray (name : string) (val : value) (m : gmap string value)
    : outcome (gmap string value) :=
  let array := deepcopy_Copy val in
  let! isnil := reflect_IsNil array in
  Ok (if isnil then m else <[name := array]> m).

(** [createAmazonChroot]: one entry of the merged settings. *)
Definition chrootSetting (r : RawTemplate) (w : chrootWalk) (s : string) : outcome chrootWalk :=
  let '(k, v0) := parseVar s in
  let v := replaceVariables r v0 in
  let m := c_settings w in
  if String.eqb k "access_key" then
    Ok (mkChroot (<[k := VString v]> m) true (hasAmiName w) (hasSecretKey w) (hasSourceAmi w))
  else if String.eqb k "ami_name" then
    Ok (mkChroot (<[k := VString v]> m) (hasAccessKey w) true (hasSecretKey w) (hasSourceAmi w))
  else if oneOf k chrootStringKeys then
    Ok (mkChroot (<[k := VString v]> m) (hasAccessKey w) (hasAmiName w) (hasSecretKey w) (hasSourceAmi w))
  else if oneOf k ["enhanced_networking"; "force_deregister"] then
    Ok (mkChroot (<[k := VBool (parseBoolVal v)]> m) (hasAccessKey w) (hasAmiName w)
                 (hasSecretKey w) (hasSourceAmi w))
  else if String.eqb k "root_volume_size" then
    Fail (SettingErr k v (atoiErr v))
  else if String.eqb k "secret_key" then
    Ok (mkChroot (<[k := VString v]> m) (hasAccessKey w) (hasAmiName w) true (hasSourceAmi w))
  else if String.eqb k "source_ami" then
    Ok (mkChroot (<[k := VString v]> m) (hasAccessKey w) (hasAmiName w) (hasSecretKey w) true)
  else Ok w.

Definition chrootArray (m : gmap string value) (entry : string * value)
    : outcome (gmap string value) :=
  let '(name, val) := entry in
  if oneOf name chrootArrayNames then copyArray name val m else Ok m.

Definition createAmazonChroot (r : RawTemplate) (ID : string) : outcome (gmap string value) :=
  match Builders r !! ID with
  | None => Fail (BuilderErr ID AmazonChroot ErrBuilderNotFound)
  | Some b =>
      let settings : gmap string value := {[ "type" := VString (Builder_String AmazonChroot) ]} in
      let! workSlice := workSettings r b in
      let! '(_, settings) := wrapErr (BuilderErr ID AmazonChroot)
                          (call (processCommunicator r ID workSlice settings)) in
      let! w := forEach (chrootSetting r) (mkChroot settings false false false false) workSlice in
      if negb (hasAccessKey w) then
        Fail (BuilderErr ID AmazonChroot (RequiredSettingErr "access_key"))
      else if negb (hasAmiName w) then
        Fail (BuilderErr ID AmazonChroot (RequiredSettingErr "ami_name"))
      else if negb (hasSecretKey w) then
        Fail (BuilderErr ID AmazonChroot (RequiredSettingErr "secret_key"))
      else if negb (hasSourceAmi w) then
        Fail (BuilderErr ID AmazonChroot (RequiredSettingErr "source_ami"))
      else forEach chrootArray (c_settings w) (map_to_list (Arrays b))
  end.

(** [createVirtualBoxISO]: one entry of the merged settings.  [prefix] is
    the communicator prefix, [hasCommunicator] whether there is one. *)
Definition vbisoSetting (r : RawTemplate) (ID prefix : string) (hasCommunicator : bool)
    (w : walk) (s : string) : outcome walk :=
  let '(k, v0) := parseVar s in
  let v := replaceVariables r v0 in
  let int :=
    match strconv.Atoi v with
    | inl i => Ok (put k (VInt i) w)
    | inr why =>
        Fail (BuilderErr ID VirtualBoxISO (SettingErr k v (Some (NumError "Atoi" v why))))
    end in
  if String.eqb k "boot_command" then
    Ok (if stringIsCommandFilename v then set_bootCmdFile v w else w)
  else if oneOf k vbisoStringKeys then Ok (put k (VString v) w)
  else if oneOf k ["disk_size"; "http_port_min"; "http_port_max"] then int
  else if String.eqb k "guest_os_type" then Ok (set_guestOSType v (put k (VString v) w))
  else if String.eqb k "headless" then Ok (put k (VBool (parseBoolVal v)) w)
  else if String.eqb k "iso_checksum" then Ok (set_hasChecksum (put k (VString v) w))
  else if String.eqb k "iso_checksum_type" then Ok (set_hasChecksumType (put k (VString v) w))
  else if String.eqb k "iso_url" then Ok (set_hasISOURL (put k (VString v) w))
  else if String.eqb k "shutdown_command" then
    if negb (stringIsCommandFilename v) then Ok (put k (VString v) w)
    else
      let! cmds := wrapErr (fun e => BuilderErr ID VirtualBoxISO (SettingErr k v (Some e)))
                     (call (commandsFromFile r v (Builder_String VirtualBoxISO))) in
      let cmd := commandFromSlice cmds in
      if String.eqb cmd "" then
        Fail (BuilderErr ID VirtualBoxISO (SettingErr k v (Some ErrNoCommands)))
      else Ok (put k (VString cmd) w)
  else if oneOf k ["ssh_host_port_min"; "ssh_host_port_max"] then
    if String.eqb prefix "winrm" then Ok w else int
  else if String.eqb k "ssh_password" then
    if hasCommunicator then Ok w else Ok (set_hasPassword (put k (VString v) w))
  else if String.eqb k "ssh_username" then
    if hasCommunicator then Ok w else Ok (set_hasUsername (put k (VString v) w))
  else Ok w.

(** [createVirtualBoxISO]: one entry of the builder's arrays. *)
Definition vbisoArray (r : RawTemplate) (st : arraysState) (entry : string * value)
    : outcome arraysState :=
  let '(name, val) := entry in
  let common (st : arraysState) :=
    let! m := copyArray name val (a_settings st) in
    Ok (mkArrays m (a_hasBootCmd st) (a_hasISOURL st)) in
  if String.eqb name "boot_command" then
    let! isnil := reflect_IsNil (deepcopy_Copy val) in
    common (if isnil then st
            else mkArrays (<[name := deepcopy_Copy val]> (a_settings st)) true (a_hasISOURL st))
  else if oneOf name ["export_opts"; "floppy_files"] then common st
  else if String.eqb name "iso_urls" then
    if a_hasISOURL st then Ok st
    else
      let! isnil := reflect_IsNil (deepcopy_Copy val) in
      common (if isnil then st
              else mkArrays (<[name := deepcopy_Copy val]> (a_settings st)) (a_hasBootCmd st) true)
  else if oneOf name ["vboxmanage"; "vboxmanage_post"] then
    let! rows := createVBoxManage r val in
    Ok (mkArrays (<[name := VStringss rows]> (a_settings st)) (a_hasBootCmd st) (a_hasISOURL st))
  else Ok st.

(** [createVirtualBoxISO] up to the point where it decides where the ISO
    settings come from. *)
Definition vbisoPrepare (r : RawTemplate) (ID : string) : outcome prepared :=
  let bad := BuilderErr ID VirtualBoxISO in
  match Builders r !! ID with
  | None => Fail (bad ErrBuilderNotFound)
  | Some b =>
      let settings : gmap string value := {[ "type" := VString (Builder_String VirtualBoxISO) ]} in
      let! workSlice := wrapErr bad (workSettings r b) in
      let! '(prefix, settings) := wrapErr bad (call (processCommunicator r ID workSlice settings)) in
      let hasCommunicator := negb (String.eqb prefix "") in
      let w0 :=
        mkWalk settings false false false
               (hasCommunicator && bool_decide (is_Some (settings !! (prefix +:+ "_username"))))
               (hasCommunicator && bool_decide (is_Some (settings !! (prefix +:+ "_password"))))
               EmptyString EmptyString in
      let! w := forEach (vbisoSetting r ID prefix hasCommunicator) w0 workSlice in
      if negb (hasUsername w) then Fail (bad (RequiredSettingErr (prefix +:+ "_username")))
      else if negb (hasPassword w) then Fail (bad (RequiredSettingErr (prefix +:+ "_password")))
      else
        let! '(r, settings) := wrapErr bad (setHTTP r (Builder_String VirtualBoxISO) (w_settings w)) in
        let! st := forEach (vbisoArray r) (mkArrays settings false (hasISOURL w))
                     (map_to_list (Arrays b)) in
        let! r := (if String.eqb (OSType r) ""
             then wrapErr bad (call (ISOInfo r VirtualBoxISO workSlice))
             else Ok r) in
        let! settings :=
          (if negb (a_hasBootCmd st) && negb (String.eqb (bootCmdFile w) "") then
             let! commands := wrapErr (fun e => bad (SettingErr "boot_command" (bootCmdFile w) (Some e)))
                          (call (commandsFromFile r (bootCmdFile w) (Builder_String VirtualBoxISO))) in
             if (len commands =? 0)%Z then
               Fail (bad (SettingErr "boot_command" (bootCmdFile w) (Some ErrNoCommands)))
             else Ok (<["boot_command" := deepcopy_Copy (VStrings commands)]> (a_settings st))
           else Ok (a_settings st)) in
        let settings :=
          if String.eqb (guestOSType w) ""
          then <["guest_os_type" := VString (OSType r)]> settings
          else settings in
        Ok (mkPrepared r settings (a_hasISOURL st) (hasChecksum w) (hasChecksumType w))
  end.

(** The ISO settings of a release object. *)
Definition isoSettings (rel : isoRelease) (m : gmap string value) : gmap string value :=
  <["iso_checksum_type" := VString (ChecksumType rel)]>
    (<["iso_checksum" := VString (Checksum rel)]>
       (<["iso_url" := VString (imageURL rel)]> m)).

(** The release object of the template's distro, when [ReleaseISO] holds
    the variant of that distro.  The distro names are those of the spec;
    the [Distro] constants are not under src. *)
Definition distroRelease (r : RawTemplate) : option isoRelease :=
  match ReleaseISO r with
  | Centos c => if String.eqb (Distro r) "centos" then Some c else None
  | Debian d => if String.eqb (Distro r) "debian" then Some d else None
  | Ubuntu u => if String.eqb (Distro r) "ubuntu" then Some u else None
  | NoRelease => None
  end.

(** The end of [createVirtualBoxISO]: the ISO settings come from the
    distro's release when no ISO URL was set, and are required otherwise.
    The type assertion on [ReleaseISO] panics on another variant. *)
Definition vbisoResolveISO (ID : string) (p : prepared) : outcome (gmap string value) :=
  let bad := BuilderErr ID VirtualBoxISO in
  let r := p_template p in
  if negb (p_hasISOURL p) then
    if String.eqb (Distro r) "centos" then
      match ReleaseISO r with
      | Centos c => Ok (isoSettings c (p_settings p))
      | _ => Panic
      end
    else if String.eqb (Distro r) "debian" then
      match ReleaseISO r with
      | Debian d => Ok (isoSettings d (p_settings p))
      | _ => Panic
      end
    else if String.eqb (Distro r) "ubuntu" then
      match ReleaseISO r with
      | Ubuntu u => Ok (isoSettings u (p_settings p))
      | _ => Panic
      end
    else Fail (bad (UnsupportedDistroErr (Distro r)))
  else if negb (p_hasChecksum p) then Fail (bad (RequiredSettingErr "iso_checksum"))
  else if negb (p_hasChecksumType p) then Fail (bad (RequiredSettingErr "iso_checksum_type"))
  else Ok (p_settings p).

Definition createVirtualBoxISO (r : RawTemplate) (ID : string) : outcome (gmap string value) :=
  let! p := vbisoPrepare r ID in
  vbisoResolveISO ID p.

(** [BuilderC.settingsToMap] *)
Definition settingsToMap (b : BuilderC) (r : RawTemplate) : gmap string value :=
  foldl (fun m s =>
           let '(k, v) := parseVar s in
           <[k := VString (replaceVariables r v)]> m) ∅ (Settings b).

(** [createVMXData] *)
Definition createVMXData (r : RawTemplate) (v : value) : outcome (gmap string string) :=
  let! vms := assertStrings (deepcopy_Copy v) in
  Ok (foldl (fun tmp e =>
               let '(k, val) := parseVar e in
               <[k := replaceVariables r val]> tmp) ∅ vms).

(** [processAMIBlockDeviceMappings]: one setting of one mapping. *)
Definition amiSetting (vals : gmap string value) (setting : string)
    : outcome (gmap string value) :=
  let '(k, v) := parseVar setting in
  if oneOf k ["delete_on_termination"; "encrypted"; "no_device"] then
    Ok (<[k := VBool (parseBoolVal v)]> vals)
  else if oneOf k ["device_name"; "snapshot_id"; "virtual_name"; "volume_type"] then
    Ok (<[k := VString v]> vals)
  else if oneOf k ["iops"; "volume_size"] then
    match strconv.Atoi v with
    | inl i => Ok (<[k := VInt i]> vals)
    | inr why =>
        Fail (SettingErr ("ami_block_device_mappings." +:+ k) v (Some (NumError "Atoi" v why)))
    end
  else Ok vals.

(** The outer loop of [processAMIBlockDeviceMappings]: one map per inner
    slice, in order; the first error ends it. *)
Fixpoint amiMappings (slices : list (list string)) : outcome (list (gmap string value)) :=
  match slices with
  | [] => Ok []
  | settings :: rest =>
      let! vals := forEach amiSetting ∅ settings in
      let! ret := amiMappings rest in
      Ok (vals :: ret)
  end.

(** [processAMIBlockDeviceMappings] on the values of the model.  The
    branch that returns a slice of maps as it is has no counterpart here:
    [value] has no slice of maps. *)
Definition processAMIBlockDeviceMappings (v : value) : outcome (list (gmap string value)) :=
  match v with
  | VStringss slices => amiMappings slices
  | VNilOf KStringss => Ok []
  | _ =>
      Fail (SettingErr "ami_block_device_mappings" EmptyString
                       (Some (Errorf "not in a supported format" None)))
  end.

(** [createNull].  Without a common section the settings handed to the
    communicator pass are those of the builder stored under [null], which
    are nil when there is none. *)
Definition createNull (r : RawTemplate) (ID : string) : outcome (gmap string value) :=
  match Builders r !! ID with
  | None => Fail (BuilderErr ID Null ErrBuilderNotFound)
  | Some b =>
      let settings : gmap string value := {[ "type" := VString (Builder_String Null) ]} in
      let! workSlice :=
        (match Builders r !! Builder_String Common with
         | Some c =>
             wrapErr (BuilderErr ID Null) (mergeSettingsSlices (Settings c) (Settings b))
         | None =>
             Ok (match Builders r !! Builder_String Null with
                 | Some n => Settings n
                 | None => []
                 end)
         end) in
      let! '(prefix, settings) :=
        wrapErr (BuilderErr ID Null) (call (processCommunicator r ID workSlice settings)) in
      if String.eqb prefix "" then
        Fail (BuilderErr ID Null (RequiredSettingErr "communicator"))
      else Ok settings
  end.

(** The collaborators of [updateBuilders] that are not under src: the deep
    copy of a builder, the keys of two maps of components, and the merge
    of the arrays of a section. *)
Variable Copy : BuilderC -> BuilderC.
Variable mergeKeysFromComponentMaps :
  gmap string BuilderC -> gmap string BuilderC -> list string.
Variable mergeArrays : BuilderC -> gmap string value -> BuilderC.

(** [DeepCopyMapStringBuilderC] *)
Definition DeepCopyMapStringBuilderC (b : gmap string BuilderC) : gmap string BuilderC :=
  Copy <$> b.

(** The zero value of [BuilderC], which a map gives for a key it does not
    hold. *)
Definition zeroBuilderC : BuilderC := mkSection EmptyString [] ∅.

(** [updateBuilders]: the body of the loop over the merged keys. *)
Definition updateBuilders_step (newB : gmap string BuilderC) (r : RawTemplate) (v : string)
    : outcome RawTemplate :=
  match Builders r !! v with
  | None =>
      let bb := default zeroBuilderC (newB !! v) in
      Ok (set_Builders (<[v := Copy bb]> (Builders r)) r)
  | Some b =>
      match newB !! v with
      | None => Ok r
      | Some bb =>
          let! b := wrapErr (fun e => Errorf "builder: merge of settings failed" (Some e))
                      (mergeSettings b (Settings bb)) in
          let b := mergeArrays b (Arrays bb) in
          Ok (set_Builders (<[v := b]> (Builders r)) r)
      end
  end.

(** [updateBuilders].  The keys are taken from the builders as they are
    before [updateCommon] runs, and the error of [updateCommon] is dropped,
    as in the code.  The template's map of builders is an allocated map
    here. *)
Definition updateBuilders (r : RawTemplate) (newB : gmap string BuilderC)
    : outcome RawTemplate :=
  if (Z.of_nat (size newB) =? 0)%Z then Ok r
  else
    let oldC := DeepCopyMapStringBuilderC (Builders r) in
    let newC := DeepCopyMapStringBuilderC newB in
    let keys := mergeKeysFromComponentMaps oldC newC in
    let! r :=
      (match newB !! Builder_String Common with
       | Some c =>
           match updateCommon r c with
           | Ok r' => Ok r'
           | Fail _ => Ok r
           | Panic => Panic
           end
       | None => Ok r
       end) in
    forEach (updateBuilders_step newB) r keys.

(** [createVirtualBoxISO] together with the template as the call leaves
    it: [setHTTP] and the ISO discovery write to it. *)
Definition createVirtualBoxISO_template (r : RawTemplate) (ID : string)
    : outcome (gmap string value * RawTemplate) :=
  let! p := vbisoPrepare r ID in
  let! settings := vbisoResolveISO ID p in
  Ok (settings, p_template p).

(** The Unicode case mapping behind [ParseBuilder], and the create
    functions of the builder kinds that are not modelled here:
    [createOther typ r ID] stands for the call of the function of kind
    [typ] on [r], and gives the settings together with the template as the
    call leaves it. *)
Variable unicode_ToLower : string -> string.
Variable createOther :
  Builder -> RawTemplate -> string -> outcome (gmap string value * RawTemplate).

(** The [switch typ] of [createBuilders]: the call of the create function
    of the kind, and none for what is no builder kind.  The create
    functions modelled above leave the template as it is, but for
    [createVirtualBoxISO]. *)
Definition createKind (typ : Builder) (r : RawTemplate) (ID : string)
    : option (outcome (gmap string value * RawTemplate)) :=
  match typ with
  | UnsupportedBuilder | Common | Custom => None
  | AmazonChroot => Some (let! tmpS := createAmazonChroot r ID in Ok (tmpS, r))
  | Null => Some (let! tmpS := createNull r ID in Ok (tmpS, r))
  | VirtualBoxISO => Some (createVirtualBoxISO_template r ID)
  | other => Some (createOther other r ID)
  end.

(** The loop of [createBuilders] over the builder IDs; [bldrs] are the
    settings maps made so far.  The error for a type that is no builder
    kind is an [InvalidComponentErr] with the component [builder] and the
    type. *)
Fixpoint createBuilders_loop (r : RawTemplate) (bldrs : list (gmap string value))
    (ids : list string) : outcome (list (gmap string value) * RawTemplate) :=
  match ids with
  | [] => Ok (bldrs, r)
  | ID :: rest =>
      match Builders r !! ID with
      | None => Fail (BuilderErr ID UnsupportedBuilder ErrBuilderNotFound)
      | Some bldr =>
          match createKind (ParseBuilder unicode_ToLower (Type_ bldr)) r ID with
          | Some created =>
              let! '(tmpS, r) := created in
              createBuilders_loop r (bldrs ++ [tmpS]) rest
          | None =>
              Fail (Errorf "invalid component: builder" (Some (Errorf (Type_ bldr) None)))
          end
      end
  end.

(** [createBuilders] *)
Definition createBuilders (r : RawTemplate) (BuilderIDs : list string)
    : outcome (list (gmap string value) * RawTemplate) :=
  if (len BuilderIDs <=? 0)%Z then
    Fail (BuilderErr EmptyString UnsupportedBuilder (Errorf "no builders specified" None))
  else createBuilders_loop r [] BuilderIDs.

End builders.

(** *** The table of [TestFindSourceExample] *)

Record findSourceTest := mkFindSourceTest {
  t_p : string;
  t_component : string;
  t_isDir : bool;
  t_src : string;
  t_expectedErr : string
}.

Definition TestFindSourceExample_tests : list findSourceTest :=
  [ mkFindSourceTest "" "" false "" "find source: empty path";
    mkFindSourceTest "something" "" false "something" "";
    mkFindSourceTest "http/preseed.cfg" "" false "http/preseed.cfg" "";
    mkFindSourceTest "cookbook1" "chef-solo" true "chef-solo/cookbook1/" "";
    mkFindSourceTest "14_text.txt" "" false "14_text.txt" "";
    mkFindSourceTest "minion" "salt" false "salt/minion" "";
    mkFindSourceTest "master" "salt-masterless" false "salt-masterless/master" "";
    mkFindSourceTest "chef.cfg" "chef-solo" false "chef-solo/chef.cfg" "";
    mkFindSourceTest "chef.cfg" "chef-client" false "chef-client/chef.cfg" "";
    mkFindSourceTest "chef.cfg" "chef" false "chef/chef.cfg" "";
    mkFindSourceTest "commands" "shell" true "shell/commands/" "";
    mkFindSourceTest "ubuntu_build.txt" "" false "ubuntu_build.txt" "" ].

(** The template of the test.  [newRawTemplate] is not under src: the
    fields the test does not set are empty here. *)
Definition TestFindSourceExample_template : RawTemplate :=
  mkRaw "ubuntu" "14.04" "amd64" "server" "ubuntu_build" "" "../test_files/example/src" ""
        false true ∅ ∅ NoRelease.

(** Modelled from the tests: the texts of the errors of [findSource], as
    [TestFindSource] and [TestFindSourceExample] expect them. *)
Definition findSource_Error (e : error) : string :=
  match e with
  | ErrEmptyPath => "find source: empty path"
  | ErrNotExist p => p +:+ ": file does not exist"
  | _ => EmptyString
  end.

(** The body of the loop of the test: whether a row passes. *)
Definition findSourceTest_passes (stat : string -> option bool) (r : RawTemplate)
    (t : findSourceTest) : bool :=
  match findSource stat r (t_p t) (t_component t) (t_isDir t) with
  | Fail e => String.eqb (findSource_Error e) (t_expectedErr t)
  | Ok src => String.eqb (t_expectedErr t) "" && String.eqb (t_src t) src
  | Panic => false
  end.

End app.

(** The entries a mapping made by [processAMIBlockDeviceMappings] can
    hold: a supported key with a value of the type the code gives that
    key. *)
Definition amiEntryOk (k : string) (v : value) : Prop :=
  (In k ["delete_on_termination"; "encrypted"; "no_device"] /\ exists b, v = VBool b)
  \/ (In k ["device_name"; "snapshot_id"; "virtual_name"; "volume_type"]
      /\ exists s, v = VString s)
  \/ (In k ["iops"; "volume_size"] /\ exists i, v = VInt i).

(** ** Concrete inputs used by the examples below *)

Module samples.

Definition centos7 : ranchr.centOS :=
  ranchr.mkRelease "" "" "sha256" "CentOS-7.8.2003-x86_64-minimal.iso" ""
                   "x86_64" "centos" "minimal" "7" "".

Definition mirrorlistPage : string :=
  "http://mirror.example.org/centos/7.8.2003/os/x86_64/" +:+ String ranchr.newline
    "http://mirror.example.net/7.8.2003/os/x86_64/".

Definition anchor (href : string) : ranchr.Node :=
  ranchr.mkNode ranchr.ElementNode "a" [ranchr.mkAttr "href" href]
                [ranchr.mkNode ranchr.TextNode href [] []].

Definition page (anchors : list ranchr.Node) : ranchr.Node :=
  ranchr.mkNode ranchr.DocumentNode "" []
    [ranchr.mkNode ranchr.ElementNode "html" []
       [ranchr.mkNode ranchr.ElementNode "body" [] anchors]].

Definition mirrorA : string := "http://mirror.example.org/centos/7/isos/x86_64/".
Definition mirrorB : string := "http://mirror.example.net/7/isos/x86_64/".

(** An isoredirect page with one usable mirror, next to an ftp one and a
    link for another architecture. *)
Definition oneMirror : ranchr.Node :=
  page [anchor "ftp://ftp.example.org/centos/7/isos/x86_64/"; anchor mirrorA;
        anchor "http://mirror.example.org/centos/7/isos/i386/"].

Definition twoMirrors : ranchr.Node := page [anchor mirrorA; anchor mirrorB].

Definition fetch (body : string) : string -> error + string := fun _ => inr body.
Definition parsed (doc : ranchr.Node) : string -> error + ranchr.Node := fun _ => inr doc.

(** Collaborators of the builders that do nothing: no variables to
    replace, no communicator, no command files, ISO discovery that leaves
    the template as it is, an empty disk. *)
Definition noVariables : app.RawTemplate -> string -> string := fun _ s => s.
Definition noCommunicator :
  app.RawTemplate -> string -> list string -> gmap string value ->
  error + (string * gmap string value) := fun _ _ _ m => inr (EmptyString, m).
Definition noCommandFiles : app.RawTemplate -> string -> string -> error + list string :=
  fun _ p _ => inl (ErrNotExist p).
Definition noDiscovery : app.RawTemplate -> Builder -> list string -> error + app.RawTemplate :=
  fun r _ _ => inr r.
Definition emptyDisk : string -> option bool := fun _ => None.

Definition section (type : string) (settings : list string) : app.BuilderC :=
  app.mkSection type settings ∅.

(** A raw template in example mode with the given distro, release object
    and builders; the OS type is already known. *)
Definition template (distro : string) (iso : app.releaser)
    (builders : gmap string app.BuilderC) : app.RawTemplate :=
  app.mkRaw distro "14.04" "amd64" "server" "ubuntu_build" "Ubuntu_64" "src" "out"
            true true ∅ builders iso.

Definition ubuntuISO : app.isoRelease :=
  app.mkISO "http://releases.ubuntu.com/14.04/ubuntu-14.04-server-amd64.iso"
            "abc123" "sha256".

Definition commonSettings : list string :=
  ["ssh_username = vagrant"; "ssh_password = vagrant"; "headless = true"].

(** A virtualbox-iso build whose own settings are [own]. *)
Definition vboxTemplate (own : list string) : app.RawTemplate :=
  template "ubuntu" (app.Ubuntu ubuntuISO)
    (<["common" := section "common" commonSettings]>
       (<["virtualbox-iso" := section "virtualbox-iso" own]> ∅)).

(** An amazon-chroot build whose own settings are [own]. *)
Definition chrootTemplate (own : list string) : app.RawTemplate :=
  template "ubuntu" (app.Ubuntu ubuntuISO)
    (<["amazon-chroot" := section "amazon-chroot" own]> ∅).

Definition chrootSettings : list string :=
  ["access_key = AKIA"; "ami_name = test"; "secret_key = s3cr3t"; "source_ami = ami-1"].

(** A working template with a common builder section, and the common
    section of a named build laid over it. *)
Definition workingTemplate : app.RawTemplate :=
  template "ubuntu" (app.Ubuntu ubuntuISO)
    (<["common" := section "common" ["ssh_wait_timeout = 300m"; "headless = true"]]> ∅).

Definition buildCommon : app.BuilderC :=
  section "common" ["ssh_wait_timeout = 240m"; "boot_wait = 5s"].

(** The settings map of a builder before any setting is walked. *)
Definition typeOnly (type : string) : gmap string value := {[ "type" := VString type ]}.

(** A CentOS release given as major.minor, with a mirror as base URL. *)
Definition centos78 : ranchr.centOS :=
  ranchr.mkRelease "http://mirror.example.org/centos" "" "sha256"
                   "CentOS-7.8-x86_64-minimal.iso" "" "x86_64" "centos" "minimal" "7.8" "".

(** A checksums page of CentOS: one line per image, the checksum before
    the name. *)
Definition sumsHead : string :=
  "aaaa  CentOS-7.8-x86_64-netinstall.iso" +:+ String ranchr.newline "".
Definition sumsLine : string := "bbbb  ".
Definition sumsPage : string :=
  sumsHead +:+ sumsLine +:+ "CentOS-7.8-x86_64-minimal.iso" +:+ String ranchr.newline "".

(** A network on which every request fails. *)
Definition offline : string -> error + string := fun url => inl (ErrNotExist url).

(** A network that serves one page at one URL. *)
Definition serves (url body : string) : string -> error + string :=
  fun u => if String.eqb u url then inr body else inl (ErrNotExist u).

(** A stand-in for [appendSlash]: the string with a slash at its end. *)
Definition withSlash (s : string) : string :=
  if strings.HasSuffix s "/" then s else s +:+ "/".

(** A Debian release whose full release is still to be found, and the
    index page of the CD image site. *)
Definition debian7 : ranchr.debian :=
  ranchr.mkRelease "http://cdimage.debian.org/debian-cd/" "" "sha256" "" ""
                   "i386" "debian" "netinst" "7" "".

Definition debianIndex : string :=
  "<a href=" +:+ ranchr.dquote +:+ "7.8.0/" +:+ ranchr.dquote +:+ ">7.8.0/</a>".

Definition debianSums : string :=
  "cccc  debian-7.8.0-i386-netinst.iso" +:+ String ranchr.newline "".

(** An Ubuntu LTS release and two checksums pages: one that names the
    release as configured, one that names a point release. *)
Definition ubuntu1404 : ranchr.ubuntu :=
  ranchr.mkRelease "http://releases.ubuntu.com/" "" "sha256"
                   "ubuntu-14.04-server-amd64.iso" "" "amd64" "ubuntu" "server" "14.04" "".

Definition sha256A : string :=
  "0123456789abcdef0123456789abcdef0123456789abcdef0123456789abcdef".
Definition sha256B : string :=
  "fedcba9876543210fedcba9876543210fedcba9876543210fedcba9876543210".

Definition ubuntuSums : string :=
  sha256A +:+ " *ubuntu-14.04-desktop-amd64.iso" +:+ String ranchr.newline
    (sha256B +:+ " *ubuntu-14.04-server-amd64.iso" +:+ String ranchr.newline "").

Definition ubuntuPointSums : string :=
  sha256B +:+ " *ubuntu-14.04.4-server-amd64.iso" +:+ String ranchr.newline "".

(** A communicator pass that finds an ssh communicator. *)
Definition sshCommunicator :
  app.RawTemplate -> string -> list string -> gmap string value ->
  error + (string * gmap string value) :=
  fun _ _ _ m => inr ("ssh", <["communicator" := VString "ssh"]> m).

(** An amazon-chroot build with its required settings and one array, and
    the settings it gives. *)
Definition regionsSection : app.BuilderC :=
  app.mkSection "amazon-chroot" chrootSettings
                (<["ami_regions" := VStrings ["us-east-1"; "us-west-2"]]> ∅).

Definition chrootWithRegions : app.RawTemplate :=
  template "ubuntu" (app.Ubuntu ubuntuISO) (<["amazon-chroot" := regionsSection]> ∅).

Definition chrootRegionsResult : gmap string value :=
  <["ami_regions" := VStrings ["us-east-1"; "us-west-2"]]>
    (<["source_ami" := VString "ami-1"]>
       (<["secret_key" := VString "s3cr3t"]>
          (<["ami_name" := VString "test"]>
             (<["access_key" := VString "AKIA"]> (typeOnly "amazon-chroot"))))).

(** Stand-ins for the collaborators of [updateBuilders]: a copy that is
    the builder itself, the keys of both maps, and arrays of the named
    build laid over those of the section. *)
Definition copySection : app.BuilderC -> app.BuilderC := fun b => b.

Definition unionKeys (old new : gmap string app.BuilderC) : list string :=
  (map_to_list (old ∪ new)).*1.

Definition overlayArrays (b : app.BuilderC) (arrays : gmap string value) : app.BuilderC :=
  app.mkSection (app.Type_ b) (app.Settings b) (arrays ∪ app.Arrays b).

(** The builders of a named build: a common section only, with values of
    its own, or with an unset marker. *)
Definition buildBuilders : gmap string app.BuilderC := <["common" := buildCommon]> ∅.

Definition unsetBuilders : gmap string app.BuilderC :=
  <["common" := section "common" ["ssh_wait_timeout ="]]> ∅.

(** A template with an amazon-chroot builder, whose type is written with
    capitals, and a null builder; the settings they give with an ssh
    communicator. *)
Definition twoBuilders : app.RawTemplate :=
  template "ubuntu" (app.Ubuntu ubuntuISO)
    (<["amazon-chroot" := section "Amazon-Chroot" chrootSettings]>
       (<["null" := section "null" []]> ∅)).

Definition chrootSshResult : gmap string value :=
  <["source_ami" := VString "ami-1"]>
    (<["secret_key" := VString "s3cr3t"]>
       (<["ami_name" := VString "test"]>
          (<["access_key" := VString "AKIA"]>
             (<["communicator" := VString "ssh"]> (typeOnly "amazon-chroot"))))).

Definition nullSshResult : gmap string value :=
  <["communicator" := VString "ssh"]> (typeOnly "null").

(** Create functions, for the kinds that are not modelled, that return
    only the type of the builder. *)
Definition createTypeOnly :
  Builder -> app.RawTemplate -> string -> outcome (gmap string value * app.RawTemplate) :=
  fun typ r _ => Ok (typeOnly (Builder_String typ), r).

End samples.

(** * Properties *)

(** ** Facts about strings *)

Lemma append_cons (c : ascii) (s t : string) :
  String c s +:+ t = String c (s +:+ t).
Proof. reflexivity. Qed.

Lemma append_nil_l (s : string) : "" +:+ s = s.
Proof. reflexivity. Qed.

Lemma append_nil_r (s : string) : s +:+ "" = s.
Proof.
  induction s as [|c s IH]; [reflexivity|].
  now rewrite append_cons, IH.
Qed.

Lemma append_assoc (a b c : string) : (a +:+ b) +:+ c = a +:+ (b +:+ c).
Proof.
  induction a as [|x a IH]; [reflexivity|].
  now rewrite !append_cons, IH.
Qed.

Lemma length_append (a b : string) :
  String.length (a +:+ b) = (String.length a + String.length b)%nat.
Proof.
  induction a as [|x a IH]; [reflexivity|].
  rewrite append_cons. cbn [String.length]. now rewrite IH.
Qed.

Lemma substring_0_append (a b : string) :
  String.substring 0 (String.length a) (a +:+ b) = a.
Proof.
  induction a as [|x a IH].
  - rewrite append_nil_l. destruct b; reflexivity.
  - rewrite append_cons. cbn [String.length String.substring]. now rewrite IH.
Qed.

Lemma HasSuffix_append (p suf : string) : strings.HasSuffix (p +:+ suf) suf = true.
Proof.
  induction p as [|c p IH].
  - rewrite append_nil_l. destruct suf; cbn [strings.HasSuffix]; [reflexivity|].
    now rewrite String.eqb_refl.
  - rewrite append_cons. cbn [strings.HasSuffix]. rewrite IH. apply orb_true_r.
Qed.

Lemma HasSuffix_inv (s suf : string) :
  strings.HasSuffix s suf = true -> exists p, s = p +:+ suf.
Proof.
  induction s as [|c s IH]; cbn [strings.HasSuffix]; intros H.
  - exists "". destruct suf; [reflexivity | discriminate].
  - apply orb_true_iff in H as [H|H].
    + apply String.eqb_eq in H. exists "". now rewrite H.
    + destruct (IH H) as [p ->]. now exists (String c p).
Qed.

Lemma TrimSuffix_append (p suf : string) : strings.TrimSuffix (p +:+ suf) suf = p.
Proof.
  unfold strings.TrimSuffix. rewrite HasSuffix_append, length_append.
  replace (String.length p + String.length suf - String.length suf)%nat
    with (String.length p) by lia.
  apply substring_0_append.
Qed.

(** A string with the suffix is its [TrimSuffix] followed by the suffix:
    exactly one copy of the suffix is removed. *)
Lemma TrimSuffix_HasSuffix (s suf : string) :
  strings.HasSuffix s suf = true -> s = strings.TrimSuffix s suf +:+ suf.
Proof.
  intros H. destruct (HasSuffix_inv _ _ H) as [p ->].
  now rewrite TrimSuffix_append.
Qed.

Lemma lastByte_None (s : string) : lastByte s = None -> s = "".
Proof.
  induction s as [|c s IH]; [reflexivity|].
  cbn [lastByte]. destruct s; [discriminate|].
  intros H. specialize (IH H). discriminate.
Qed.

Lemma lastByte_append (a b : string) :
  lastByte (a +:+ b) = match lastByte b with Some c => Some c | None => lastByte a end.
Proof.
  induction a as [|x a IH].
  - rewrite append_nil_l. destruct (lastByte b); reflexivity.
  - rewrite append_cons. cbn [lastByte]. rewrite IH.
    destruct (lastByte b) eqn:Eb.
    + destruct (a +:+ b) eqn:E; [|reflexivity].
      destruct a; [|rewrite append_cons in E; discriminate].
      rewrite append_nil_l in E. subst b. discriminate.
    + apply lastByte_None in Eb. subst b. rewrite append_nil_r.
      reflexivity.
Qed.

Lemma lastByte_concatAll (l : list string) (c : ascii) :
  Forall (fun s => lastByte s <> Some c) l -> lastByte (concatAll l) <> Some c.
Proof.
  induction 1 as [|s l Hs _ IH]; [discriminate|].
  cbn [concatAll foldr]. fold (concatAll l). rewrite lastByte_append.
  destruct (lastByte (concatAll l)); [exact IH | exact Hs].
Qed.

(** ** [commandFromSlice] *)

Lemma commandFromSlice_loop_stops (pre post : list string) (l cmd : string) :
  Forall (fun x => app.continued x = true) pre ->
  app.continued l = false ->
  app.commandFromSlice_loop cmd (pre ++ l :: post)
  = cmd +:+ concatAll (map app.lineBody pre) +:+ strings.TrimSpace l.
Proof.
  intros Hpre Hl. revert cmd.
  induction Hpre as [|x pre Hx _ IH]; intros cmd.
  - cbn [app app.commandFromSlice_loop map concatAll foldr].
    unfold app.continued in Hl. rewrite Hl. reflexivity.
  - cbn [app app.commandFromSlice_loop map concatAll foldr].
    unfold app.continued in Hx. rewrite Hx. cbn [negb].
    rewrite IH. fold (app.lineBody x). now rewrite !append_assoc.
Qed.

Lemma commandFromSlice_loop_all (lines : list string) (cmd : string) :
  Forall (fun x => app.continued x = true) lines ->
  app.commandFromSlice_loop cmd lines = cmd +:+ concatAll (map app.lineBody lines).
Proof.
  intros H. revert cmd.
  induction H as [|x lines Hx _ IH]; intros cmd.
  - cbn [app.commandFromSlice_loop map concatAll foldr]. now rewrite append_nil_r.
  - cbn [app.commandFromSlice_loop map concatAll foldr].
    unfold app.continued in Hx. rewrite Hx. cbn [negb].
    rewrite IH. fold (app.lineBody x). now rewrite append_assoc.
Qed.

Lemma commandFromSlice_multi (lines : list string) :
  (2 <= length lines)%nat ->
  app.commandFromSlice lines = app.commandFromSlice_loop "" lines.
Proof.
  destruct lines as [|a [|b rest]]; cbn [length]; intros H; try lia.
  reflexivity.
Qed.

(** C5, as the code has it.  A list of at most one line is returned as it
    is: the empty string for no line, the line itself, untrimmed and with
    its trailing backslash, for one line.  For two or more lines every line
    is trimmed; a line ending in a backslash loses that one backslash and
    is followed by the next line; the first line without a trailing
    backslash ends the command and later lines are ignored.  When all lines
    end in a backslash the result is the concatenation of their bodies,
    which has no trailing backslash unless a body itself ends in one. *)
Theorem commandFromSlice_joins_lines (lines : list string) :
  ((length lines <= 1)%nat -> app.commandFromSlice lines = default "" (head lines))
  /\ ((2 <= length lines)%nat ->
      (forall pre l post,
          lines = pre ++ l :: post ->
          Forall (fun x => app.continued x = true) pre ->
          app.continued l = false ->
          app.commandFromSlice lines
          = concatAll (map app.lineBody pre) +:+ strings.TrimSpace l)
      /\ (Forall (fun x => app.continued x = true) lines ->
          app.commandFromSlice lines = concatAll (map app.lineBody lines)
          /\ (Forall (fun x => lastByte (app.lineBody x) <> Some "\"%char) lines ->
              lastByte (app.commandFromSlice lines) <> Some "\"%char))
      /\ (forall l, app.continued l = true ->
                    strings.TrimSpace l = app.lineBody l +:+ backslash)).
Proof.
  split.
  - destruct lines as [|a [|b rest]]; cbn [length]; intros H; try lia; reflexivity.
  - intros H2. rewrite (commandFromSlice_multi lines H2). repeat split.
    + intros pre l post -> Hpre Hl.
      now rewrite (commandFromSlice_loop_stops pre post l "" Hpre Hl).
    + now rewrite commandFromSlice_loop_all.
    + intros Hbody. rewrite commandFromSlice_loop_all by assumption.
      rewrite append_nil_l. apply lastByte_concatAll.
      apply Forall_map. exact Hbody.
    + intros l Hl. apply TrimSuffix_HasSuffix. exact Hl.
Qed.

(** ** Merging settings *)

Section merge_facts.

Import app.

Lemma lastEntry_cons (k e : string) (l : list string) :
  lastEntry k (e :: l)
  = match lastEntry k l with
    | Some x => Some x
    | None => if String.eqb (settingKey e) k then Some e else None
    end.
Proof.
  unfold lastEntry. cbn [rev]. rewrite List.filter_app.
  destruct (List.filter _ (rev l)) as [|x xs]; [|reflexivity].
  cbn. destruct (String.eqb (settingKey e) k); reflexivity.
Qed.

Lemma lastEntry_app (k : string) (a b : list string) :
  lastEntry k (a ++ b)
  = match lastEntry k b with
    | Some x => Some x
    | None => lastEntry k a
    end.
Proof.
  induction a as [|e a IH].
  - cbn. destruct (lastEntry k b); reflexivity.
  - rewrite <- app_comm_cons, !lastEntry_cons, IH.
    destruct (lastEntry k b); reflexivity.
Qed.

Lemma lastEntry_None (k : string) (l : list string) :
  lastEntry k l = None <-> hasKey k l = false.
Proof.
  induction l as [|e l [IH1 IH2]]; [easy|].
  rewrite lastEntry_cons. cbn [hasKey existsb].
  fold (hasKey k l).
  destruct (String.eqb (settingKey e) k) eqn:Ek; cbn [orb].
  - destruct (lastEntry k l); split; discriminate.
  - destruct (lastEntry k l) eqn:E.
    + split; [discriminate|]. intros H. specialize (IH2 H). discriminate.
    + split; intros _; [now apply IH1 | reflexivity].
Qed.

Lemma lastEntry_key (k e : string) (l : list string) :
  lastEntry k l = Some e -> settingKey e = k.
Proof.
  induction l as [|x l IH]; [discriminate|].
  rewrite lastEntry_cons. destruct (lastEntry k l); [exact IH|].
  destruct (String.eqb_spec (settingKey x) k); [|discriminate].
  now intros [= <-].
Qed.

Lemma entryOf_upsert (k' e : string) (acc : list string) :
  entryOf k' (upsert (settingKey e) e acc)
  = if String.eqb (settingKey e) k' then Some e else entryOf k' acc.
Proof.
  induction acc as [|x acc IH]; cbn [upsert entryOf find].
  - destruct (String.eqb (settingKey e) k'); reflexivity.
  - destruct (String.eqb_spec (settingKey x) (settingKey e)) as [Hx|Hx]; cbn [find].
    + rewrite Hx. destruct (String.eqb (settingKey e) k'); reflexivity.
    + fold (entryOf k' (upsert (settingKey e) e acc)). rewrite IH.
      destruct (String.eqb_spec (settingKey x) k') as [Hk|Hk];
        destruct (String.eqb_spec (settingKey e) k'); try reflexivity.
      congruence.
Qed.

Lemma entryOf_foldl (k : string) (l acc : list string) :
  entryOf k (foldl mergeStep acc l)
  = match lastEntry k l with
    | Some e => Some e
    | None => entryOf k acc
    end.
Proof.
  revert acc. induction l as [|e l IH]; intros acc; [reflexivity|].
  cbn [foldl]. rewrite IH, lastEntry_cons. unfold mergeStep.
  rewrite entryOf_upsert.
  destruct (lastEntry k l); [reflexivity|].
  destruct (String.eqb (settingKey e) k); reflexivity.
Qed.

Lemma keys_upsert (e : string) (acc : list string) :
  map settingKey (upsert (settingKey e) e acc)
  = if hasKey (settingKey e) acc then map settingKey acc
    else map settingKey acc ++ [settingKey e].
Proof.
  induction acc as [|x acc IH]; [reflexivity|].
  cbn [upsert hasKey existsb map].
  destruct (String.eqb_spec (settingKey x) (settingKey e)) as [Hx|Hx]; cbn [orb map].
  - now rewrite Hx.
  - fold (hasKey (settingKey e) acc). rewrite IH.
    destruct (hasKey (settingKey e) acc); reflexivity.
Qed.

Lemma hasKey_In (k : string) (l : list string) :
  hasKey k l = true <-> In k (map settingKey l).
Proof.
  unfold hasKey. rewrite existsb_exists, in_map_iff. split.
  - intros (e & He & Hk). apply String.eqb_eq in Hk. eauto.
  - intros (e & Hk & He). exists e. split; [exact He|]. now apply String.eqb_eq.
Qed.


Lemma hasKey_upsert (k e : string) (acc : list string) :
  hasKey k (upsert (settingKey e) e acc)
  = hasKey k acc || String.eqb (settingKey e) k.
Proof.
  induction acc as [|x acc IH]; cbn [upsert hasKey existsb].
  - now rewrite orb_false_r.
  - destruct (String.eqb_spec (settingKey x) (settingKey e)) as [Hx|Hx];
      cbn [existsb]; fold (hasKey k acc).
    + rewrite Hx. destruct (String.eqb (settingKey e) k), (hasKey k acc); reflexivity.
    + fold (hasKey k (upsert (settingKey e) e acc)). rewrite IH.
      now rewrite orb_assoc.
Qed.

Lemma filter_filter_and {A} (f g : A -> bool) (l : list A) :
  List.filter f (List.filter g l) = List.filter (fun x => g x && f x) l.
Proof.
  induction l as [|x l IH]; [reflexivity|].
  cbn [List.filter]. destruct (g x); cbn [andb List.filter]; [|exact IH].
  destruct (f x); now rewrite IH.
Qed.

Lemma keys_foldl_NoDup (l acc : list string) :
  NoDup (map settingKey acc) -> NoDup (map settingKey (foldl mergeStep acc l)).
Proof.
  revert acc. induction l as [|e l IH]; intros acc Hacc; [exact Hacc|].
  cbn [foldl]. apply IH. unfold mergeStep. rewrite keys_upsert.
  destruct (hasKey (settingKey e) acc) eqn:E; [exact Hacc|].
  apply NoDup_app. split; [exact Hacc|]. split.
  - intros x Hx [<-|[]]%list_elem_of_In.
    apply list_elem_of_In, hasKey_In in Hx. congruence.
  - apply NoDup_singleton.
Qed.

Lemma keys_foldl (l acc : list string) :
  map settingKey (foldl mergeStep acc l)
  = map settingKey acc
      ++ List.filter (fun k => negb (hasKey k acc)) (firstKeys l).
Proof.
  revert acc. induction l as [|e l IH]; intros acc.
  - cbn. now rewrite app_nil_r.
  - cbn [foldl firstKeys List.filter]. rewrite IH. unfold mergeStep.
    rewrite keys_upsert, filter_filter_and.
    destruct (hasKey (settingKey e) acc) eqn:E; cbn [negb].
    + f_equal. apply List.filter_ext. intros k.
      rewrite hasKey_upsert.
      destruct (String.eqb_spec k (settingKey e)) as [->|Hk]; cbn [negb andb].
      * now rewrite E.
      * destruct (String.eqb_spec (settingKey e) k); [congruence|].
        now rewrite orb_false_r.
    + rewrite <- app_assoc. cbn [app]. do 2 f_equal.
      apply List.filter_ext. intros k. rewrite hasKey_upsert.
      destruct (String.eqb_spec k (settingKey e)) as [->|Hk]; cbn [negb andb].
      * rewrite String.eqb_refl. now rewrite orb_true_r.
      * destruct (String.eqb_spec (settingKey e) k); [congruence|].
        now rewrite orb_false_r.
Qed.

Lemma lastEntry_NoDup (k : string) (l : list string) :
  NoDup (map settingKey l) -> lastEntry k l = entryOf k l.
Proof.
  induction l as [|e l IH]; [reflexivity|].
  cbn [map]. intros [Hn Hl]%NoDup_cons. rewrite lastEntry_cons.
  cbn [entryOf find]. fold (entryOf k l).
  destruct (String.eqb_spec (settingKey e) k) as [<-|Hk].
  - assert (hasKey (settingKey e) l = false) as H.
    { destruct (hasKey (settingKey e) l) eqn:E; [|reflexivity].
      apply hasKey_In in E. apply list_elem_of_In in E. contradiction. }
    apply lastEntry_None in H. now rewrite H.
  - rewrite (IH Hl). destruct (entryOf k l); reflexivity.
Qed.

Lemma entryOf_None (k : string) (l : list string) :
  entryOf k l = None <-> hasKey k l = false.
Proof.
  induction l as [|e l [IH1 IH2]]; [easy|].
  cbn [entryOf find hasKey existsb]. fold (entryOf k l). fold (hasKey k l).
  destruct (String.eqb (settingKey e) k); cbn [orb]; [split; discriminate|].
  split; assumption.
Qed.

Lemma entryOf_cons (k e : string) (l : list string) :
  entryOf k (e :: l) = if String.eqb (settingKey e) k then Some e else entryOf k l.
Proof. reflexivity. Qed.

Lemma entryOf_filter (P : string -> bool) (k : string) (l : list string) :
  NoDup (map settingKey l) ->
  entryOf k (List.filter P l)
  = match entryOf k l with
    | Some e => if P e then Some e else None
    | None => None
    end.
Proof.
  induction l as [|e l IH]; [reflexivity|].
  cbn [map]. intros [Hn Hl]%NoDup_cons.
  cbn [List.filter]. rewrite entryOf_cons.
  destruct (String.eqb_spec (settingKey e) k) as [<-|Hk].
  - assert (entryOf (settingKey e) l = None) as H.
    { apply entryOf_None. destruct (hasKey (settingKey e) l) eqn:E; [|reflexivity].
      apply hasKey_In in E. apply list_elem_of_In in E. contradiction. }
    destruct (P e).
    + rewrite entryOf_cons. now rewrite String.eqb_refl.
    + rewrite (IH Hl), H. reflexivity.
  - destruct (P e).
    + rewrite entryOf_cons. destruct (String.eqb_spec (settingKey e) k); [congruence|].
      apply (IH Hl).
    + apply (IH Hl).
Qed.

Lemma keys_filter (P : string -> bool) (Q : string -> bool) (l : list string) :
  (forall e, In e l -> P e = Q (settingKey e)) ->
  map settingKey (List.filter P l) = List.filter Q (map settingKey l).
Proof.
  induction l as [|e l IH]; intros H; [reflexivity|].
  cbn [List.filter map]. rewrite <- (H e (or_introl eq_refl)).
  destruct (P e); cbn [map]; rewrite IH; auto using in_cons.
Qed.

Lemma NoDup_filter_keys (Q : string -> bool) (l : list string) :
  NoDup l -> NoDup (List.filter Q l).
Proof.
  induction 1 as [|x l Hx Hl IH]; cbn [List.filter]; [constructor|].
  destruct (Q x); [|exact IH]. constructor; [|exact IH].
  intros Hin%list_elem_of_In%List.filter_In. apply Hx, list_elem_of_In, Hin.
Qed.

Lemma entryOf_In (k e : string) (l : list string) :
  entryOf k l = Some e -> In e l /\ settingKey e = k.
Proof.
  intros H. apply find_some in H as [H1 H2]. split; [exact H1|].
  now apply String.eqb_eq.
Qed.

Lemma In_entryOf (e : string) (l : list string) :
  NoDup (map settingKey l) -> In e l -> entryOf (settingKey e) l = Some e.
Proof.
  induction l as [|x l IH]; [easy|].
  cbn [map]. intros [Hn Hl]%NoDup_cons [->|Hin].
  - cbn [entryOf find]. now rewrite String.eqb_refl.
  - cbn [entryOf find]. destruct (String.eqb_spec (settingKey x) (settingKey e)) as [Hx|Hx].
    + exfalso. apply Hn. rewrite Hx. apply list_elem_of_In, in_map, Hin.
    + now apply IH.
Qed.


Lemma keys_merged (l : list string) :
  map settingKey (foldl mergeStep [] l) = firstKeys l.
Proof.
  rewrite keys_foldl. cbn [map app].
  rewrite (List.filter_ext _ (fun _ => true)) by reflexivity.
  induction (firstKeys l) as [|k ks IH]; [reflexivity|].
  cbn [List.filter]. now rewrite IH.
Qed.

Lemma unsets_of_entry (old new : list string) (e : string) :
  In e (foldl mergeStep [] (old ++ new)) ->
  unsets new e = unsetsKey new (settingKey e).
Proof.
  intros Hin. unfold unsetsKey.
  pose proof (keys_foldl_NoDup (old ++ new) [] (NoDup_nil_2)) as Hnd.
  pose proof (In_entryOf e _ Hnd Hin) as He.
  rewrite entryOf_foldl, lastEntry_app in He.
  destruct (lastEntry (settingKey e) new) as [e'|] eqn:E.
  - now injection He as ->.
  - apply lastEntry_None in E. unfold unsets. now rewrite E.
Qed.

(** C1, as the model of the merge has it.  The merge is defined on all
    inputs.  A key that [new] unsets (its last entry in [new] has no value,
    and the key is not [guest_os_type]) is absent from the result; every
    other key has the value of its last entry in [new] when [new] has the
    key, else that of its last entry in [old], else none.  No key occurs
    twice, and the keys stand in the order of their first appearance
    across [old] followed by [new]. *)
Theorem mergeSettingsSlices_merges (old new : list string) :
  exists m,
    mergeSettingsSlices old new = Ok m
    /\ (forall k,
          lookupSetting k m
          = if unsetsKey new k then None
            else match lookupSetting k new with
                 | Some v => Some v
                 | None => lookupSetting k old
                 end)
    /\ NoDup (map settingKey m)
    /\ map settingKey m
       = List.filter (fun k => negb (unsetsKey new k)) (firstKeys (old ++ new)).
Proof.
  eexists. split; [reflexivity|].
  pose proof (keys_foldl_NoDup (old ++ new) [] (NoDup_nil_2)) as Hnd.
  assert (map settingKey
            (List.filter (fun e => negb (unsets new e)) (foldl mergeStep [] (old ++ new)))
          = List.filter (fun k => negb (unsetsKey new k)) (firstKeys (old ++ new))) as Hkeys.
  { rewrite (keys_filter _ (fun k => negb (unsetsKey new k))).
    - now rewrite keys_merged.
    - intros e He. now rewrite (unsets_of_entry old new e He). }
  assert (NoDup (map settingKey
            (List.filter (fun e => negb (unsets new e)) (foldl mergeStep [] (old ++ new)))))
    as Hnd'.
  { rewrite Hkeys. apply NoDup_filter_keys.
    rewrite <- keys_merged. exact Hnd. }
  repeat split; [|exact Hnd'|exact Hkeys].
  intros k. unfold lookupSetting.
  rewrite (lastEntry_NoDup k _ Hnd'), (entryOf_filter _ k _ Hnd).
  rewrite entryOf_foldl, lastEntry_app. unfold unsetsKey. cbn [entryOf find].
  destruct (lastEntry k new) as [e|] eqn:En.
  - destruct (unsets new e); reflexivity.
  - destruct (lastEntry k old) as [e|] eqn:Eo; [|reflexivity].
    apply lastEntry_None in En. unfold unsets.
    rewrite (lastEntry_key _ _ _ Eo), En. reflexivity.
Qed.

End merge_facts.

(** ** centOS: release numbers and mirror selection *)

Lemma Split_no_sep (s : string) (sep : ascii) :
  hasByte sep s = false -> strings.Split s sep = [s].
Proof.
  induction s as [|c s IH]; [reflexivity|].
  cbn [hasByte strings.Split]. intros [H1 H2]%orb_false_iff.
  rewrite H1, (IH H2). reflexivity.
Qed.

Lemma Split_at_first (n m : string) (sep : ascii) :
  hasByte sep n = false ->
  strings.Split (n +:+ String sep m) sep = n :: strings.Split m sep.
Proof.
  induction n as [|c n IH].
  - intros _. rewrite append_nil_l. cbn [strings.Split].
    now rewrite Ascii.eqb_refl.
  - cbn [hasByte]. intros [H1 H2]%orb_false_iff.
    rewrite append_cons. cbn [strings.Split]. rewrite H1, (IH H2). reflexivity.
Qed.

Lemma Split_nonempty (s : string) (sep : ascii) : strings.Split s sep <> [].
Proof.
  destruct s as [|c s]; [discriminate|].
  cbn [strings.Split]. destruct (Ascii.eqb c sep); [discriminate|].
  destruct (strings.Split s sep); discriminate.
Qed.

Lemma index_lookup {A} (l : list A) (i : nat) (a : A) :
  l !! i = Some a -> index l (Z.of_nat i) = Ok a.
Proof.
  intros H. unfold index.
  destruct (Z.ltb_spec (Z.of_nat i) 0); [lia|].
  now rewrite Nat2Z.id, H.
Qed.

Lemma index_0 {A} (a : A) (l : list A) : index (a :: l) 0 = Ok a.
Proof. reflexivity. Qed.

Section centos_facts.

Variable getStringFromURL : string -> error + string.
Variable html_Parse : string -> error + ranchr.Node.

(** C6.  A release with a dot, [N.M], becomes the full release and [N]
    the release; nothing is fetched and no other field changes.  For a
    release without a dot the page at
    [http://mirrorlist.centos.org/?release=<release>&arch=<arch>&repo=os]
    is fetched (a failed fetch is the error returned); the first line of
    the page is split on the slash and the segment fourth from the end
    becomes the full release, no other field changes. *)
Theorem centOS_setReleaseInfo (c : ranchr.centOS) :
  (forall n m,
      ranchr.Release c = n +:+ "." +:+ m ->
      hasByte "." n = false ->
      ranchr.setReleaseInfo getStringFromURL c
      = Ok (ranchr.mkRelease (ranchr.BaseURL c) (ranchr.Checksum c) (ranchr.ChecksumType c)
              (ranchr.Name c) (ranchr.isoURL c) (ranchr.Arch c) (ranchr.Distro c)
              (ranchr.Image c) n (ranchr.Release c)))
  /\ (hasByte "." (ranchr.Release c) = false ->
      (forall e,
          getStringFromURL ("http://mirrorlist.centos.org/?release=" +:+ ranchr.Release c
                              +:+ "&arch=" +:+ ranchr.Arch c +:+ "&repo=os") = inl e ->
          ranchr.setReleaseInfo getStringFromURL c = Fail e)
      /\ (forall page line0 parts full,
             getStringFromURL ("http://mirrorlist.centos.org/?release=" +:+ ranchr.Release c
                                 +:+ "&arch=" +:+ ranchr.Arch c +:+ "&repo=os") = inr page ->
             head (strings.Split page ranchr.newline) = Some line0 ->
             strings.Split line0 "/" = parts ->
             (4 <= length parts)%nat ->
             parts !! (length parts - 4)%nat = Some full ->
             ranchr.setReleaseInfo getStringFromURL c
             = Ok (ranchr.mkRelease (ranchr.BaseURL c) (ranchr.Checksum c)
                     (ranchr.ChecksumType c) (ranchr.Name c) (ranchr.isoURL c)
                     (ranchr.Arch c) (ranchr.Distro c) (ranchr.Image c)
                     (ranchr.Release c) full))).
Proof.
  split.
  - intros n m Hrel Hn. unfold ranchr.setReleaseInfo.
    assert (strings.Split (ranchr.Release c) "." = n :: strings.Split m ".") as Hs.
    { rewrite Hrel. apply (Split_at_first n m "." Hn). }
    rewrite Hs.
    pose proof (Split_nonempty m ".") as Hne.
    destruct (strings.Split m ".") as [|x xs] eqn:E; [contradiction|].
    unfold len. cbn [length].
    destruct (Z.ltb_spec 1 (Z.of_nat (S (S (length xs))))); [|lia].
    reflexivity.
  - intros Hrel. unfold ranchr.setReleaseInfo.
    rewrite (Split_no_sep _ _ Hrel).
    change (1 <? len [ranchr.Release c])%Z with false. cbv iota.
    unfold ranchr.setReleaseNumber.
    change (ranchr.mirrorlistURL c)
      with ("http://mirrorlist.centos.org/?release=" +:+ ranchr.Release c
              +:+ "&arch=" +:+ ranchr.Arch c +:+ "&repo=os").
    split.
    + intros e ->. reflexivity.
    + intros page line0 parts full -> Hline Hparts Hlen Hfull.
      cbn [call bind].
      destruct (strings.Split page ranchr.newline) as [|l0 ls]; [discriminate|].
      injection Hline as ->. rewrite index_0. cbn [bind].
      rewrite Hparts.
      replace (len parts - 4)%Z with (Z.of_nat (length parts - 4)) by (unfold len; lia).
      now rewrite (index_lookup _ _ _ Hfull).
Qed.

(** What [randomISOURL] does with the candidates it collected: with none
    it fails; with one it panics, since [rand.Intn(0)] does; with more it
    picks among all but the last. *)
Lemma randomISOURL_choice (rnd : Z) (c : ranchr.centOS) (page : string) (doc : ranchr.Node) :
  getStringFromURL (ranchr.isoRedirectURL c) = inr page ->
  html_Parse page = inr doc ->
  let urls := ranchr.collectISOURLs (ranchr.Arch c) doc in
  (urls = [] -> exists e, ranchr.randomISOURL getStringFromURL html_Parse rnd c = Fail e)
  /\ (length urls = 1%nat ->
      ranchr.randomISOURL getStringFromURL html_Parse rnd c = Panic)
  /\ ((2 <= length urls)%nat ->
      exists i u,
        (i < length urls - 1)%nat /\ urls !! i = Some u
        /\ ranchr.randomISOURL getStringFromURL html_Parse rnd c
           = Ok (strings.TrimSuffix u (String ranchr.newline "") +:+ ranchr.Name c)).
Proof.
  intros Hpage Hdoc urls. unfold ranchr.randomISOURL.
  rewrite Hpage. cbn [call bind]. rewrite Hdoc. cbn [call bind].
  fold urls. unfold len. repeat split.
  - intros ->. eexists. reflexivity.
  - intros H1. rewrite H1. reflexivity.
  - intros H2.
    destruct (Z.ltb_spec (Z.of_nat (length urls)) 1); [lia|].
    unfold ranchr.rand_Intn.
    destruct (Z.leb_spec (Z.of_nat (length urls) - 1) 0); [lia|].
    cbn [bind].
    set (n := (Z.of_nat (length urls) - 1)%Z) in *.
    assert (0 <= rnd mod n < n)%Z as Hm by (apply Z.mod_pos_bound; lia).
    exists (Z.to_nat (rnd mod n)).
    destruct (lookup_lt_is_Some_2 urls (Z.to_nat (rnd mod n))) as [u Hu]; [lia|].
    exists u. split; [lia|]. split; [exact Hu|].
    replace (rnd mod n)%Z with (Z.of_nat (Z.to_nat (rnd mod n))) at 1 by lia.
    now rewrite (index_lookup _ _ _ Hu).
Qed.

End centos_facts.

(** C3 on the code.  With one usable mirror on the isoredirect page the
    selection panics, whatever the generator yields; with two, the first is
    chosen whatever the generator yields, so the last one never is. *)
Theorem randomISOURL_never_picks_last (rnd : Z) :
  ranchr.collectISOURLs "x86_64" samples.oneMirror = [samples.mirrorA]
  /\ ranchr.randomISOURL (samples.fetch "") (samples.parsed samples.oneMirror)
                         rnd samples.centos7 = Panic
  /\ ranchr.collectISOURLs "x86_64" samples.twoMirrors
     = [samples.mirrorA; samples.mirrorB]
  /\ ranchr.randomISOURL (samples.fetch "") (samples.parsed samples.twoMirrors)
                         rnd samples.centos7
     = Ok (samples.mirrorA +:+ ranchr.Name samples.centos7).
Proof.
  repeat split.
  unfold ranchr.randomISOURL. cbn [samples.fetch samples.parsed call bind].
  change (ranchr.collectISOURLs (ranchr.Arch samples.centos7) samples.twoMirrors)
    with [samples.mirrorA; samples.mirrorB].
  change (len [samples.mirrorA; samples.mirrorB] <? 1)%Z with false. cbv iota.
  change (len [samples.mirrorA; samples.mirrorB] - 1)%Z with 1%Z.
  unfold ranchr.rand_Intn. change (1 <=? 0)%Z with false. cbv iota.
  rewrite Z.mod_1_r. reflexivity.
Qed.

(** ** Overlaying the common section *)

(** When the working template has a common section, [updateCommon] merges
    that section with itself: the result does not depend on the section of
    the named build. *)
Lemma updateCommon_ignores_build (r : app.RawTemplate) (b newB newB' : app.BuilderC) :
  app.Builders r !! "common" = Some b ->
  app.updateCommon r newB = app.updateCommon r newB'.
Proof.
  intros H. unfold app.updateCommon.
  change (Builder_String Common) with "common". now rewrite H.
Qed.

(** [updateCommon] on its own.  The working template has
    [ssh_wait_timeout = 300m] in its common section and the named build
    has [ssh_wait_timeout = 240m] and [boot_wait = 5s] in its own: after
    [updateCommon] the common section still has the old value and no
    [boot_wait].  It is the loop of [updateBuilders], which runs next,
    that lays the settings of the named build over it. *)
Lemma updateCommon_keeps_old_settings :
  exists r',
    app.updateCommon samples.workingTemplate samples.buildCommon = Ok r'
    /\ app.Settings <$> (app.Builders r' !! "common")
       = Some ["ssh_wait_timeout = 300m"; "headless = true"]
    /\ app.lookupSetting "ssh_wait_timeout" (app.Settings samples.buildCommon)
       = Some "240m"
    /\ app.lookupSetting "boot_wait" (app.Settings samples.buildCommon) = Some "5s".
Proof.
  eexists. split; [vm_compute; reflexivity|].
  repeat split.
Qed.

(** What the merge gives for a key, as in the proof of C1. *)
Lemma mergeSettingsSlices_lookup (old new : list string) :
  exists m,
    app.mergeSettingsSlices old new = Ok m
    /\ forall k,
         app.lookupSetting k m
         = if app.unsetsKey new k then None
           else match app.lookupSetting k new with
                | Some v => Some v
                | None => app.lookupSetting k old
                end.
Proof.
  eexists. split; [reflexivity|].
  pose proof (keys_foldl_NoDup (old ++ new) [] (NoDup_nil_2)) as Hnd.
  assert (map app.settingKey
            (List.filter (fun e => negb (app.unsets new e))
                         (foldl app.mergeStep [] (old ++ new)))
          = List.filter (fun k => negb (app.unsetsKey new k)) (app.firstKeys (old ++ new)))
    as Hkeys.
  { rewrite (keys_filter _ (fun k => negb (app.unsetsKey new k))).
    - now rewrite keys_merged.
    - intros e He. now rewrite (unsets_of_entry old new e He). }
  assert (NoDup (map app.settingKey
            (List.filter (fun e => negb (app.unsets new e))
                         (foldl app.mergeStep [] (old ++ new))))) as Hnd'.
  { rewrite Hkeys. apply NoDup_filter_keys. rewrite <- keys_merged. exact Hnd. }
  intros k. unfold app.lookupSetting.
  rewrite (lastEntry_NoDup k _ Hnd'), (entryOf_filter _ k _ Hnd).
  rewrite entryOf_foldl, lastEntry_app. unfold app.unsetsKey. cbn [app.entryOf find].
  destruct (app.lastEntry k new) as [e|] eqn:En.
  - destruct (app.unsets new e); reflexivity.
  - destruct (app.lastEntry k old) as [e|] eqn:Eo; [|reflexivity].
    apply lastEntry_None in En. unfold app.unsets.
    rewrite (lastEntry_key _ _ _ Eo), En. reflexivity.
Qed.

Section overlay_facts.

Variable Copy : app.BuilderC -> app.BuilderC.
Variable mergeKeysFromComponentMaps :
  gmap string app.BuilderC -> gmap string app.BuilderC -> list string.
Variable mergeArrays : app.BuilderC -> gmap string value -> app.BuilderC.

(** Merging arrays leaves the settings of the section as they are. *)
Hypothesis mergeArrays_Settings :
  forall b arrays, app.Settings (mergeArrays b arrays) = app.Settings b.

Lemma unsetsKey_absent (new : list string) (k : string) :
  app.lookupSetting k new = None -> app.unsetsKey new k = false.
Proof.
  unfold app.lookupSetting, app.unsetsKey.
  destruct (app.lastEntry k new); [discriminate | reflexivity].
Qed.

Lemma mergeSettings_lookup (b : app.BuilderC) (new : list string) :
  exists merged,
    app.mergeSettings b new = Ok (app.mkSection (app.Type_ b) merged (app.Arrays b))
    /\ forall k,
         app.lookupSetting k merged
         = if app.unsetsKey new k then None
           else match app.lookupSetting k new with
                | Some v => Some v
                | None => app.lookupSetting k (app.Settings b)
                end.
Proof.
  destruct (mergeSettingsSlices_lookup (app.Settings b) new) as (merged & E & H).
  exists merged. split; [|exact H]. unfold app.mergeSettings. now rewrite E.
Qed.

Lemma updateBuilders_step_other (newB : gmap string app.BuilderC) (r : app.RawTemplate)
    (v : string) :
  v <> "common" ->
  exists r',
    app.updateBuilders_step Copy mergeArrays newB r v = Ok r'
    /\ app.Builders r' !! "common" = app.Builders r !! "common".
Proof.
  intros Hv. unfold app.updateBuilders_step.
  destruct (app.Builders r !! v) as [b|].
  - destruct (newB !! v) as [bb|]; [|eauto].
    destruct (mergeSettings_lookup b (app.Settings bb)) as (merged & -> & _).
    cbn [wrapErr bind]. eexists. split; [reflexivity|].
    destruct r. cbn [app.set_Builders app.Builders]. now apply lookup_insert_ne.
  - eexists. split; [reflexivity|].
    destruct r. cbn [app.set_Builders app.Builders]. now apply lookup_insert_ne.
Qed.

(** The loop of [updateBuilders], seen from the common section: [P] holds
    of it all along, and [Q] once the loop has met the key [common]. *)
Lemma updateBuilders_loop_common (newB : gmap string app.BuilderC) (nb : app.BuilderC)
    (P Q : app.BuilderC -> Prop) :
  newB !! "common" = Some nb ->
  (forall b, Q b -> P b) ->
  (forall b b', P b -> app.mergeSettings b (app.Settings nb) = Ok b' ->
                Q (mergeArrays b' (app.Arrays nb))) ->
  forall keys r b,
    app.Builders r !! "common" = Some b -> P b ->
    exists r' b',
      app.forEach (app.updateBuilders_step Copy mergeArrays newB) r keys = Ok r'
      /\ app.Builders r' !! "common" = Some b'
      /\ P b'
      /\ (Q b \/ In "common" keys -> Q b').
Proof.
  intros Hnb Hqp Hstep. induction keys as [|v keys IH]; intros r b Hb HP.
  - exists r, b. cbn [app.forEach In]. intuition.
  - cbn [app.forEach]. destruct (String.eqb_spec v "common") as [->|Hv].
    + unfold app.updateBuilders_step at 1. rewrite Hb, Hnb.
      destruct (mergeSettings_lookup b (app.Settings nb)) as (merged & Em & _).
      rewrite Em. cbn [wrapErr bind].
      pose proof (Hstep _ _ HP Em) as HQ.
      destruct (IH (app.set_Builders
                      (<["common" := mergeArrays
                                       (app.mkSection (app.Type_ b) merged (app.Arrays b))
                                       (app.Arrays nb)]>
                         (app.Builders r)) r)
                   (mergeArrays (app.mkSection (app.Type_ b) merged (app.Arrays b))
                                (app.Arrays nb)))
        as (r' & b' & E & Hb' & HP' & HQ').
      { destruct r. cbn [app.set_Builders app.Builders]. apply lookup_insert_eq. }
      { apply Hqp. exact HQ. }
      exists r', b'. split; [exact E|]. split; [exact Hb'|]. split; [exact HP'|].
      intros _. apply HQ'. now left.
    + destruct (updateBuilders_step_other newB r v Hv) as (r1 & -> & Hc).
      cbn [bind]. rewrite Hb in Hc.
      destruct (IH r1 b Hc HP) as (r' & b' & E & Hb' & HP' & HQ').
      exists r', b'. split; [exact E|]. split; [exact Hb'|]. split; [exact HP'|].
      intros [HQ|[Heq|Hin]]; [apply HQ'; now left | congruence | apply HQ'; now right].
Qed.

(** C2.  Overlaying the builders [newB] of a named build that has a
    common section on a working template, [common] being among the merged
    keys: [updateBuilders] succeeds, and the common section then holds for
    every key the value of the named build's last entry for it; a key the
    named build does not have keeps the value of the template's common
    section, if the template has one; a key the named build unsets (its
    last entry for the key has no value, and the key is not
    [guest_os_type]) is absent.  So the named build's value wins for a key
    both have, and a key only the named build has is added. *)
Theorem updateBuilders_common_overlay (r : app.RawTemplate)
    (newB : gmap string app.BuilderC) (nb : app.BuilderC) :
  newB !! "common" = Some nb ->
  In "common" (mergeKeysFromComponentMaps
                 (app.DeepCopyMapStringBuilderC Copy (app.Builders r))
                 (app.DeepCopyMapStringBuilderC Copy newB)) ->
  let old := match app.Builders r !! "common" with
             | Some b => app.Settings b
             | None => []
             end in
  exists r' b',
    app.updateBuilders Copy mergeKeysFromComponentMaps mergeArrays r newB = Ok r'
    /\ app.Builders r' !! "common" = Some b'
    /\ (forall k v,
          app.lookupSetting k (app.Settings nb) = Some v ->
          app.unsetsKey (app.Settings nb) k = false ->
          app.lookupSetting k (app.Settings b') = Some v)
    /\ (forall k,
          app.lookupSetting k (app.Settings b')
          = if app.unsetsKey (app.Settings nb) k then None
            else match app.lookupSetting k (app.Settings nb) with
                 | Some v => Some v
                 | None => if app.unsetsKey old k then None else app.lookupSetting k old
                 end).
Proof.
  intros Hnb Hkeys old. unfold app.updateBuilders.
  assert ((Z.of_nat (size newB) =? 0)%Z = false) as ->.
  { apply Z.eqb_neq. intros H.
    assert (size newB = 0%nat) as H0 by lia.
    apply map_size_empty_iff in H0. subst newB. now rewrite lookup_empty in Hnb. }
  cbv zeta. change (Builder_String Common) with "common". rewrite Hnb.
  set (P := fun x : app.BuilderC =>
              forall k, app.lookupSetting k (app.Settings nb) = None ->
                        app.lookupSetting k (app.Settings x)
                        = if app.unsetsKey old k then None else app.lookupSetting k old).
  set (Q := fun x : app.BuilderC =>
              forall k, app.lookupSetting k (app.Settings x)
                        = if app.unsetsKey (app.Settings nb) k then None
                          else match app.lookupSetting k (app.Settings nb) with
                               | Some v => Some v
                               | None =>
                                   if app.unsetsKey old k then None
                                   else app.lookupSetting k old
                               end).
  assert (forall b, Q b -> P b) as Hqp.
  { intros x HQ k Hk. rewrite HQ, Hk, (unsetsKey_absent _ _ Hk). reflexivity. }
  assert (forall b b', P b -> app.mergeSettings b (app.Settings nb) = Ok b' ->
                       Q (mergeArrays b' (app.Arrays nb))) as Hstep.
  { intros x x' HP Em k.
    destruct (mergeSettings_lookup x (app.Settings nb)) as (merged & Em' & Hm).
    rewrite Em' in Em. injection Em as <-.
    rewrite mergeArrays_Settings. cbn [app.Settings]. rewrite Hm.
    destruct (app.unsetsKey (app.Settings nb) k); [reflexivity|].
    destruct (app.lookupSetting k (app.Settings nb)) eqn:Ek; [reflexivity|].
    apply HP. exact Ek. }
  assert (exists r1 b1,
             app.updateCommon r nb = Ok r1
             /\ app.Builders r1 !! "common" = Some b1 /\ P b1) as (r1 & b1 & -> & Hb1 & HP1).
  { unfold app.updateCommon. change (Builder_String Common) with "common".
    subst P old. destruct (app.Builders r !! "common") as [b|].
    - destruct (mergeSettings_lookup b (app.Settings b)) as (self & -> & Hself).
      cbn [bind]. do 2 eexists. split; [reflexivity|]. split.
      + destruct r. cbn [app.set_Builders app.Builders]. apply lookup_insert_eq.
      + intros k _. cbn [app.Settings]. rewrite Hself.
        destruct (app.unsetsKey (app.Settings b) k); [reflexivity|].
        destruct (app.lookupSetting k (app.Settings b)); reflexivity.
    - do 2 eexists. split; [reflexivity|]. split.
      + destruct r. cbn [app.set_Builders app.Builders]. apply lookup_insert_eq.
      + intros k Hk. cbn [app.Settings]. rewrite Hk. reflexivity. }
  cbn [bind].
  destruct (updateBuilders_loop_common newB nb P Q Hnb Hqp Hstep
              (mergeKeysFromComponentMaps
                 (app.DeepCopyMapStringBuilderC Copy (app.Builders r))
                 (app.DeepCopyMapStringBuilderC Copy newB)) r1 b1 Hb1 HP1)
    as (r' & b' & E & Hb' & _ & HQ).
  exists r', b'. split; [exact E|]. split; [exact Hb'|].
  pose proof (HQ (or_intror Hkeys)) as HQ'. split; [|exact HQ'].
  intros k v Hv Hu. now rewrite HQ', Hu, Hv.
Qed.

End overlay_facts.

(** ** The source resolver *)

Lemma pathJoin_nonempty (elems : list string) (p : string) :
  In p elems -> p <> "" -> app.pathJoin elems <> "".
Proof.
  induction elems as [|e elems IH]; [easy|].
  intros [->|Hin] Hp; cbn [app.pathJoin foldr]; fold (app.pathJoin elems).
  - destruct (String.eqb_spec p ""); [contradiction|].
    destruct (String.eqb_spec (app.pathJoin elems) ""); [exact Hp|].
    destruct p; [contradiction|]. rewrite append_cons. discriminate.
  - specialize (IH Hin Hp).
    destruct (String.eqb_spec e ""); [exact IH|].
    destruct (String.eqb_spec (app.pathJoin elems) ""); [contradiction|].
    destruct e; [contradiction|]. rewrite append_cons. discriminate.
Qed.

Lemma withSeparator_nonempty (p : string) : app.withSeparator p <> "".
Proof.
  unfold app.withSeparator.
  destruct (strings.HasSuffix p app.slash) eqn:E.
  - intros ->. discriminate.
  - destruct p; [discriminate|]. rewrite append_cons. discriminate.
Qed.

Lemma firstExisting_In (stat : string -> option bool) (cands : list string)
    (c : string) (d : bool) :
  app.firstExisting stat cands = Some (c, d) -> In c cands /\ stat c = Some d.
Proof.
  induction cands as [|x cands IH]; [discriminate|].
  cbn [app.firstExisting]. destruct (stat x) eqn:E.
  - intros [= <- <-]. split; [now left | exact E].
  - intros H. destruct (IH H). split; [now right | assumption].
Qed.

Lemma sourceCandidates_nonempty (r : app.RawTemplate) (component p c : string) :
  p <> "" -> In c (app.sourceCandidates r component p) -> c <> "".
Proof.
  intros Hp Hin. unfold app.sourceCandidates in Hin. cbn [In] in Hin.
  repeat (destruct Hin as [<-|Hin];
          [apply (pathJoin_nonempty _ p); [cbn [In]; tauto | exact Hp]|]).
  contradiction.
Qed.

(** A resolved source is never the empty string. *)
Lemma findSource_nonempty (stat : string -> option bool) (r : app.RawTemplate)
    (p component src : string) (isDir : bool) :
  app.findSource stat r p component isDir = Ok src -> src <> "".
Proof.
  unfold app.findSource.
  destruct (String.eqb_spec p "") as [|Hp]; [discriminate|].
  destruct (app.IsExample r).
  - intros [= <-]. destruct isDir; [apply withSeparator_nonempty|].
    apply (pathJoin_nonempty [component; p] p); [cbn [In]; tauto | exact Hp].
  - destruct (app.firstExisting stat _) as [[c d]|] eqn:E; [|discriminate].
    intros [= <-]. apply firstExisting_In in E as [Hin _].
    destruct d; [apply withSeparator_nonempty|].
    now apply (sourceCandidates_nonempty r component p).
Qed.

Lemma HasSuffix_cons_nonempty (c : ascii) (s suf : string) :
  s <> "" -> String.length suf = 1%nat ->
  strings.HasSuffix (String c s) suf = strings.HasSuffix s suf.
Proof.
  intros Hs Hl. cbn [strings.HasSuffix].
  destruct (String.eqb_spec (String c s) suf) as [E|_]; [|reflexivity].
  exfalso. subst suf. cbn in Hl. destruct s; [contradiction | discriminate].
Qed.

Lemma HasSuffix_append_nonempty (a s suf : string) :
  s <> "" -> String.length suf = 1%nat ->
  strings.HasSuffix (a +:+ s) suf = strings.HasSuffix s suf.
Proof.
  intros Hs Hl. induction a as [|c a IH]; [now rewrite append_nil_l|].
  rewrite append_cons, HasSuffix_cons_nonempty; [exact IH| |exact Hl].
  destruct a; [now rewrite append_nil_l|]. rewrite append_cons. discriminate.
Qed.

(** C8.  In example mode the empty path is the empty-path error, and a
    non-empty path resolves to the path itself when there is no component
    and to [component/path] otherwise, with a slash after it for a
    directory unless the path ends in one already: the same for every
    file system.  On the template of [TestFindSourceExample] every row of
    the table of that test passes. *)
Theorem findSource_example (stat : string -> option bool) (r : app.RawTemplate)
    (p component : string) (isDir : bool) :
  app.IsExample r = true ->
  app.findSource stat r "" component isDir = Fail ErrEmptyPath
  /\ (p <> "" ->
      app.findSource stat r p component isDir
      = Ok ((if String.eqb component "" then p else component +:+ "/" +:+ p)
              +:+ (if isDir && negb (strings.HasSuffix p "/") then "/" else "")))
  /\ forallb (app.findSourceTest_passes stat app.TestFindSourceExample_template)
             app.TestFindSourceExample_tests = true.
Proof.
  intros Hex. split; [reflexivity|]. split; [|reflexivity].
  intros Hp. unfold app.findSource. rewrite Hex.
  destruct (String.eqb_spec p ""); [contradiction|]. cbv zeta.
  assert (app.pathJoin [component; p]
          = if String.eqb component "" then p else component +:+ "/" +:+ p) as ->.
  { pose proof Hp as Hp'. apply String.eqb_neq in Hp'.
    cbn [app.pathJoin foldr]. rewrite Hp'. cbn [String.eqb]. rewrite Hp'.
    destruct (String.eqb component ""); reflexivity. }
  f_equal. destruct isDir; cbn [andb]; [|now rewrite append_nil_r].
  unfold app.withSeparator, app.slash.
  assert (strings.HasSuffix (if String.eqb component "" then p else component +:+ "/" +:+ p) "/"
          = strings.HasSuffix p "/") as ->.
  { destruct (String.eqb component ""); [reflexivity|].
    rewrite <- append_assoc. now apply HasSuffix_append_nonempty. }
  destruct (strings.HasSuffix p "/"); cbn [negb]; [now rewrite append_nil_r | reflexivity].
Qed.

(** ** Builders *)

Section builder_facts.

Variable replaceVariables : app.RawTemplate -> string -> string.
Variable processCommunicator :
  app.RawTemplate -> string -> list string -> gmap string value ->
  error + (string * gmap string value).
Variable commandsFromFile : app.RawTemplate -> string -> string -> error + list string.
Variable ISOInfo : app.RawTemplate -> Builder -> list string -> error + app.RawTemplate.
Variable stat : string -> option bool.

(** C7.  Without an [http_directory] setting, [setHTTP] resolves the
    literal [http] as a directory for the component; a resolver error is
    returned wrapped; otherwise the resolved source is entered in [Dirs]
    under the output path of [http], the setting becomes the path of
    [http] relative to the output tree, and no other setting changes. *)
Theorem setHTTP_default (r : app.RawTemplate) (component : string)
    (m : gmap string value) :
  m !! "http_directory" = None ->
  (forall e,
      app.findSource stat r "http" component true = Fail e ->
      app.setHTTP stat r component m = Fail (Errorf "setHTTP error" (Some e)))
  /\ (forall src,
         app.findSource stat r "http" component true = Ok src ->
         exists r' m',
           app.setHTTP stat r component m = Ok (r', m')
           /\ app.Dirs r' = <[app.buildOutPath r "" "http" := src]> (app.Dirs r)
           /\ m' !! "http_directory"
              = Some (VString (app.buildTemplateResourcePath r "" "http" false))
           /\ app.buildTemplateResourcePath r "" "http" false = "http"
           /\ forall k, k <> "http_directory" -> m' !! k = m !! k).
Proof.
  intros Hm. unfold app.setHTTP. rewrite Hm. cbn [default]. split.
  - intros e ->. reflexivity.
  - intros src Hsrc. rewrite Hsrc. cbn [wrapErr bind].
    pose proof (findSource_nonempty _ _ _ _ _ _ Hsrc) as Hne.
    destruct (String.eqb_spec src ""); [contradiction|]. cbn [negb].
    do 2 eexists. split; [reflexivity|]. repeat split.
    + apply lookup_insert_eq.
    + unfold app.buildTemplateResourcePath.
      destruct (app.IncludeComponentString r); reflexivity.
    + intros k Hk. now apply lookup_insert_ne.
Qed.

(** C10.  On a slice of strings [createVBoxManage] returns, in order, one
    row of four elements per entry, the key with [--] before it unless it
    starts with it already; on a value of any other dynamic type the type
    assertion panics. *)
Theorem createVBoxManage_slice_of_strings (r : app.RawTemplate) (v : value) :
  (forall l,
      v = VStrings l ->
      app.createVBoxManage replaceVariables r v
      = Ok (map (fun e =>
                   [ "modifyvm"; "{{.Name}}";
                     (if strings.HasPrefix (app.settingKey e) "--"
                      then app.settingKey e else "--" +:+ app.settingKey e);
                     replaceVariables r (app.settingValue e) ]) l))
  /\ (isSliceOfStrings v = false ->
      app.createVBoxManage replaceVariables r v = Panic)
  /\ (forall l, app.createVBoxManage replaceVariables r (VIfaces l) = Panic)
  /\ (isSliceOfStrings v = true ->
      exists rows, app.createVBoxManage replaceVariables r v = Ok rows).
Proof.
  repeat split.
  - intros l ->. unfold app.createVBoxManage. cbn [deepcopy_Copy assertStrings bind].
    f_equal. apply map_ext. intros e. unfold app.vboxManageRow, app.settingKey, app.settingValue.
    destruct (app.parseVar e). reflexivity.
  - intros H. destruct v as [| | | | | | | |[]]; try discriminate; reflexivity.
  - intros H. destruct v as [| | | | | | | |[]]; try discriminate; eexists; reflexivity.
Qed.

(** *** [createAmazonChroot] and [root_volume_size] *)

Lemma chrootSetting_root_volume_size (r : app.RawTemplate) (w : app.chrootWalk) (s : string) :
  app.settingKey s = "root_volume_size" ->
  app.chrootSetting replaceVariables r w s
  = Fail (SettingErr "root_volume_size" (replaceVariables r (app.settingValue s))
                     (app.atoiErr (replaceVariables r (app.settingValue s)))).
Proof.
  unfold app.settingKey, app.settingValue, app.chrootSetting.
  destruct (app.parseVar s) as [k v]. cbn [fst snd]. intros ->. reflexivity.
Qed.

Lemma chrootSetting_other (r : app.RawTemplate) (w : app.chrootWalk) (s : string) :
  app.settingKey s <> "root_volume_size" ->
  exists w', app.chrootSetting replaceVariables r w s = Ok w'.
Proof.
  unfold app.settingKey, app.chrootSetting.
  destruct (app.parseVar s) as [k v]. cbn [fst]. intros Hk.
  repeat match goal with
         | |- context [if ?c then _ else _] => destruct c eqn:?
         end; try (eexists; reflexivity).
  match goal with
  | H : String.eqb k "root_volume_size" = true |- _ => apply String.eqb_eq in H
  end.
  contradiction.
Qed.

Lemma forEach_chrootSetting_fails (r : app.RawTemplate) (ws : list string) (s : string) :
  app.entryOf "root_volume_size" ws = Some s ->
  forall w,
    app.forEach (app.chrootSetting replaceVariables r) w ws
    = Fail (SettingErr "root_volume_size" (replaceVariables r (app.settingValue s))
                       (app.atoiErr (replaceVariables r (app.settingValue s)))).
Proof.
  induction ws as [|x ws IH]; [discriminate|].
  rewrite entryOf_cons. intros H w. cbn [app.forEach].
  destruct (String.eqb_spec (app.settingKey x) "root_volume_size") as [Hx|Hx].
  - injection H as ->. now rewrite chrootSetting_root_volume_size.
  - destruct (chrootSetting_other r w x Hx) as [w' ->]. cbn [bind]. now apply IH.
Qed.

(** C9.  When the merged settings of an amazon-chroot builder have a
    [root_volume_size] entry, [createAmazonChroot] returns an error and no
    settings: the error of the communicator pass if that fails, and else a
    setting error for [root_volume_size] around the result of [Atoi], which
    is nil for a value that is an integer.  So it succeeds only without
    that entry. *)
Theorem createAmazonChroot_root_volume_size (r : app.RawTemplate) (ID : string)
    (b : app.BuilderC) (ws : list string) :
  app.Builders r !! ID = Some b ->
  app.workSettings r b = Ok ws ->
  app.hasKey "root_volume_size" ws = true ->
  (exists e, app.createAmazonChroot replaceVariables processCommunicator r ID = Fail e)
  /\ (forall m, app.createAmazonChroot replaceVariables processCommunicator r ID <> Ok m)
  /\ (forall s prefix settings,
         app.entryOf "root_volume_size" ws = Some s ->
         processCommunicator r ID ws {[ "type" := VString "amazon-chroot" ]}
         = inr (prefix, settings) ->
         app.createAmazonChroot replaceVariables processCommunicator r ID
         = Fail (SettingErr "root_volume_size" (replaceVariables r (app.settingValue s))
                            (app.atoiErr (replaceVariables r (app.settingValue s))))).
Proof.
  intros Hb Hws Hkey.
  destruct (app.entryOf "root_volume_size" ws) as [s|] eqn:Es.
  2:{ apply entryOf_None in Es. congruence. }
  assert (forall prefix settings,
             processCommunicator r ID ws {[ "type" := VString "amazon-chroot" ]}
             = inr (prefix, settings) ->
             app.createAmazonChroot replaceVariables processCommunicator r ID
             = Fail (SettingErr "root_volume_size" (replaceVariables r (app.settingValue s))
                                (app.atoiErr (replaceVariables r (app.settingValue s)))))
    as Hok.
  { intros prefix settings Hpc. unfold app.createAmazonChroot.
    rewrite Hb, Hws. cbn [bind].
    change (Builder_String AmazonChroot) with "amazon-chroot".
    rewrite Hpc. cbn [call wrapErr bind].
    now rewrite (forEach_chrootSetting_fails r ws s Es). }
  assert (exists e, app.createAmazonChroot replaceVariables processCommunicator r ID = Fail e)
    as [e He].
  { destruct (processCommunicator r ID ws {[ "type" := VString "amazon-chroot" ]})
      as [e|[prefix settings]] eqn:Hpc.
    - exists (BuilderErr ID AmazonChroot e). unfold app.createAmazonChroot.
      rewrite Hb, Hws. cbn [bind].
      change (Builder_String AmazonChroot) with "amazon-chroot".
      rewrite Hpc. reflexivity.
    - eexists. apply (Hok prefix settings eq_refl). }
  repeat split.
  - now exists e.
  - intros m. rewrite He. discriminate.
  - intros s' prefix settings [= <-]. apply Hok.
Qed.

(** *** [createVirtualBoxISO] and the ISO settings *)

Lemma oneOf_other (k x : string) (keys : list string) :
  app.oneOf k keys = true -> app.oneOf x keys = false -> String.eqb k x = false.
Proof.
  unfold app.oneOf. intros Hk Hx.
  destruct (String.eqb_spec k x) as [->|]; [congruence | reflexivity].
Qed.

(** The flags for the ISO settings after one entry of the walk. *)
Lemma vbisoSetting_flags (r : app.RawTemplate) (ID prefix : string) (hc : bool)
    (w w' : app.walk) (s : string) :
  app.vbisoSetting replaceVariables commandsFromFile r ID prefix hc w s = Ok w' ->
  app.hasISOURL w' = app.hasISOURL w || String.eqb (app.settingKey s) "iso_url"
  /\ app.hasChecksum w' = app.hasChecksum w || String.eqb (app.settingKey s) "iso_checksum"
  /\ app.hasChecksumType w'
     = app.hasChecksumType w || String.eqb (app.settingKey s) "iso_checksum_type".
Proof.
  unfold app.settingKey, app.vbisoSetting.
  destruct (app.parseVar s) as [k v]. cbn [fst]. cbv zeta.
  repeat match goal with
         | |- (if String.eqb k ?lit then _ else _) = _ -> _ =>
             destruct (String.eqb_spec k lit) as [->|?]
         | |- (if app.oneOf k ?keys then _ else _) = _ -> _ =>
             let E := fresh "E" in
             destruct (app.oneOf k keys) eqn:E;
             [ pose proof (oneOf_other k "iso_url" keys E eq_refl);
               pose proof (oneOf_other k "iso_checksum" keys E eq_refl);
               pose proof (oneOf_other k "iso_checksum_type" keys E eq_refl) |]
         | |- (if ?c then _ else _) = _ -> _ => destruct c
         | |- match strconv.Atoi ?v with _ => _ end = _ -> _ => destruct (strconv.Atoi v)
         | |- bind (wrapErr _ (call ?m)) _ = _ -> _ => destruct m; cbn [call wrapErr bind]
         end;
    intros Hres; try discriminate Hres; injection Hres as <-;
    repeat match goal with
           | |- context [if ?c then _ else _] => destruct c
           end;
    cbn [app.hasISOURL app.hasChecksum app.hasChecksumType app.put
         app.set_hasChecksum app.set_hasChecksumType app.set_hasISOURL
         app.set_hasUsername app.set_hasPassword app.set_bootCmdFile
         app.set_guestOSType];
    repeat match goal with
           | H : String.eqb k _ = false |- _ => rewrite H; clear H
           | H : k <> ?lit |- _ => apply String.eqb_neq in H
           end;
    repeat match goal with
           | |- context [String.eqb ?a ?b] =>
               let c := eval vm_compute in (String.eqb a b) in
               match c with
               | true => change (String.eqb a b) with true
               | false => change (String.eqb a b) with false
               end
           end;
    rewrite ?orb_false_r, ?orb_true_r; auto.
Qed.

Lemma hasKey_cons (k x : string) (l : list string) :
  app.hasKey k (x :: l) = String.eqb (app.settingKey x) k || app.hasKey k l.
Proof. reflexivity. Qed.

Lemma forEach_vbisoSetting_flags (r : app.RawTemplate) (ID prefix : string) (hc : bool)
    (ws : list string) :
  forall w w',
    app.forEach (app.vbisoSetting replaceVariables commandsFromFile r ID prefix hc) w ws
    = Ok w' ->
    app.hasISOURL w' = app.hasISOURL w || app.hasKey "iso_url" ws
    /\ app.hasChecksum w' = app.hasChecksum w || app.hasKey "iso_checksum" ws
    /\ app.hasChecksumType w' = app.hasChecksumType w || app.hasKey "iso_checksum_type" ws.
Proof.
  induction ws as [|x ws IH]; intros w w'; cbn [app.forEach].
  - intros [= <-]. cbn. now rewrite !orb_false_r.
  - destruct (app.vbisoSetting _ _ _ _ _ _ w x) as [w1| |] eqn:E; cbn [bind];
      try discriminate.
    intros H. apply vbisoSetting_flags in E as (E1 & E2 & E3).
    apply IH in H as (H1 & H2 & H3).
    rewrite !hasKey_cons, H1, H2, H3, E1, E2, E3, !orb_assoc. auto.
Qed.

Lemma copyArray_inv (name : string) (val : value) (m m' : gmap string value) :
  app.copyArray name val m = Ok m' -> m' = m \/ m' = <[name := val]> m.
Proof.
  unfold app.copyArray, deepcopy_Copy.
  destruct (reflect_IsNil val) as [[]| |]; cbn [bind]; intros [= <-]; auto.
Qed.

(** The ISO flag after one array of the arrays loop. *)
Lemma vbisoArray_hasISOURL (r : app.RawTemplate) (st st' : app.arraysState)
    (name : string) (val : value) :
  app.vbisoArray replaceVariables r st (name, val) = Ok st' ->
  (app.a_hasISOURL st = true -> app.a_hasISOURL st' = true)
  /\ (name <> "iso_urls" -> app.a_hasISOURL st' = app.a_hasISOURL st).
Proof.
  unfold app.vbisoArray. cbv zeta.
  repeat match goal with
         | |- (if String.eqb name ?lit then _ else _) = _ -> _ =>
             destruct (String.eqb_spec name lit) as [->|?]
         | |- (if ?c then _ else _) = _ -> _ => destruct c eqn:?
         | |- bind ?m _ = _ -> _ => destruct m as [[]| |]; cbn [bind]
         | |- bind ?m _ = _ -> _ => destruct m; cbn [bind]
         end;
    intros Hres; try discriminate Hres; injection Hres as <-;
    cbn [app.a_hasISOURL]; split; intros; congruence.
Qed.

Lemma forEach_vbisoArray_hasISOURL (r : app.RawTemplate)
    (arrays : list (string * value)) :
  forall st st',
    app.forEach (app.vbisoArray replaceVariables r) st arrays = Ok st' ->
    (app.a_hasISOURL st = true -> app.a_hasISOURL st' = true)
    /\ ((forall v, ~ In ("iso_urls", v) arrays) ->
        app.a_hasISOURL st' = app.a_hasISOURL st).
Proof.
  induction arrays as [|[name val] arrays IH]; intros st st'; cbn [app.forEach].
  - intros [= <-]. auto.
  - destruct (app.vbisoArray replaceVariables r st (name, val)) as [st1| |] eqn:E;
      cbn [bind]; try discriminate.
    intros H. apply vbisoArray_hasISOURL in E as [E1 E2].
    apply IH in H as [H1 H2]. split; [auto|].
    intros Hno. rewrite H2, E2.
    + reflexivity.
    + intros ->. apply (Hno val). now left.
    + intros v Hv. apply (Hno v). now right.
Qed.

(** The ISO flags [createVirtualBoxISO] has computed when it turns to the
    ISO settings, in terms of the merged settings and the arrays. *)
Lemma vbisoPrepare_flags (r : app.RawTemplate) (ID : string) (b : app.BuilderC)
    (ws : list string) (p : app.prepared) :
  app.Builders r !! ID = Some b ->
  app.workSettings r b = Ok ws ->
  app.vbisoPrepare replaceVariables processCommunicator commandsFromFile ISOInfo stat r ID
  = Ok p ->
  app.p_hasChecksum p = app.hasKey "iso_checksum" ws
  /\ app.p_hasChecksumType p = app.hasKey "iso_checksum_type" ws
  /\ (app.hasKey "iso_url" ws = true -> app.p_hasISOURL p = true)
  /\ (app.hasKey "iso_url" ws = false -> app.Arrays b !! "iso_urls" = None ->
      app.p_hasISOURL p = false).
Proof.
  intros Hb Hws. unfold app.vbisoPrepare. rewrite Hb, Hws. cbv zeta.
  cbn [wrapErr bind].
  destruct (processCommunicator _ _ _ _) as [e|[prefix settings]];
    cbn [call wrapErr bind]; [discriminate|].
  destruct (app.forEach _ _ ws) as [w| |] eqn:Ew; cbn [bind]; try discriminate.
  apply forEach_vbisoSetting_flags in Ew as (W1 & W2 & W3).
  cbn [app.hasISOURL app.hasChecksum app.hasChecksumType orb] in W1, W2, W3.
  destruct (app.hasUsername w); cbn [negb]; [|discriminate].
  destruct (app.hasPassword w); cbn [negb]; [|discriminate].
  destruct (app.setHTTP _ _ _ _) as [[r1 m1]| |]; cbn [wrapErr bind]; try discriminate.
  destruct (app.forEach _ _ (map_to_list _)) as [st| |] eqn:Ea; cbn [bind];
    try discriminate.
  apply forEach_vbisoArray_hasISOURL in Ea as [A1 A2]. cbn [app.a_hasISOURL] in A1, A2.
  destruct (if String.eqb (app.OSType r1) "" then _ else _) as [r2| |];
    cbn [bind]; try discriminate.
  destruct (if _ && _ then _ else _) as [m2| |]; cbn [bind]; try discriminate.
  intros [= <-]. cbn [app.p_hasChecksum app.p_hasChecksumType app.p_hasISOURL].
  repeat split; auto.
  - intros Hu. apply A1. congruence.
  - intros Hu Harr. rewrite A2; [congruence|].
    intros v Hv. apply list_elem_of_In, elem_of_map_to_list in Hv. congruence.
Qed.

(** C4.  Take a virtualbox-iso builder for which everything before the
    ISO settings succeeds.  With [iso_url] in its merged settings the build
    fails with a missing-required error for [iso_checksum] when that is
    absent, and for [iso_checksum_type] when only that is absent; with both
    present the settings are the ones walked, nothing comes from the
    release object.  With neither [iso_url] in the settings nor [iso_urls]
    in the arrays, the three ISO settings are those of the release object
    of the template's distro. *)
Theorem createVirtualBoxISO_iso_settings (r : app.RawTemplate) (ID : string)
    (b : app.BuilderC) (ws : list string) (p : app.prepared) :
  app.Builders r !! ID = Some b ->
  app.workSettings r b = Ok ws ->
  app.vbisoPrepare replaceVariables processCommunicator commandsFromFile ISOInfo stat r ID
  = Ok p ->
  let create :=
    app.createVirtualBoxISO replaceVariables processCommunicator commandsFromFile
                            ISOInfo stat r ID in
  (app.hasKey "iso_url" ws = true ->
   (app.hasKey "iso_checksum" ws = false ->
    create = Fail (BuilderErr ID VirtualBoxISO (RequiredSettingErr "iso_checksum")))
   /\ (app.hasKey "iso_checksum" ws = true ->
       app.hasKey "iso_checksum_type" ws = false ->
       create = Fail (BuilderErr ID VirtualBoxISO (RequiredSettingErr "iso_checksum_type")))
   /\ (app.hasKey "iso_checksum" ws = true ->
       app.hasKey "iso_checksum_type" ws = true ->
       create = Ok (app.p_settings p)))
  /\ (app.hasKey "iso_url" ws = false ->
      app.Arrays b !! "iso_urls" = None ->
      forall rel,
        app.distroRelease (app.p_template p) = Some rel ->
        exists m,
          create = Ok m
          /\ m !! "iso_url" = Some (VString (app.imageURL rel))
          /\ m !! "iso_checksum" = Some (VString (app.Checksum rel))
          /\ m !! "iso_checksum_type" = Some (VString (app.ChecksumType rel))).
Proof.
  intros Hb Hws Hp create.
  destruct (vbisoPrepare_flags r ID b ws p Hb Hws Hp) as (F1 & F2 & F3 & F4).
  subst create. unfold app.createVirtualBoxISO. rewrite Hp. cbn [bind].
  unfold app.vbisoResolveISO. cbv zeta. split.
  - intros Hurl. rewrite (F3 Hurl), F1, F2. cbn [negb]. repeat split.
    + now intros ->.
    + now intros -> ->.
    + now intros -> ->.
  - intros Hurl Harr rel Hrel. rewrite (F4 Hurl Harr). cbn [negb].
    unfold app.distroRelease in Hrel.
    exists (app.isoSettings rel (app.p_settings p)).
    split.
    + destruct (app.ReleaseISO (app.p_template p)) as [|c|d|u];
        [discriminate| | |];
        repeat match goal with
               | |- context [String.eqb ?a ?b] => destruct (String.eqb_spec a b)
               | H : context [String.eqb ?a ?b] |- _ => destruct (String.eqb_spec a b)
               end;
        try discriminate; try congruence.
    + unfold app.isoSettings. repeat split.
      * rewrite !lookup_insert_ne by discriminate. apply lookup_insert_eq.
      * rewrite lookup_insert_ne by discriminate. apply lookup_insert_eq.
      * apply lookup_insert_eq.
Qed.

End builder_facts.

(** ** Examples on concrete inputs *)

(** The merge of C1 on an unset marker: [new] has the key [boot_wait],
    with the empty value, yet the merge has no entry for it. *)
Lemma mergeSettingsSlices_unset_counterexample :
  app.lookupSetting "boot_wait" ["boot_wait ="] = Some ""
  /\ app.mergeSettingsSlices ["boot_wait = 5s"; "headless = true"] ["boot_wait ="]
     = Ok ["headless = true"]
  /\ app.lookupSetting "boot_wait" ["headless = true"] = None.
Proof. repeat split. Qed.

(** The merge of the spec's example shape: later values win, new keys go
    to the end, [guest_os_type] survives its unset marker. *)
Lemma mergeSettingsSlices_example :
  app.mergeSettingsSlices ["a = 1"; "b = 2"; "guest_os_type = x"]
                          ["c = 3"; "a = 4"; "guest_os_type ="]
  = Ok ["a = 4"; "b = 2"; "guest_os_type ="; "c = 3"].
Proof. reflexivity. Qed.

(** A command file of one line ending in a backslash: the line comes
    back as it is, white space and backslash included. *)
Lemma commandFromSlice_single_line_counterexample :
  Forall (fun x => app.continued x = true) ["  shutdown -h now \"]
  /\ app.commandFromSlice ["  shutdown -h now \"] = "  shutdown -h now \"
  /\ concatAll (map app.lineBody ["  shutdown -h now \"]) = "shutdown -h now "
  /\ lastByte (app.commandFromSlice ["  shutdown -h now \"]) = Some "\"%char.
Proof. repeat split. repeat constructor. Qed.

Lemma commandFromSlice_joins_lines_witness :
  app.commandFromSlice ["  echo 'vagrant' | \"; " sudo -S \"; "shutdown -P now"; "ignored"]
  = "echo 'vagrant' | sudo -S shutdown -P now"
  /\ app.commandFromSlice [" a \"; "b\  "] = "a b".
Proof.
  split.
  - destruct (commandFromSlice_joins_lines
                ["  echo 'vagrant' | \"; " sudo -S \"; "shutdown -P now"; "ignored"])
      as [_ H].
    destruct (H ltac:(cbn; lia)) as (Hstop & _).
    apply (Hstop ["  echo 'vagrant' | \"; " sudo -S \"] "shutdown -P now" ["ignored"]).
    + reflexivity.
    + repeat constructor.
    + reflexivity.
  - destruct (commandFromSlice_joins_lines [" a \"; "b\  "]) as [_ H].
    destruct (H ltac:(cbn; lia)) as (_ & Hall & _).
    apply Hall. repeat constructor.
Defined.

Lemma setHTTP_default_witness :
  exists r' m',
    app.setHTTP samples.emptyDisk (samples.vboxTemplate []) "virtualbox-iso"
                (samples.typeOnly "virtualbox-iso")
    = Ok (r', m')
    /\ app.Dirs r' !! "out/http" = Some "virtualbox-iso/http/"
    /\ m' !! "http_directory" = Some (VString "http")
    /\ m' !! "type" = Some (VString "virtualbox-iso").
Proof.
  destruct (setHTTP_default samples.emptyDisk (samples.vboxTemplate []) "virtualbox-iso"
                            (samples.typeOnly "virtualbox-iso")
                            ltac:(vm_compute; reflexivity)) as [_ H].
  destruct (H "virtualbox-iso/http/" eq_refl) as (r' & m' & E & Hd & Hm & _ & Hk).
  exists r', m'. split; [exact E|]. split; [|split].
  - rewrite Hd. vm_compute. reflexivity.
  - exact Hm.
  - rewrite Hk by discriminate. vm_compute. reflexivity.
Defined.

Lemma createVBoxManage_slice_of_strings_witness :
  app.createVBoxManage samples.noVariables (samples.vboxTemplate [])
                       (VStrings ["memory=4096"; "--cpus = 2"])
  = Ok [ ["modifyvm"; "{{.Name}}"; "--memory"; "4096"];
         ["modifyvm"; "{{.Name}}"; "--cpus"; "2"] ]
  /\ app.createVBoxManage samples.noVariables (samples.vboxTemplate [])
                          (VIfaces [VString "memory=4096"])
     = Panic.
Proof.
  split.
  - destruct (createVBoxManage_slice_of_strings samples.noVariables (samples.vboxTemplate [])
                (VStrings ["memory=4096"; "--cpus = 2"])) as [H _].
    apply (H ["memory=4096"; "--cpus = 2"] eq_refl).
  - destruct (createVBoxManage_slice_of_strings samples.noVariables (samples.vboxTemplate [])
                (VIfaces [VString "memory=4096"])) as (_ & H & _).
    apply (H eq_refl).
Defined.

Lemma createAmazonChroot_root_volume_size_witness :
  app.createAmazonChroot samples.noVariables samples.noCommunicator
    (samples.chrootTemplate (samples.chrootSettings ++ ["root_volume_size = 8"]))
    "amazon-chroot"
  = Fail (SettingErr "root_volume_size" "8" None)
  /\ exists m,
      app.createAmazonChroot samples.noVariables samples.noCommunicator
        (samples.chrootTemplate samples.chrootSettings) "amazon-chroot" = Ok m
      /\ m !! "ami_name" = Some (VString "test").
Proof.
  split.
  - edestruct (createAmazonChroot_root_volume_size samples.noVariables
                 samples.noCommunicator
                 (samples.chrootTemplate (samples.chrootSettings ++ ["root_volume_size = 8"]))
                 "amazon-chroot") as (_ & _ & H).
    + vm_compute. reflexivity.
    + vm_compute. reflexivity.
    + reflexivity.
    + apply (H "root_volume_size = 8" "" (samples.typeOnly "amazon-chroot"));
        reflexivity.
  - eexists. split; vm_compute; reflexivity.
Defined.

Lemma createVirtualBoxISO_iso_settings_witness :
  app.createVirtualBoxISO samples.noVariables samples.noCommunicator
    samples.noCommandFiles samples.noDiscovery samples.emptyDisk
    (samples.vboxTemplate ["iso_url = http://example.org/ubuntu.iso"]) "virtualbox-iso"
  = Fail (BuilderErr "virtualbox-iso" VirtualBoxISO (RequiredSettingErr "iso_checksum"))
  /\ app.createVirtualBoxISO samples.noVariables samples.noCommunicator
       samples.noCommandFiles samples.noDiscovery samples.emptyDisk
       (samples.vboxTemplate ["iso_url = http://example.org/ubuntu.iso"; "iso_checksum = ab12"])
       "virtualbox-iso"
     = Fail (BuilderErr "virtualbox-iso" VirtualBoxISO (RequiredSettingErr "iso_checksum_type"))
  /\ exists m,
      app.createVirtualBoxISO samples.noVariables samples.noCommunicator
        samples.noCommandFiles samples.noDiscovery samples.emptyDisk
        (samples.vboxTemplate ["vm_name = test"]) "virtualbox-iso" = Ok m
      /\ m !! "iso_url" = Some (VString (app.imageURL samples.ubuntuISO))
      /\ m !! "iso_checksum" = Some (VString "abc123")
      /\ m !! "iso_checksum_type" = Some (VString "sha256").
Proof.
  split; [|split].
  - edestruct (createVirtualBoxISO_iso_settings samples.noVariables samples.noCommunicator
                 samples.noCommandFiles samples.noDiscovery samples.emptyDisk
                 (samples.vboxTemplate ["iso_url = http://example.org/ubuntu.iso"])
                 "virtualbox-iso") as [H _].
    + vm_compute. reflexivity.
    + vm_compute. reflexivity.
    + vm_compute. reflexivity.
    + destruct (H eq_refl) as [H1 _]. exact (H1 eq_refl).
  - edestruct (createVirtualBoxISO_iso_settings samples.noVariables samples.noCommunicator
                 samples.noCommandFiles samples.noDiscovery samples.emptyDisk
                 (samples.vboxTemplate
                    ["iso_url = http://example.org/ubuntu.iso"; "iso_checksum = ab12"])
                 "virtualbox-iso") as [H _].
    + vm_compute. reflexivity.
    + vm_compute. reflexivity.
    + vm_compute. reflexivity.
    + destruct (H eq_refl) as (_ & H2 & _). exact (H2 eq_refl eq_refl).
  - edestruct (createVirtualBoxISO_iso_settings samples.noVariables samples.noCommunicator
                 samples.noCommandFiles samples.noDiscovery samples.emptyDisk
                 (samples.vboxTemplate ["vm_name = test"]) "virtualbox-iso") as [_ H].
    + vm_compute. reflexivity.
    + vm_compute. reflexivity.
    + vm_compute. reflexivity.
    + apply (H eq_refl eq_refl samples.ubuntuISO eq_refl).
Defined.

Lemma centOS_setReleaseInfo_witness :
  ranchr.setReleaseInfo
    (samples.serves "http://mirrorlist.centos.org/?release=7&arch=x86_64&repo=os"
                    samples.mirrorlistPage)
    samples.centos7
  = Ok (ranchr.mkRelease "" "" "sha256" "CentOS-7.8.2003-x86_64-minimal.iso" ""
          "x86_64" "centos" "minimal" "7" "7.8.2003")
  /\ ranchr.setReleaseInfo samples.offline (ranchr.set_Release "6.6" samples.centos7)
     = Ok (ranchr.mkRelease "" "" "sha256" "CentOS-7.8.2003-x86_64-minimal.iso" ""
             "x86_64" "centos" "minimal" "6" "6.6")
  /\ ranchr.setReleaseInfo samples.offline samples.centos7
     = Fail (ErrNotExist "http://mirrorlist.centos.org/?release=7&arch=x86_64&repo=os").
Proof.
  split; [|split].
  - destruct (centOS_setReleaseInfo
                (samples.serves "http://mirrorlist.centos.org/?release=7&arch=x86_64&repo=os"
                                samples.mirrorlistPage) samples.centos7) as [_ H].
    destruct (H eq_refl) as [_ Hpage].
    apply (Hpage samples.mirrorlistPage
                 "http://mirror.example.org/centos/7.8.2003/os/x86_64/"
                 ["http:"; ""; "mirror.example.org"; "centos"; "7.8.2003"; "os"; "x86_64"; ""]);
      try reflexivity.
    cbn. lia.
  - destruct (centOS_setReleaseInfo samples.offline
                (ranchr.set_Release "6.6" samples.centos7)) as [H _].
    apply (H "6" "6"); reflexivity.
  - destruct (centOS_setReleaseInfo samples.offline samples.centos7) as [_ H].
    destruct (H eq_refl) as [Herr _].
    apply Herr. reflexivity.
Defined.

Lemma findSource_example_witness :
  app.findSource samples.emptyDisk (samples.vboxTemplate []) "cookbook1" "chef-solo" true
  = Ok "chef-solo/cookbook1/"
  /\ app.findSource samples.emptyDisk (samples.vboxTemplate []) "http/" "" true
     = Ok "http/"
  /\ app.findSource samples.emptyDisk (samples.vboxTemplate []) "minion" "salt" false
     = Ok "salt/minion"
  /\ app.findSource samples.emptyDisk (samples.vboxTemplate []) "" "chef-solo" true
     = Fail ErrEmptyPath.
Proof.
  split; [|split; [|split]].
  - destruct (findSource_example samples.emptyDisk (samples.vboxTemplate [])
                                 "cookbook1" "chef-solo" true eq_refl) as (_ & H & _).
    exact (H ltac:(discriminate)).
  - destruct (findSource_example samples.emptyDisk (samples.vboxTemplate [])
                                 "http/" "" true eq_refl) as (_ & H & _).
    exact (H ltac:(discriminate)).
  - destruct (findSource_example samples.emptyDisk (samples.vboxTemplate [])
                                 "minion" "salt" false eq_refl) as (_ & H & _).
    exact (H ltac:(discriminate)).
  - apply (findSource_example samples.emptyDisk (samples.vboxTemplate [])
                              "cookbook1" "chef-solo" true eq_refl).
Defined.


(** The overlay of C2 on an unset marker: both common sections have the
    key [ssh_wait_timeout], the named build with the empty value, and the
    common section has no entry for it afterwards. *)
Lemma updateBuilders_common_unset_counterexample :
  app.lookupSetting "ssh_wait_timeout" ["ssh_wait_timeout = 300m"; "headless = true"]
  = Some "300m"
  /\ app.lookupSetting "ssh_wait_timeout" ["ssh_wait_timeout ="] = Some ""
  /\ exists r',
       app.updateBuilders samples.copySection samples.unionKeys samples.overlayArrays
                          samples.workingTemplate samples.unsetBuilders = Ok r'
       /\ app.Settings <$> (app.Builders r' !! "common") = Some ["headless = true"]
       /\ app.lookupSetting "ssh_wait_timeout" ["headless = true"] = None.
Proof.
  split; [reflexivity|]. split; [reflexivity|].
  eexists. split; [vm_compute; reflexivity|]. split; reflexivity.
Qed.

Lemma updateBuilders_common_overlay_witness :
  (exists r' b',
      app.updateBuilders samples.copySection samples.unionKeys samples.overlayArrays
                         samples.workingTemplate samples.buildBuilders = Ok r'
      /\ app.Builders r' !! "common" = Some b'
      /\ app.lookupSetting "ssh_wait_timeout" (app.Settings b') = Some "240m"
      /\ app.lookupSetting "boot_wait" (app.Settings b') = Some "5s"
      /\ app.lookupSetting "headless" (app.Settings b') = Some "true")
  /\ exists r' b',
       app.updateBuilders samples.copySection samples.unionKeys samples.overlayArrays
                          (samples.chrootTemplate samples.chrootSettings)
                          samples.buildBuilders = Ok r'
       /\ app.Builders r' !! "common" = Some b'
       /\ app.lookupSetting "boot_wait" (app.Settings b') = Some "5s".
Proof.
  split.
  - edestruct (updateBuilders_common_overlay samples.copySection samples.unionKeys
                 samples.overlayArrays (fun b arrays => eq_refl)
                 samples.workingTemplate samples.buildBuilders samples.buildCommon)
      as (r' & b' & E & Hb' & Hwin & Hall).
    + vm_compute. reflexivity.
    + vm_compute. tauto.
    + exists r', b'. split; [exact E|]. split; [exact Hb'|]. split; [|split].
      * apply Hwin; reflexivity.
      * apply Hwin; reflexivity.
      * rewrite Hall. reflexivity.
  - edestruct (updateBuilders_common_overlay samples.copySection samples.unionKeys
                 samples.overlayArrays (fun b arrays => eq_refl)
                 (samples.chrootTemplate samples.chrootSettings) samples.buildBuilders
                 samples.buildCommon)
      as (r' & b' & E & Hb' & Hwin & _).
    + vm_compute. reflexivity.
    + vm_compute. tauto.
    + exists r', b'. split; [exact E|]. split; [exact Hb'|].
      apply Hwin; reflexivity.
Defined.

(** ** More facts about strings: searching and slicing *)

Lemma append_length_inj (a a' b b' : string) :
  a +:+ b = a' +:+ b' -> String.length a = String.length a' -> a = a' /\ b = b'.
Proof.
  revert a'. induction a as [|c a IH]; intros [|c' a'] H Hl; try discriminate.
  - now rewrite !append_nil_l in H.
  - rewrite !append_cons in H. injection H as -> H. injection Hl as Hl.
    destruct (IH _ H Hl) as [-> ->]. auto.
Qed.

Lemma prefix_append (sub s : string) :
  String.prefix sub s = true -> exists b, s = sub +:+ b.
Proof.
  revert s. induction sub as [|c sub IH]; intros s H.
  - exists s. reflexivity.
  - destruct s as [|c' s]; [discriminate|]. cbn [String.prefix] in H.
    destruct (Ascii.ascii_dec c c') as [->|]; [|discriminate].
    destruct (IH _ H) as [b ->]. exists b. reflexivity.
Qed.

Lemma prefix_of_append (sub b : string) : String.prefix sub (sub +:+ b) = true.
Proof.
  induction sub as [|c sub IH]; [destruct b; reflexivity|].
  rewrite append_cons. cbn [String.prefix].
  destruct (Ascii.ascii_dec c c); [exact IH | contradiction].
Qed.

(** Where [strings.Index] finds the substring, the string has it. *)
Lemma IndexOf_Some (s sub : string) (n : nat) :
  strings.IndexOf s sub = Some n ->
  exists a b, s = a +:+ sub +:+ b /\ String.length a = n.
Proof.
  revert n. induction s as [|c s IH]; intros n; cbn [strings.IndexOf].
  - destruct (String.prefix sub "") eqn:E; [|discriminate].
    intros [= <-]. apply prefix_append in E as [b ->]. exists "", b. auto.
  - destruct (String.prefix sub (String c s)) eqn:E.
    + intros [= <-]. apply prefix_append in E as [b ->]. exists "", b. auto.
    + destruct (strings.IndexOf s sub) as [m|] eqn:Em; [|discriminate].
      cbn. intros [= <-]. destruct (IH m eq_refl) as (a & b & -> & Hl).
      exists (String c a), b. split; [reflexivity|]. cbn. now rewrite Hl.
Qed.

Lemma Index_found (s sub : string) (n : Z) :
  strings.Index s sub = n -> (0 <= n)%Z ->
  exists a b, s = a +:+ sub +:+ b /\ strlen a = n.
Proof.
  unfold strings.Index. destruct (strings.IndexOf s sub) as [m|] eqn:E; [|lia].
  intros <- _. destruct (IndexOf_Some _ _ _ E) as (a & b & -> & Hl).
  exists a, b. split; [reflexivity|]. unfold strlen. now rewrite Hl.
Qed.

Lemma Index_range (s sub : string) : (-1 <= strings.Index s sub)%Z.
Proof. unfold strings.Index. destruct (strings.IndexOf s sub); lia. Qed.

Lemma substring_append_skip (a b : string) (m : nat) :
  String.substring (String.length a) m (a +:+ b) = String.substring 0 m b.
Proof.
  induction a as [|c a IH]; [reflexivity|].
  rewrite append_cons. cbn [String.length String.substring]. exact IH.
Qed.

Lemma substring_0_length (s : string) : String.substring 0 (String.length s) s = s.
Proof.
  induction s as [|c s IH]; [reflexivity|].
  cbn [String.length String.substring]. now rewrite IH.
Qed.

Lemma strlen_append (a b : string) : strlen (a +:+ b) = (strlen a + strlen b)%Z.
Proof. unfold strlen. rewrite length_append. lia. Qed.

Lemma strlen_nonneg (s : string) : (0 <= strlen s)%Z.
Proof. unfold strlen. lia. Qed.

(** The slice [s[len(a) : len(a)+len(m)]] of [a ++ m ++ b] is [m]. *)
Lemma slice_middle (a m b : string) :
  slice (a +:+ m +:+ b) (strlen a) (strlen a + strlen m) = Ok m.
Proof.
  unfold slice. rewrite !strlen_append.
  pose proof (strlen_nonneg a). pose proof (strlen_nonneg m). pose proof (strlen_nonneg b).
  destruct (Z.ltb_spec (strlen a) 0); [lia|].
  destruct (Z.ltb_spec (strlen a + strlen m) (strlen a)); [lia|].
  destruct (Z.ltb_spec (strlen a + (strlen m + strlen b)) (strlen a + strlen m)); [lia|].
  cbn [orb]. f_equal. unfold strlen.
  rewrite Nat2Z.id. replace (Z.to_nat _) with (String.length m) by lia.
  rewrite substring_append_skip. apply substring_0_append.
Qed.

Lemma slice_prefix (m b : string) : slice (m +:+ b) 0 (strlen m) = Ok m.
Proof. apply (slice_middle "" m b). Qed.

Lemma slice_suffix (a b : string) : slice (a +:+ b) (strlen a) (strlen (a +:+ b)) = Ok b.
Proof.
  rewrite strlen_append.
  pose proof (slice_middle a b "") as H. now rewrite append_nil_r in H.
Qed.

(** What a slice that does not panic is. *)
Lemma slice_Ok (s t : string) (lo hi : Z) :
  slice s lo hi = Ok t ->
  exists a b, s = a +:+ t +:+ b /\ strlen a = lo /\ strlen t = (hi - lo)%Z.
Proof.
  unfold slice.
  destruct (Z.ltb_spec lo 0); [discriminate|].
  destruct (Z.ltb_spec hi lo); [discriminate|].
  destruct (Z.ltb_spec (strlen s) hi); [discriminate|]. cbn [orb].
  intros [= <-].
  assert (forall (s : string) (n m : nat),
             (n + m <= String.length s)%nat ->
             exists a b, s = a +:+ String.substring n m s +:+ b
                         /\ String.length a = n
                         /\ String.length (String.substring n m s) = m) as Hsub.
  { clear. induction s as [|c s IH]; intros n m Hn.
    - cbn in Hn. assert (n = 0 /\ m = 0)%nat as [-> ->] by lia.
      exists "", "". auto.
    - destruct n as [|n].
      + destruct m as [|m].
        * exists "", (String c s). auto.
        * cbn in Hn. destruct (IH 0%nat m ltac:(lia)) as (a & b & E & Ha & Hm).
          destruct a; [|discriminate]. rewrite append_nil_l in E.
          exists "", b. cbn [String.substring]. rewrite !append_nil_l, append_cons.
          split; [now rewrite <- E|]. split; [reflexivity|]. cbn. now rewrite Hm.
      + cbn in Hn. destruct (IH n m ltac:(lia)) as (a & b & E & Ha & Hm).
        exists (String c a), b. cbn [String.substring]. rewrite append_cons.
        split; [now rewrite <- E|]. split; [cbn; now rewrite Ha | exact Hm]. }
  destruct (Hsub s (Z.to_nat lo) (Z.to_nat (hi - lo))) as (a & b & E & Ha & Hm).
  { unfold strlen in *. lia. }
  exists a, b. split; [exact E|]. unfold strlen. rewrite Ha, Hm. lia.
Qed.

(** [strings.Split] distributes over a separator. *)
Lemma Split_append_sep (a b : string) (sep : ascii) :
  strings.Split (a +:+ String sep b) sep = strings.Split a sep ++ strings.Split b sep.
Proof.
  induction a as [|c a IH].
  - rewrite append_nil_l. cbn [strings.Split]. now rewrite Ascii.eqb_refl.
  - rewrite append_cons. cbn [strings.Split]. rewrite IH.
    destruct (Ascii.eqb c sep); [reflexivity|].
    pose proof (Split_nonempty a sep).
    destruct (strings.Split a sep); [contradiction | reflexivity].
Qed.

Lemma index_last {A} (l : list A) (x : A) : index (l ++ [x]) (len (l ++ [x]) - 1) = Ok x.
Proof.
  unfold len. rewrite length_app. cbn [length].
  replace (Z.of_nat (length l + 1) - 1)%Z with (Z.of_nat (length l)) by lia.
  apply index_lookup. rewrite lookup_app_r by lia.
  now rewrite Nat.sub_diag.
Qed.

Lemma index_single {A} (x : A) : index [x] (len [x] - 1) = Ok x.
Proof. apply (index_last [] x). Qed.

(** ** The checksum pages *)

Lemma checksumBefore_line (pre line rest : string) :
  pre = "" \/ (exists p, pre = p +:+ String ranchr.newline "") ->
  hasByte ranchr.newline line = false ->
  ranchr.checksumBefore (pre +:+ line +:+ rest) (strlen (pre +:+ line))
  = Ok (strings.TrimSpace line).
Proof.
  intros Hpre Hline. unfold ranchr.checksumBefore.
  rewrite <- append_assoc, slice_prefix. cbn [bind].
  destruct Hpre as [->|[p ->]].
  - rewrite append_nil_l, (Split_no_sep _ _ Hline), index_single. reflexivity.
  - rewrite append_assoc, append_cons, append_nil_l, Split_append_sep.
    rewrite (Split_no_sep _ _ Hline), index_last. reflexivity.
Qed.

Lemma checksumBefore_found (page name : string) :
  (0 <= strings.Index page name)%Z ->
  exists a b, page = a +:+ name +:+ b
              /\ strlen a = strings.Index page name
              /\ exists l last, strings.Split a ranchr.newline = l ++ [last]
              /\ ranchr.checksumBefore page (strings.Index page name)
                 = Ok (strings.TrimSpace last).
Proof.
  intros Hpos. destruct (Index_found _ _ _ eq_refl Hpos) as (a & b & E & Ha).
  exists a, b. split; [exact E|]. split; [exact Ha|].
  destruct (exists_last (Split_nonempty a ranchr.newline)) as (l & last & El).
  exists l, last. split; [exact El|].
  unfold ranchr.checksumBefore. rewrite <- Ha. rewrite E at 1.
  rewrite slice_prefix. cbn [bind]. rewrite El, index_last. reflexivity.
Qed.

(** X1. On a checksum page whose first occurrence of the ISO's name is
    preceded, on the same line, by [line], [centOS.findChecksum] and
    [debian.findISOChecksum] both return [line] trimmed of white space:
    the text between the last newline before the name and the name. *)
Theorem findChecksum_reads_line (c : ranchr.release) (pre line rest : string) :
  pre +:+ line +:+ ranchr.Name c +:+ rest <> "" ->
  strings.Index (pre +:+ line +:+ ranchr.Name c +:+ rest) (ranchr.Name c)
  = strlen (pre +:+ line) ->
  pre = "" \/ (exists p, pre = p +:+ String ranchr.newline "") ->
  hasByte ranchr.newline line = false ->
  ranchr.findChecksum c (pre +:+ line +:+ ranchr.Name c +:+ rest)
  = Ok (strings.TrimSpace line)
  /\ ranchr.debian_findISOChecksum c (pre +:+ line +:+ ranchr.Name c +:+ rest)
     = Ok (strings.TrimSpace line).
Proof.
  intros Hne Hpos Hpre Hline.
  unfold ranchr.findChecksum, ranchr.debian_findISOChecksum.
  apply String.eqb_neq in Hne. rewrite Hne, Hpos.
  pose proof (strlen_nonneg (pre +:+ line)) as Hl.
  destruct (Z.ltb_spec (strlen (pre +:+ line)) 0); [lia|].
  now rewrite (checksumBefore_line pre line _ Hpre Hline).
Qed.

(** X2. [centOS.findChecksum] and [debian.findISOChecksum] never panic:
    the slice [page[:pos]] and the index [len(tmpSl)-1] are always in
    range.  They fail exactly when the page is empty or does not contain
    the ISO's name, and otherwise return the trimmed last line of the text
    before the first occurrence of the name. *)
Theorem findChecksum_outcome (c : ranchr.release) (page : string) :
  (page = "" \/ strings.Index page (ranchr.Name c) = (-1)%Z ->
   (exists e, ranchr.findChecksum c page = Fail e)
   /\ (exists e, ranchr.debian_findISOChecksum c page = Fail e))
  /\ (page <> "" -> strings.Index page (ranchr.Name c) <> (-1)%Z ->
      exists a b l last,
        page = a +:+ ranchr.Name c +:+ b
        /\ strlen a = strings.Index page (ranchr.Name c)
        /\ strings.Split a ranchr.newline = l ++ [last]
        /\ ranchr.findChecksum c page = Ok (strings.TrimSpace last)
        /\ ranchr.debian_findISOChecksum c page = Ok (strings.TrimSpace last)).
Proof.
  unfold ranchr.findChecksum, ranchr.debian_findISOChecksum. split.
  - intros [->|H]; [split; eexists; reflexivity|].
    destruct (String.eqb page ""); [split; eexists; reflexivity|].
    rewrite H. split; eexists; reflexivity.
  - intros Hne Hpos. apply String.eqb_neq in Hne. rewrite Hne.
    pose proof (Index_range page (ranchr.Name c)) as Hr.
    destruct (Z.ltb_spec (strings.Index page (ranchr.Name c)) 0); [lia|].
    destruct (checksumBefore_found page (ranchr.Name c)) as (a & b & E & Ha & l & last & El & Hc);
      [lia|].
    exists a, b, l, last. auto.
Qed.

Lemma centOS_checksumURL_dir
    (fetch : string -> error + string) (parse : string -> error + ranchr.Node)
    (rnd : Z) (c : ranchr.centOS) :
  ranchr.BaseURL c <> "" ->
  let dir := ranchr.BaseURL c
               +:+ (if strings.HasSuffix (ranchr.BaseURL c) "/" then "" else "/")
               +:+ ranchr.ReleaseFull c +:+ "/isos/" +:+ ranchr.Arch c +:+ "/" in
  ranchr.setISOURL fetch parse rnd c = Ok (ranchr.set_isoURL (dir +:+ ranchr.Name c) c)
  /\ ranchr.checksumURL (ranchr.set_isoURL (dir +:+ ranchr.Name c) c)
     = dir +:+ strings.ToLower (ranchr.ChecksumType c) +:+ "sum.txt".
Proof.
  intros Hb dir. apply String.eqb_neq in Hb. split.
  - unfold ranchr.setISOURL. rewrite Hb. cbn [negb]. do 2 f_equal.
    unfold dir. now rewrite !append_assoc.
  - unfold ranchr.checksumURL. destruct c. cbn [ranchr.set_isoURL ranchr.isoURL ranchr.Name ranchr.ChecksumType].
    now rewrite TrimSuffix_append.
Qed.


(** X3. With a base URL set, [centOS.setISOURL] needs no network and no
    random draw: the ISO URL is the ISO's name under
    [<base>/<full release>/isos/<arch>/] (one slash is added to the base
    when it lacks it), and [centOS.checksumURL] then is the file
    [<lower-case checksum type>sum.txt] of that same directory. *)
Theorem centOS_checksumURL_beside_iso
    (fetch : string -> error + string) (parse : string -> error + ranchr.Node)
    (rnd : Z) (c : ranchr.centOS) :
  ranchr.BaseURL c <> "" ->
  let dir := ranchr.BaseURL c
               +:+ (if strings.HasSuffix (ranchr.BaseURL c) "/" then "" else "/")
               +:+ ranchr.ReleaseFull c +:+ "/isos/" +:+ ranchr.Arch c +:+ "/" in
  ranchr.setISOURL fetch parse rnd c = Ok (ranchr.set_isoURL (dir +:+ ranchr.Name c) c)
  /\ ranchr.checksumURL (ranchr.set_isoURL (dir +:+ ranchr.Name c) c)
     = dir +:+ strings.ToLower (ranchr.ChecksumType c) +:+ "sum.txt".
Proof. exact (centOS_checksumURL_dir fetch parse rnd c). Qed.

(** ** Release information *)

Lemma setReleaseInfo_dotted
    (fetch : string -> error + string) (c : ranchr.centOS) (major minor : string) :
  ranchr.Release c = major +:+ String "."%char minor ->
  hasByte "."%char major = false ->
  ranchr.setReleaseInfo fetch c
  = Ok (ranchr.set_Release major (ranchr.set_ReleaseFull (ranchr.Release c) c)).
Proof.
  intros E Hm. unfold ranchr.setReleaseInfo.
  pose proof (Split_nonempty minor "."%char) as Hne.
  assert (exists x l, strings.Split (ranchr.Release c) "."%char = major :: x :: l)
    as (x & l & Es).
  { rewrite E, (Split_at_first _ _ _ Hm).
    destruct (strings.Split minor "."%char) as [|x l]; [contradiction|]. eauto. }
  rewrite Es. unfold len. cbn [length].
  destruct (Z.ltb_spec 1 (Z.of_nat (S (S (length l))))); [|lia].
  rewrite index_0. reflexivity.
Qed.

(** X4. [centOS.SetISOInfo] for a release given as [major.minor], with a
    base URL and a checksum type set: the release becomes [major], the full
    release is the release as given, the name is
    [CentOS-<full>-<arch>-<image>.iso], the ISO URL is that name under
    [<base>/<full>/isos/<arch>/], and the checksum is what
    [findChecksum] reads from the page fetched from the
    [<type>sum.txt] file of that directory.  No other URL is fetched. *)
Theorem centOS_SetISOInfo_with_base_url
    (fetch : string -> error + string) (parse : string -> error + ranchr.Node)
    (rnd : Z) (c : ranchr.centOS) (major minor page checksum : string) :
  ranchr.Arch c <> "" ->
  ranchr.Release c = major +:+ String "."%char minor ->
  hasByte "."%char major = false ->
  ranchr.BaseURL c <> "" ->
  ranchr.ChecksumType c <> "" ->
  let name := "CentOS-" +:+ ranchr.Release c +:+ "-" +:+ ranchr.Arch c +:+ "-"
                +:+ ranchr.Image c +:+ ".iso" in
  let dir := ranchr.BaseURL c
               +:+ (if strings.HasSuffix (ranchr.BaseURL c) "/" then "" else "/")
               +:+ ranchr.Release c +:+ "/isos/" +:+ ranchr.Arch c +:+ "/" in
  fetch (dir +:+ strings.ToLower (ranchr.ChecksumType c) +:+ "sum.txt") = inr page ->
  ranchr.findChecksum (ranchr.set_Name name c) page = Ok checksum ->
  ranchr.SetISOInfo fetch parse rnd c
  = Ok (ranchr.mkRelease (ranchr.BaseURL c) checksum (ranchr.ChecksumType c) name
          (dir +:+ name) (ranchr.Arch c) (ranchr.Distro c) (ranchr.Image c)
          major (ranchr.Release c)).
Proof.
  intros Ha Er Hm Hb Ht name dir Hf Hc.
  unfold ranchr.SetISOInfo.
  apply String.eqb_neq in Ha. rewrite Ha.
  assert (ranchr.Release c <> "") as Hr.
  { rewrite Er. destruct major; discriminate. }
  apply String.eqb_neq in Hr. rewrite Hr.
  rewrite (setReleaseInfo_dotted fetch c major minor Er Hm). cbn [bind].
  set (c1 := ranchr.setISOName _).
  assert (c1 = ranchr.mkRelease (ranchr.BaseURL c) (ranchr.Checksum c)
                 (ranchr.ChecksumType c) name (ranchr.isoURL c) (ranchr.Arch c)
                 (ranchr.Distro c) (ranchr.Image c) major (ranchr.Release c)) as E1.
  { subst c1. destruct c. reflexivity. }
  clearbody c1. subst c1.
  match goal with |- context [ranchr.setISOURL _ _ _ ?x] => set (c1 := x) end.
  assert (ranchr.BaseURL c1 <> "") as Hb1 by exact Hb.
  destruct (centOS_checksumURL_dir fetch parse rnd c1 Hb1) as [Eu Ec].
  rewrite Eu. cbn [bind]. unfold ranchr.setISOChecksum.
  rewrite Ec.
  change (ranchr.ChecksumType (ranchr.set_isoURL _ c1)) with (ranchr.ChecksumType c).
  apply String.eqb_neq in Ht. rewrite Ht.
  change (ranchr.BaseURL c1) with (ranchr.BaseURL c).
  change (ranchr.ReleaseFull c1) with (ranchr.Release c).
  change (ranchr.Arch c1) with (ranchr.Arch c).
  change (ranchr.ChecksumType c1) with (ranchr.ChecksumType c).
  fold dir. rewrite Hf. cbn [call bind].
  unfold ranchr.findChecksum in *.
  change (ranchr.Name (ranchr.set_isoURL _ c1)) with name.
  change (ranchr.Name (ranchr.set_Name name c)) with name in Hc.
  rewrite Hc. cbn [bind]. reflexivity.
Qed.

Lemma slice_in_range (s : string) (lo hi : Z) :
  (0 <= lo <= hi)%Z -> (hi <= strlen s)%Z ->
  exists a t b, s = a +:+ t +:+ b /\ strlen a = lo /\ strlen t = (hi - lo)%Z
                /\ slice s lo hi = Ok t.
Proof.
  intros H1 H2.
  assert (exists t, slice s lo hi = Ok t) as [t Ht].
  { unfold slice.
    destruct (Z.ltb_spec lo 0); [lia|]. destruct (Z.ltb_spec hi lo); [lia|].
    destruct (Z.ltb_spec (strlen s) hi); [lia|]. eauto. }
  destruct (slice_Ok _ _ _ _ Ht) as (a & b & E & Ha & Hl). exists a, t, b. auto.
Qed.

Lemma strlen_0 (s : string) : strlen s = 0%Z -> s = "".
Proof. destruct s; [reflexivity | unfold strlen; cbn; lia]. Qed.

Lemma prefix_of_equal_appends (x y b t : string) :
  x +:+ b = y +:+ t -> (String.length x <= String.length y)%nat ->
  String.prefix x y = true.
Proof.
  revert y. induction x as [|c x IH]; intros y E Hl.
  - destruct y; reflexivity.
  - destruct y as [|c' y]; [cbn in Hl; lia|].
    rewrite !append_cons in E. injection E as -> E.
    cbn [String.prefix]. destruct (Ascii.ascii_dec c' c'); [|contradiction].
    apply IH; [exact E | cbn in Hl; lia].
Qed.

(** The shape of every run of [debian.setReleaseInfo]. *)
Lemma debian_setReleaseInfo_shape (d : ranchr.debian) (s : string) :
  let needle := "a href=" +:+ ranchr.dquote +:+ ranchr.Release d in
  (exists e, ranchr.debian_setReleaseInfo d s = Fail e)
  \/ (exists a full t,
         s = a +:+ "a href=" +:+ ranchr.dquote +:+ full +:+ t
         /\ strlen a = strings.Index s needle
         /\ String.length full = 5%nat
         /\ (exists b u, ranchr.Release d +:+ b = full +:+ u)
         /\ ranchr.debian_setReleaseInfo d s = Ok (ranchr.set_ReleaseFull full d)).
Proof.
  intros needle. unfold ranchr.debian_setReleaseInfo. fold needle.
  destruct (Z.ltb_spec (strings.Index s needle) 0) as [|Hpos]; [left; eauto|].
  destruct (Index_found _ _ _ eq_refl Hpos) as (a & b & E & Ha).
  set (pos := strings.Index s needle) in *. clearbody pos.
  assert (s = (a +:+ "a href=" +:+ ranchr.dquote) +:+ (ranchr.Release d +:+ b)) as E'.
  { rewrite E. unfold needle. now rewrite !append_assoc. }
  assert (strlen (a +:+ "a href=" +:+ ranchr.dquote) = (pos + 8)%Z) as Hl8.
  { rewrite !strlen_append, Ha. reflexivity. }
  set (s2 := ranchr.Release d +:+ b) in *.
  assert (slice s (pos + 8) (strlen s) = Ok s2) as ->.
  { rewrite <- Hl8, E'. apply slice_suffix. }
  cbn [bind].
  assert (exists s3 b3, s2 = s3 +:+ b3
            /\ (if (0 <? strings.Index s2 ranchr.dquote)%Z
                then slice s2 0 (strings.Index s2 ranchr.dquote) else Ok s2) = Ok s3)
    as (s3 & b3 & E3 & ->).
  { destruct (Z.ltb_spec 0 (strings.Index s2 ranchr.dquote)) as [Hq|Hq].
    - destruct (Index_found s2 ranchr.dquote _ eq_refl ltac:(lia)) as (a2 & b2 & E2 & Ha2).
      exists a2, (ranchr.dquote +:+ b2). split; [exact E2|].
      rewrite <- Ha2. rewrite E2 at 1. apply slice_prefix.
    - exists s2, "". now rewrite append_nil_r. }
  cbn [bind].
  destruct (Z.ltb_spec (strlen s3) 5) as [|H5]; [left; eauto|].
  destruct (slice_in_range s3 0 5 ltac:(lia) H5) as (a5 & full & b5 & E5 & Ha5 & Hf & ->).
  apply strlen_0 in Ha5. subst a5. rewrite append_nil_l in E5.
  cbn [bind]. right. exists a, full, (b5 +:+ b3).
  split.
  { rewrite E'. fold s2. rewrite E3, E5. now rewrite !append_assoc. }
  split; [exact Ha|]. split; [unfold strlen in Hf; lia|].
  split; [|reflexivity].
  exists b, (b5 +:+ b3). fold s2. rewrite E3, E5. now rewrite !append_assoc.
Qed.

(** X5. [debian.setReleaseInfo] never panics.  It fails when the page has
    no [a href=] followed by a quote and the release; and when it
    succeeds only the full release changes: it is made of the five bytes
    that follow the quote of the first such link, and a release of at most
    five bytes is a prefix of it. *)
Theorem debian_setReleaseInfo_five_bytes (d : ranchr.debian) (s : string) :
  ranchr.debian_setReleaseInfo d s <> Panic
  /\ (strings.Index s ("a href=" +:+ ranchr.dquote +:+ ranchr.Release d) = (-1)%Z ->
      exists e, ranchr.debian_setReleaseInfo d s = Fail e)
  /\ (forall d', ranchr.debian_setReleaseInfo d s = Ok d' ->
        d' = ranchr.set_ReleaseFull (ranchr.ReleaseFull d') d
        /\ String.length (ranchr.ReleaseFull d') = 5%nat
        /\ (exists a t,
              s = a +:+ "a href=" +:+ ranchr.dquote +:+ ranchr.ReleaseFull d' +:+ t
              /\ strlen a
                 = strings.Index s ("a href=" +:+ ranchr.dquote +:+ ranchr.Release d))
        /\ ((String.length (ranchr.Release d) <= 5)%nat ->
            String.prefix (ranchr.Release d) (ranchr.ReleaseFull d') = true)).
Proof.
  destruct (debian_setReleaseInfo_shape d s)
    as [[e He]|(a & full & t & E & Ha & Hl & (b & u & Ep) & Hr)].
  - split; [congruence|]. split; [eauto|]. intros d'. congruence.
  - split; [congruence|]. split.
    + intros Hi. rewrite Hi in Ha. pose proof (strlen_nonneg a). lia.
    + intros d'. rewrite Hr. intros [= <-]. destruct d.
      cbn [ranchr.set_ReleaseFull ranchr.ReleaseFull ranchr.Release] in *.
      split; [reflexivity|]. split; [exact Hl|]. split; [eauto|].
      intros Hle. apply (prefix_of_equal_appends _ _ _ _ Ep). lia.
Qed.

(** X6. [debian.getReleaseVersion] does not touch the network when the full
    release is already set.  When it is not set and the fetch of the base
    URL fails, the fetch error is only logged: the page is taken as empty
    and the error returned is the one of [setReleaseInfo] on an empty
    page, never the error of the fetch. *)
Theorem debian_getReleaseVersion_fetch_error
    (fetch : string -> error + string) (d : ranchr.debian) :
  (ranchr.ReleaseFull d <> "" -> ranchr.debian_getReleaseVersion fetch d = Ok d)
  /\ (ranchr.ReleaseFull d = "" ->
      forall e, fetch (ranchr.BaseURL d) = inl e ->
      ranchr.debian_getReleaseVersion fetch d
      = Fail (Errorf "unable to determine the current debian version: search string not found" None)
      /\ ranchr.debian_getReleaseVersion fetch d = ranchr.debian_setReleaseInfo d "").
Proof.
  unfold ranchr.debian_getReleaseVersion. split.
  - intros H. apply String.eqb_neq in H. now rewrite H.
  - intros -> e ->. cbn [String.eqb negb]. split; reflexivity.
Qed.

(** X7. On a checksums page where the first occurrence of the ISO's name
    is preceded by a 64 byte checksum and a 2 byte separator,
    [ubuntu.findChecksum] returns those 64 bytes and stores them in the
    release, whether the line is the first of the page or not; the second
    search for an LTS point release is not made. *)
Theorem ubuntu_findChecksum_reads_checksum
    (u : ranchr.ubuntu) (pre checksum sep rest : string) :
  String.length checksum = 64%nat ->
  String.length sep = 2%nat ->
  strings.Index (pre +:+ checksum +:+ sep +:+ ranchr.Name u +:+ rest) (ranchr.Name u)
  = strlen (pre +:+ checksum +:+ sep) ->
  ranchr.ubuntu_findChecksum u (pre +:+ checksum +:+ sep +:+ ranchr.Name u +:+ rest)
  = Ok (ranchr.set_Checksum checksum u, checksum).
Proof.
  intros Hc Hs Hpos. unfold ranchr.ubuntu_findChecksum.
  assert (String.eqb (pre +:+ checksum +:+ sep +:+ ranchr.Name u +:+ rest) "" = false) as ->.
  { apply String.eqb_neq. destruct pre; [|discriminate].
    destruct checksum; [discriminate|]. rewrite append_nil_l, append_cons. discriminate. }
  rewrite Hpos, !strlen_append.
  assert (strlen checksum = 64%Z) as Hc' by (unfold strlen; lia).
  assert (strlen sep = 2%Z) as Hs' by (unfold strlen; lia).
  pose proof (strlen_nonneg pre). pose proof (strlen_nonneg (ranchr.Name u)).
  pose proof (strlen_nonneg rest).
  destruct (Z.leb_spec (strlen pre + (strlen checksum + strlen sep)) 0); [lia|].
  cbn [bind].
  destruct (Z.ltb_spec (strlen pre + (strlen checksum + (strlen sep
              + (strlen (ranchr.Name u) + strlen rest))))
              (strlen pre + (strlen checksum + strlen sep) - 2)); [lia|].
  destruct (Z.ltb_spec (strlen pre + (strlen checksum + strlen sep) - 66) 1).
  - assert (pre = "") as -> by (apply strlen_0; lia).
    rewrite append_nil_l.
    replace (strlen "" + (strlen checksum + strlen sep) - 2)%Z with (strlen checksum)
      by (change (strlen "") with 0%Z; lia).
    rewrite slice_prefix. reflexivity.
  - replace (strlen pre + (strlen checksum + strlen sep) - 66)%Z with (strlen pre) by lia.
    replace (strlen pre + (strlen checksum + strlen sep) - 2)%Z
      with (strlen pre + strlen checksum)%Z by lia.
    rewrite slice_middle. reflexivity.
Qed.

(** X8. [ubuntu.findChecksum] panics on a page whose first occurrence of
    the ISO's name is at byte offset 1: the search is taken as successful
    (only [pos <= 0] starts the second search), the safety check
    [len(page) < pos-2] passes, and the slice [page[:pos-2]] has a negative
    bound. *)
Theorem ubuntu_findChecksum_panics_at_offset_1 (u : ranchr.ubuntu) (page : string) :
  strings.Index page (ranchr.Name u) = 1%Z ->
  ranchr.ubuntu_findChecksum u page = Panic.
Proof.
  intros Hpos. unfold ranchr.ubuntu_findChecksum.
  destruct page as [|c page].
  { unfold strings.Index in Hpos. cbn [strings.IndexOf] in Hpos.
    destruct (String.prefix (ranchr.Name u) ""); discriminate. }
  cbn [String.eqb]. rewrite Hpos. cbn [Z.leb Z.compare bind].
  pose proof (strlen_nonneg (String c page)).
  destruct (Z.ltb_spec (strlen (String c page)) (1 - 2)); [lia|].
  reflexivity.
Qed.

(** ** OS types *)

Ltac os_type_cases :=
  repeat match goal with
         | |- context [String.eqb ?a ?b] => destruct (String.eqb a b)
         end;
  cbn [orb andb]; split;
  first [ intros [? ?]; discriminate
        | intros [? ?]; split; reflexivity
        | intros _; eexists; reflexivity ].

(** X9. The builder types and architectures for which the releases know an
    OS type.  CentOS: vmware-iso, vmware-vmx, virtualbox-iso and
    virtualbox-ovf, with arch x86_64 or x386.  Debian and Ubuntu:
    vmware-iso, vmware-vmx, virtualbox-iso and vmware-ovf (not
    virtualbox-ovf), with arch amd64 or i386.  Every other combination is
    an error. *)
Theorem getOSType_supported (r : ranchr.release) (buildType : string) :
  ((exists t, ranchr.getOSType r buildType = Ok t) <->
   app.oneOf buildType ["vmware-iso"; "vmware-vmx"; "virtualbox-iso"; "virtualbox-ovf"] = true
   /\ app.oneOf (ranchr.Arch r) ["x86_64"; "x386"] = true)
  /\ ((exists t, ranchr.debian_getOSType r buildType = Ok t) <->
      app.oneOf buildType ["vmware-iso"; "vmware-vmx"; "virtualbox-iso"; "vmware-ovf"] = true
      /\ app.oneOf (ranchr.Arch r) ["amd64"; "i386"] = true)
  /\ ((exists t, ranchr.ubuntu_getOSType r buildType = Ok t) <->
      app.oneOf buildType ["vmware-iso"; "vmware-vmx"; "virtualbox-iso"; "vmware-ovf"] = true
      /\ app.oneOf (ranchr.Arch r) ["amd64"; "i386"] = true).
Proof.
  unfold ranchr.getOSType, ranchr.debian_getOSType, ranchr.ubuntu_getOSType, app.oneOf.
  cbn [existsb]. rewrite !orb_false_r.
  split; [|split]; os_type_cases.
Qed.

(** ** The mirrors of the redirect page *)

Lemma hrefCandidate_firstHref (arch : string) (attrs : list ranchr.Attribute) :
  ranchr.hrefCandidate arch attrs
  = match ranchr.firstHref attrs with
    | Some u =>
        if strings.Contains u arch && negb (strings.Contains u "ftp://") then [u] else []
    | None => []
    end.
Proof.
  induction attrs as [|a rest IH]; cbn [ranchr.hrefCandidate ranchr.firstHref]; [reflexivity|].
  destruct (String.eqb (ranchr.Key a) "href"); [reflexivity | exact IH].
Qed.

(** The candidates of [randomISOURL] are the links of the page that
    contain the arch and no [ftp://], in document order. *)
Lemma collectISOURLs_anchorHrefs (arch : string) (n : ranchr.Node) :
  ranchr.collectISOURLs arch n
  = List.filter (fun u => strings.Contains u arch && negb (strings.Contains u "ftp://"))
                (ranchr.anchorHrefs n).
Proof.
  revert n. fix IH 1. intros [t data attrs children].
  cbn [ranchr.collectISOURLs ranchr.anchorHrefs]. rewrite List.filter_app. f_equal.
  - destruct (ranchr.isElementNode t && String.eqb data "a"); [|reflexivity].
    rewrite hrefCandidate_firstHref. destruct (ranchr.firstHref attrs) as [u|]; [|reflexivity].
    cbn [List.filter]. destruct (_ && _); reflexivity.
  - induction children as [|x l IHl]; cbn [flat_map]; [reflexivity|].
    now rewrite List.filter_app, IH, IHl.
Qed.

(** X10. A URL that [centOS.randomISOURL] returns comes from the page
    fetched at [http://isoredirect.centos.org/centos/<release>/isos/<arch>/]:
    it is the ISO's name appended to a link of that page (the first [href]
    of an [a] element) that contains the arch and does not contain
    [ftp://], a trailing newline of the link removed. *)
Theorem randomISOURL_mirror
    (fetch : string -> error + string) (parse : string -> error + ranchr.Node)
    (rnd : Z) (c : ranchr.centOS) (url : string) :
  ranchr.randomISOURL fetch parse rnd c = Ok url ->
  exists page doc u,
    fetch ("http://isoredirect.centos.org/centos/" +:+ ranchr.Release c +:+ "/isos/"
             +:+ ranchr.Arch c +:+ "/") = inr page
    /\ parse page = inr doc
    /\ In u (ranchr.anchorHrefs doc)
    /\ strings.Contains u (ranchr.Arch c) = true
    /\ strings.Contains u "ftp://" = false
    /\ url = strings.TrimSuffix u (String ranchr.newline "") +:+ ranchr.Name c.
Proof.
  unfold ranchr.randomISOURL.
  change (ranchr.isoRedirectURL c)
    with ("http://isoredirect.centos.org/centos/" +:+ ranchr.Release c +:+ "/isos/"
            +:+ ranchr.Arch c +:+ "/").
  destruct (fetch _) as [e|page]; [discriminate|]. cbn [call bind].
  destruct (parse page) as [e|doc] eqn:Ed; [discriminate|]. cbn [call bind].
  rewrite collectISOURLs_anchorHrefs.
  set (urls := List.filter _ (ranchr.anchorHrefs doc)).
  destruct (len urls <? 1)%Z; [discriminate|].
  destruct (ranchr.rand_Intn rnd (len urls - 1)) as [i|e|]; [|discriminate..].
  cbn [bind]. unfold index.
  destruct (i <? 0)%Z; [discriminate|].
  destruct (urls !! Z.to_nat i) as [u|] eqn:Eu; [|discriminate].
  cbn [bind]. intros [= <-]. exists page, doc, u.
  apply list_elem_of_lookup_2, list_elem_of_In in Eu.
  subst urls. apply List.filter_In in Eu as [Hin Hf].
  apply andb_prop in Hf as [H1 H2]. apply negb_true_iff in H2.
  repeat split; auto.
Qed.

(** ** Builder kinds *)

Lemma lowerByte_idempotent (c : ascii) :
  strings.lowerByte (strings.lowerByte c) = strings.lowerByte c.
Proof. destruct c as [[] [] [] [] [] [] [] []]; reflexivity. Qed.

Lemma lowerByte_upperByte (c : ascii) :
  strings.lowerByte (strings.upperByte c) = strings.lowerByte c.
Proof. destruct c as [[] [] [] [] [] [] [] []]; reflexivity. Qed.

Lemma ToLower_idempotent (s : string) : strings.ToLower (strings.ToLower s) = strings.ToLower s.
Proof.
  unfold strings.ToLower. induction s as [|c s IH]; [reflexivity|].
  cbn [strings.mapBytes]. now rewrite lowerByte_idempotent, IH.
Qed.

Lemma ToLower_ToUpper (s : string) : strings.ToLower (strings.ToUpper s) = strings.ToLower s.
Proof.
  unfold strings.ToLower, strings.ToUpper. induction s as [|c s IH]; [reflexivity|].
  cbn [strings.mapBytes]. now rewrite lowerByte_upperByte, IH.
Qed.

Lemma isASCII_lowerByte (c : ascii) :
  (nat_of_ascii c <? 128)%nat = true ->
  (nat_of_ascii (strings.lowerByte c) <? 128)%nat = true.
Proof. destruct c as [[] [] [] [] [] [] [] []]; vm_compute; congruence. Qed.

Lemma isASCII_upperByte (c : ascii) :
  (nat_of_ascii c <? 128)%nat = true ->
  (nat_of_ascii (strings.upperByte c) <? 128)%nat = true.
Proof. destruct c as [[] [] [] [] [] [] [] []]; vm_compute; congruence. Qed.

Lemma isASCII_ToLower (s : string) :
  strings.isASCII s = true -> strings.isASCII (strings.ToLower s) = true.
Proof.
  unfold strings.ToLower. induction s as [|c s IH]; [reflexivity|].
  cbn [strings.isASCII strings.mapBytes]. intros [Hc Hs]%andb_prop.
  now rewrite (isASCII_lowerByte c Hc), (IH Hs).
Qed.

Lemma isASCII_ToUpper (s : string) :
  strings.isASCII s = true -> strings.isASCII (strings.ToUpper s) = true.
Proof.
  unfold strings.ToUpper. induction s as [|c s IH]; [reflexivity|].
  cbn [strings.isASCII strings.mapBytes]. intros [Hc Hs]%andb_prop.
  now rewrite (isASCII_upperByte c Hc), (IH Hs).
Qed.

(** X11. [ParseBuilder] inverts [Builder.String] on every builder kind,
    [UnsupportedBuilder] included.  On a string of ASCII bytes it ignores
    the case of the letters: the string, its lower-case and its upper-case
    form parse to the same kind. *)
Theorem ParseBuilder_round_trip (unicode_ToLower : string -> string) :
  (forall b : Builder, ParseBuilder unicode_ToLower (Builder_String b) = b)
  /\ (forall s : string,
        strings.isASCII s = true ->
        ParseBuilder unicode_ToLower (strings.ToLower s) = ParseBuilder unicode_ToLower s
        /\ ParseBuilder unicode_ToLower (strings.ToUpper s) = ParseBuilder unicode_ToLower s).
Proof.
  split.
  - intros []; vm_compute; reflexivity.
  - intros s Hs. unfold ParseBuilder, strings_ToLower. cbv zeta.
    rewrite Hs, (isASCII_ToLower s Hs), (isASCII_ToUpper s Hs).
    now rewrite ToLower_idempotent, ToLower_ToUpper.
Qed.

(** ** Settings as maps *)

Lemma foldl_insert_last {V} (f : gmap string V -> string -> gmap string V)
    (val : string -> V) (l : list string) (m0 : gmap string V) (k : string) :
  (forall m s, f m s = <[app.settingKey s := val s]> m) ->
  foldl f m0 l !! k
  = match app.lastEntry k l with
    | Some e => Some (val e)
    | None => m0 !! k
    end.
Proof.
  intros Hf. revert m0. induction l as [|e l IH]; intros m0; [reflexivity|].
  cbn [foldl]. rewrite IH, lastEntry_cons, Hf.
  destruct (app.lastEntry k l); [reflexivity|].
  destruct (String.eqb_spec (app.settingKey e) k) as [->|Hne].
  - apply lookup_insert_eq.
  - now apply lookup_insert_ne.
Qed.

(** X12. [BuilderC.settingsToMap] maps every key of the section's settings
    to the value of its last entry, after variable replacement and as a
    string; a key no entry has is absent from the map. *)
Theorem settingsToMap_last_wins
    (replaceVariables : app.RawTemplate -> string -> string)
    (b : app.TemplateSection) (r : app.RawTemplate) (k : string) :
  app.settingsToMap replaceVariables b r !! k
  = (fun v => VString (replaceVariables r v)) <$> app.lookupSetting k (app.Settings b).
Proof.
  unfold app.settingsToMap, app.lookupSetting.
  rewrite (foldl_insert_last _ (fun s => VString (replaceVariables r (app.settingValue s)))).
  - destruct (app.lastEntry k (app.Settings b)); reflexivity.
  - intros m s. unfold app.settingKey, app.settingValue.
    destruct (app.parseVar s). reflexivity.
Qed.

(** X13. [createVMXData] panics on a value that is not a slice of strings;
    on a slice of strings it maps every key to the value of its last
    entry after variable replacement. *)
Theorem createVMXData_last_wins
    (replaceVariables : app.RawTemplate -> string -> string)
    (r : app.RawTemplate) (v : value) :
  (isSliceOfStrings v = false -> app.createVMXData replaceVariables r v = Panic)
  /\ (forall l, v = VStrings l ->
        exists m, app.createVMXData replaceVariables r v = Ok m
                  /\ forall k, m !! k = replaceVariables r <$> app.lookupSetting k l).
Proof.
  unfold app.createVMXData, deepcopy_Copy. split.
  - destruct v as [| | | | | | | |[]]; cbn; congruence.
  - intros l ->. cbn [assertStrings bind]. eexists. split; [reflexivity|].
    intros k. unfold app.lookupSetting.
    rewrite (foldl_insert_last _ (fun s => replaceVariables r (app.settingValue s))).
    + destruct (app.lastEntry k l); reflexivity.
    + intros m s. unfold app.settingKey, app.settingValue.
      destruct (app.parseVar s). reflexivity.
Qed.

(** ** Command file names *)

(** X14. [stringIsCommandFilename]: a string without a dot is no command
    file name; for a string that ends in [stem.ext], where neither [stem]
    nor [ext] has a dot, the answer is that [stem] is not empty and [ext]
    ends in [command], whatever precedes [stem]. *)
Theorem stringIsCommandFilename_last_two_parts (stem ext : string) :
  hasByte "."%char stem = false ->
  hasByte "."%char ext = false ->
  app.stringIsCommandFilename stem = false
  /\ app.stringIsCommandFilename (stem +:+ String "."%char ext)
     = negb (String.eqb stem "") && strings.HasSuffix ext "command"
  /\ forall front,
       app.stringIsCommandFilename (front +:+ String "."%char (stem +:+ String "."%char ext))
       = negb (String.eqb stem "") && strings.HasSuffix ext "command".
Proof.
  intros Hs He. unfold app.stringIsCommandFilename.
  split; [|split].
  - now rewrite (Split_no_sep _ _ Hs).
  - rewrite (Split_at_first _ _ _ Hs), (Split_no_sep _ _ He). cbn.
    destruct (String.eqb stem ""); reflexivity.
  - intros front. rewrite Split_append_sep.
    rewrite (Split_at_first _ _ _ Hs), (Split_no_sep _ _ He).
    set (pre := strings.Split front "."%char).
    rewrite length_app. cbn [length].
    destruct (Nat.ltb_spec (length pre + 2) 2); [lia|].
    rewrite !lookup_app_r by lia.
    replace (length pre + 2 - 2 - length pre)%nat with 0%nat by lia.
    replace (length pre + 2 - 1 - length pre)%nat with 1%nat by lia.
    cbn. destruct (String.eqb stem ""); reflexivity.
Qed.

(** ** Loops over settings *)

Lemma forEach_invariant {S A} (body : S -> A -> outcome S) (P : S -> Prop)
    (l : list A) (st st' : S) :
  (forall s a s', body s a = Ok s' -> P s -> P s') ->
  app.forEach body st l = Ok st' -> P st -> P st'.
Proof.
  intros Hb. revert st. induction l as [|a l IH]; intros st; cbn [app.forEach].
  - now intros [= <-].
  - destruct (body st a) as [s1| |] eqn:E; cbn [bind]; try discriminate.
    intros H HP. exact (IH _ H (Hb _ _ _ E HP)).
Qed.

Lemma forEach_Ok_each {S A} (body : S -> A -> outcome S) (l : list A) (st st' : S) (a : A) :
  app.forEach body st l = Ok st' -> In a l -> exists s s', body s a = Ok s'.
Proof.
  revert st. induction l as [|x l IH]; intros st; cbn [app.forEach]; [intros _ []|].
  destruct (body st x) as [s1| |] eqn:E; cbn [bind]; try discriminate.
  intros H [<-|Hin]; [eauto | exact (IH _ H Hin)].
Qed.

Lemma forEach_no_panic {S A} (body : S -> A -> outcome S) (l : list A) (st : S) :
  (forall s a, body s a <> Panic) -> app.forEach body st l <> Panic.
Proof.
  intros Hb. revert st. induction l as [|x l IH]; intros st; cbn [app.forEach]; [discriminate|].
  destruct (body st x) as [s1| |] eqn:E; cbn [bind]; [apply IH | discriminate |].
  now destruct (Hb st x).
Qed.

(** ** Block device mappings *)

Lemma oneOf_In (k : string) (keys : list string) : app.oneOf k keys = true -> In k keys.
Proof.
  unfold app.oneOf. intros (x & Hin & ->%String.eqb_eq)%existsb_exists. exact Hin.
Qed.

Lemma amiSetting_entries (vals vals' : gmap string value) (setting : string) :
  app.amiSetting vals setting = Ok vals' ->
  (forall k v, vals !! k = Some v -> amiEntryOk k v) ->
  forall k v, vals' !! k = Some v -> amiEntryOk k v.
Proof.
  unfold app.amiSetting. destruct (app.parseVar setting) as [k0 v0].
  intros H Hv k v.
  destruct (app.oneOf k0 ["delete_on_termination"; "encrypted"; "no_device"]) eqn:E1.
  { injection H as <-. destruct (String.eqb_spec k0 k) as [<-|Hne].
    - rewrite lookup_insert_eq. intros [= <-]. left. split; [now apply oneOf_In | eauto].
    - rewrite lookup_insert_ne by exact Hne. apply Hv. }
  destruct (app.oneOf k0 ["device_name"; "snapshot_id"; "virtual_name"; "volume_type"]) eqn:E2.
  { injection H as <-. destruct (String.eqb_spec k0 k) as [<-|Hne].
    - rewrite lookup_insert_eq. intros [= <-]. right; left.
      split; [now apply oneOf_In | eauto].
    - rewrite lookup_insert_ne by exact Hne. apply Hv. }
  destruct (app.oneOf k0 ["iops"; "volume_size"]) eqn:E3.
  { destruct (strconv.Atoi v0) as [i|why]; [|discriminate].
    injection H as <-. destruct (String.eqb_spec k0 k) as [<-|Hne].
    - rewrite lookup_insert_eq. intros [= <-]. right; right.
      split; [now apply oneOf_In | eauto].
    - rewrite lookup_insert_ne by exact Hne. apply Hv. }
  injection H as <-. apply Hv.
Qed.

Lemma amiSetting_integer (vals vals' : gmap string value) (setting : string) :
  app.amiSetting vals setting = Ok vals' ->
  app.oneOf (app.settingKey setting) ["iops"; "volume_size"] = true ->
  exists i, strconv.Atoi (app.settingValue setting) = inl i.
Proof.
  unfold app.amiSetting, app.settingKey, app.settingValue.
  destruct (app.parseVar setting) as [k0 v0]. cbn [fst snd]. intros H Hk.
  destruct (app.oneOf k0 ["delete_on_termination"; "encrypted"; "no_device"]) eqn:E1.
  { apply oneOf_In in E1. apply oneOf_In in Hk. exfalso.
    cbn [In] in E1, Hk. destruct Hk as [<-|[<-|[]]];
      repeat (destruct E1 as [E1|E1]; [discriminate|]); exact E1. }
  destruct (app.oneOf k0 ["device_name"; "snapshot_id"; "virtual_name"; "volume_type"]) eqn:E2.
  { apply oneOf_In in E2. apply oneOf_In in Hk. exfalso.
    cbn [In] in E2, Hk. destruct Hk as [<-|[<-|[]]];
      repeat (destruct E2 as [E2|E2]; [discriminate|]); exact E2. }
  rewrite Hk in H. destruct (strconv.Atoi v0) as [i|why]; [eauto | discriminate].
Qed.

Lemma amiSetting_no_panic (vals : gmap string value) (setting : string) :
  app.amiSetting vals setting <> Panic.
Proof.
  unfold app.amiSetting. destruct (app.parseVar setting) as [k0 v0].
  repeat match goal with
         | |- context [if ?c then _ else _] => destruct c
         end; try discriminate.
  destruct (strconv.Atoi v0); discriminate.
Qed.

Lemma amiMappings_no_panic (slices : list (list string)) : app.amiMappings slices <> Panic.
Proof.
  induction slices as [|settings rest IH]; cbn [app.amiMappings]; [discriminate|].
  pose proof (forEach_no_panic app.amiSetting settings ∅ amiSetting_no_panic) as Hf.
  destruct (app.forEach app.amiSetting ∅ settings); cbn [bind]; [|discriminate|contradiction].
  destruct (app.amiMappings rest); cbn [bind]; [discriminate..|contradiction].
Qed.

Lemma amiMappings_Ok (slices : list (list string)) (ret : list (gmap string value)) :
  app.amiMappings slices = Ok ret ->
  Forall2 (fun settings vals => app.forEach app.amiSetting ∅ settings = Ok vals) slices ret.
Proof.
  revert ret. induction slices as [|settings rest IH]; intros ret; cbn [app.amiMappings].
  - intros [= <-]. constructor.
  - destruct (app.forEach app.amiSetting ∅ settings) as [vals| |] eqn:E; cbn [bind];
      try discriminate.
    destruct (app.amiMappings rest) as [ret'| |]; cbn [bind]; try discriminate.
    intros [= <-]. constructor; [exact E | now apply IH].
Qed.

(** X15. [processAMIBlockDeviceMappings] on a slice of slices of settings
    never panics.  When it succeeds it gives one mapping per inner slice,
    and every entry of a mapping has one of the nine supported keys with
    a value of that key's type (a boolean, a string, or an integer for
    [iops] and [volume_size]): other keys are dropped.  When some inner
    slice has an [iops] or [volume_size] entry whose value is not an
    integer, it fails. *)
Theorem processAMIBlockDeviceMappings_mappings (slices : list (list string)) :
  app.processAMIBlockDeviceMappings (VStringss slices) <> Panic
  /\ (forall ret, app.processAMIBlockDeviceMappings (VStringss slices) = Ok ret ->
        length ret = length slices
        /\ Forall (fun vals : gmap string value =>
                     forall k v, vals !! k = Some v -> amiEntryOk k v) ret)
  /\ (forall settings setting why,
        In settings slices -> In setting settings ->
        app.oneOf (app.settingKey setting) ["iops"; "volume_size"] = true ->
        strconv.Atoi (app.settingValue setting) = inr why ->
        exists e, app.processAMIBlockDeviceMappings (VStringss slices) = Fail e).
Proof.
  cbn [app.processAMIBlockDeviceMappings].
  split; [apply amiMappings_no_panic|]. split.
  - intros ret H. apply amiMappings_Ok in H. split.
    + symmetry. exact (Forall2_length _ _ _ H).
    + induction H as [|settings vals slices' ret' Hv _ IH]; constructor; [|exact IH].
      apply (forEach_invariant app.amiSetting
               (fun m : gmap string value => forall k v, m !! k = Some v -> amiEntryOk k v)
               settings ∅ vals); [|exact Hv|].
      * intros s a s' Hs Hp. exact (amiSetting_entries _ _ _ Hs Hp).
      * intros k v. rewrite lookup_empty. discriminate.
  - intros settings setting why Hin1 Hin2 Hk Ha.
    pose proof (amiMappings_no_panic slices) as Hnp.
    destruct (app.amiMappings slices) as [ret|e|] eqn:E; [|eauto|contradiction].
    exfalso. apply amiMappings_Ok in E.
    assert (exists vals, app.forEach app.amiSetting ∅ settings = Ok vals) as [vals Hv].
    { clear -E Hin1. induction E as [|x y l l' Hxy _ IH]; [destruct Hin1|].
      destruct Hin1 as [<-|Hin1]; [eauto | exact (IH Hin1)]. }
    destruct (forEach_Ok_each _ _ _ _ _ Hv Hin2) as (s & s' & Hs).
    destruct (amiSetting_integer _ _ _ Hs Hk) as [i Hi]. congruence.
Qed.

(** ** The builders of a template *)

Section createBuilders_facts.

Variable replaceVariables : app.RawTemplate -> string -> string.
Variable processCommunicator :
  app.RawTemplate -> string -> list string -> gmap string value ->
  error + (string * gmap string value).
Variable commandsFromFile : app.RawTemplate -> string -> string -> error + list string.
Variable ISOInfo : app.RawTemplate -> Builder -> list string -> error + app.RawTemplate.
Variable stat : string -> option bool.
Variable unicode_ToLower : string -> string.
Variable createOther :
  Builder -> app.RawTemplate -> string -> outcome (gmap string value * app.RawTemplate).

Abbreviation createBuilders :=
  (app.createBuilders replaceVariables processCommunicator commandsFromFile ISOInfo stat
                      unicode_ToLower createOther).
Abbreviation createBuilders_loop :=
  (app.createBuilders_loop replaceVariables processCommunicator commandsFromFile ISOInfo stat
                           unicode_ToLower createOther).
Abbreviation createKind :=
  (app.createKind replaceVariables processCommunicator commandsFromFile ISOInfo stat
                  createOther).

Lemma createBuilders_loop_app (l1 l2 : list string) :
  forall r acc,
    createBuilders_loop r acc (l1 ++ l2)
    = let! '(bldrs, r1) := createBuilders_loop r acc l1 in createBuilders_loop r1 bldrs l2.
Proof.
  induction l1 as [|ID l1 IH]; intros r acc; [reflexivity|].
  cbn [List.app app.createBuilders_loop].
  destruct (app.Builders r !! ID) as [b|]; [|reflexivity].
  destruct (createKind _ r ID) as [[[m r1]| |]|]; cbn [bind]; try reflexivity.
  apply IH.
Qed.

Lemma createBuilders_loop_length (ids : list string) :
  forall r acc bldrs r',
    createBuilders_loop r acc ids = Ok (bldrs, r') ->
    length bldrs = (length acc + length ids)%nat.
Proof.
  induction ids as [|ID ids IH]; intros r acc bldrs r'; cbn [app.createBuilders_loop].
  - intros [= <- <-]. cbn. lia.
  - destruct (app.Builders r !! ID) as [b|]; [|discriminate].
    destruct (createKind _ r ID) as [[[m r1]| |]|]; cbn [bind]; try discriminate.
    intros H. rewrite (IH _ _ _ _ H), length_app. cbn. lia.
Qed.

Lemma createBuilders_nonempty (r : app.RawTemplate) (ids : list string) :
  ids <> [] -> createBuilders r ids = createBuilders_loop r [] ids.
Proof.
  intros Hne. unfold app.createBuilders, len.
  destruct ids; [contradiction|]. reflexivity.
Qed.


End createBuilders_facts.

(** X17. [createNull] never panics and wraps every error in a
    [BuilderErr] for the ID and the null builder.  When it succeeds, the
    settings are those the communicator pass made from the [type] setting,
    and the communicator prefix is not empty: a null builder without a
    communicator is an error.  Without a common section the communicator
    pass gets the settings of the builder stored under [null], not those
    of the builder of the ID. *)
Theorem createNull_outcome
    (processCommunicator :
       app.RawTemplate -> string -> list string -> gmap string value ->
       error + (string * gmap string value))
    (r : app.RawTemplate) (ID : string) :
  app.createNull processCommunicator r ID <> Panic
  /\ (forall e, app.createNull processCommunicator r ID = Fail e ->
        exists e', e = BuilderErr ID Null e')
  /\ (forall m, app.createNull processCommunicator r ID = Ok m ->
        exists ws prefix,
          processCommunicator r ID ws {[ "type" := VString "null" ]} = inr (prefix, m)
          /\ prefix <> ""
          /\ is_Some (app.Builders r !! ID)
          /\ (app.Builders r !! "common" = None ->
              ws = match app.Builders r !! "null" with
                   | Some n => app.Settings n
                   | None => []
                   end)).
Proof.
  unfold app.createNull.
  change (Builder_String Null) with "null". change (Builder_String Common) with "common".
  destruct (app.Builders r !! ID) as [b|]; cbv zeta.
  2:{ split; [discriminate|]. split; [intros e [= <-]; eauto | discriminate]. }
  set (ws := match app.Builders r !! "common" with
             | Some c => wrapErr (BuilderErr ID Null)
                           (app.mergeSettingsSlices (app.Settings c) (app.Settings b))
             | None => _
             end).
  assert (exists l, ws = Ok l
                    /\ (app.Builders r !! "common" = None ->
                        l = match app.Builders r !! "null" with
                            | Some n => app.Settings n
                            | None => []
                            end)) as (l & -> & Hl).
  { subst ws. destruct (app.Builders r !! "common").
    - eexists. split; [reflexivity | discriminate].
    - eexists. split; reflexivity. }
  cbn [bind].
  destruct (processCommunicator r ID l _) as [e|[prefix m0]] eqn:Epc;
    cbn [call wrapErr bind].
  { split; [discriminate|]. split; [intros e0 [= <-]; eauto | discriminate]. }
  destruct (String.eqb_spec prefix "") as [->|Hne].
  { split; [discriminate|]. split; [intros e0 [= <-]; eauto | discriminate]. }
  split; [discriminate|]. split; [discriminate|].
  intros m [= <-]. exists l, prefix. eauto.
Qed.

(** ** Required and validated settings *)

Section create_facts.

Variable replaceVariables : app.RawTemplate -> string -> string.
Variable processCommunicator :
  app.RawTemplate -> string -> list string -> gmap string value ->
  error + (string * gmap string value).
Variable commandsFromFile : app.RawTemplate -> string -> string -> error + list string.
Variable ISOInfo : app.RawTemplate -> Builder -> list string -> error + app.RawTemplate.
Variable stat : string -> option bool.

(** One entry of the walk of [createAmazonChroot], seen from one of the
    four required keys. *)
Lemma chrootSetting_required (r : app.RawTemplate) (w w' : app.chrootWalk) (s k0 : string) :
  In k0 ["access_key"; "ami_name"; "secret_key"; "source_ami"] ->
  app.chrootSetting replaceVariables r w s = Ok w' ->
  app.c_settings w' !! k0
  = (if String.eqb (app.settingKey s) k0
     then Some (VString (replaceVariables r (app.settingValue s)))
     else app.c_settings w !! k0)
  /\ app.hasAccessKey w' = app.hasAccessKey w || String.eqb (app.settingKey s) "access_key"
  /\ app.hasAmiName w' = app.hasAmiName w || String.eqb (app.settingKey s) "ami_name"
  /\ app.hasSecretKey w' = app.hasSecretKey w || String.eqb (app.settingKey s) "secret_key"
  /\ app.hasSourceAmi w' = app.hasSourceAmi w || String.eqb (app.settingKey s) "source_ami".
Proof.
  unfold app.settingKey, app.settingValue, app.chrootSetting.
  destruct (app.parseVar s) as [k v]. cbn [fst snd]. cbv zeta. intros Hk0.
  repeat match goal with
         | |- (if String.eqb k ?lit then _ else _) = _ -> _ =>
             destruct (String.eqb_spec k lit) as [->|?]
         | |- (if app.oneOf k ?keys then _ else _) = _ -> _ =>
             let E := fresh "E" in
             destruct (app.oneOf k keys) eqn:E;
             [ pose proof (oneOf_other k "access_key" keys E eq_refl);
               pose proof (oneOf_other k "ami_name" keys E eq_refl);
               pose proof (oneOf_other k "secret_key" keys E eq_refl);
               pose proof (oneOf_other k "source_ami" keys E eq_refl) |]
         end;
    intros Hres; try discriminate Hres; injection Hres as <-;
    cbn [app.c_settings app.hasAccessKey app.hasAmiName app.hasSecretKey app.hasSourceAmi];
    cbn [In] in Hk0;
    repeat match goal with
           | H : k <> ?lit |- _ => apply String.eqb_neq in H
           end;
    destruct Hk0 as [<-|[<-|[<-|[<-|[]]]]];
    repeat match goal with
           | H : String.eqb k _ = false |- _ => rewrite H
           end;
    repeat match goal with
           | |- context [String.eqb ?a ?b] =>
               let c := eval vm_compute in (String.eqb a b) in
               match c with
               | true => change (String.eqb a b) with true
               | false => change (String.eqb a b) with false
               end
           end;
    rewrite ?orb_false_r, ?orb_true_r;
    repeat split;
    try reflexivity;
    try apply lookup_insert_eq;
    try (apply lookup_insert_ne; apply String.eqb_neq; assumption);
    try (apply lookup_insert_ne; discriminate).
Qed.

Lemma forEach_chrootSetting_required (r : app.RawTemplate) (ws : list string) (k0 : string) :
  In k0 ["access_key"; "ami_name"; "secret_key"; "source_ami"] ->
  forall w w',
    app.forEach (app.chrootSetting replaceVariables r) w ws = Ok w' ->
    app.c_settings w' !! k0
    = match app.lastEntry k0 ws with
      | Some e => Some (VString (replaceVariables r (app.settingValue e)))
      | None => app.c_settings w !! k0
      end
    /\ app.hasAccessKey w' = app.hasAccessKey w || app.hasKey "access_key" ws
    /\ app.hasAmiName w' = app.hasAmiName w || app.hasKey "ami_name" ws
    /\ app.hasSecretKey w' = app.hasSecretKey w || app.hasKey "secret_key" ws
    /\ app.hasSourceAmi w' = app.hasSourceAmi w || app.hasKey "source_ami" ws.
Proof.
  intros Hk0. induction ws as [|x ws IH]; intros w w'; cbn [app.forEach].
  - intros [= <-]. cbn. now rewrite !orb_false_r.
  - destruct (app.chrootSetting replaceVariables r w x) as [w1| |] eqn:E; cbn [bind];
      try discriminate.
    intros H. apply (chrootSetting_required r w w1 x k0 Hk0) in E as (E0 & E1 & E2 & E3 & E4).
    apply IH in H as (H0 & H1 & H2 & H3 & H4).
    rewrite lastEntry_cons, !hasKey_cons, H0, H1, H2, H3, H4, E0, E1, E2, E3, E4, !orb_assoc.
    repeat split. destruct (app.lastEntry k0 ws); [reflexivity|].
    destruct (String.eqb (app.settingKey x) k0); reflexivity.
Qed.

Lemma forEach_chrootArray_other (arrays : list (string * value)) (k : string) :
  app.oneOf k app.chrootArrayNames = false ->
  forall m m', app.forEach app.chrootArray m arrays = Ok m' -> m' !! k = m !! k.
Proof.
  intros Hk. induction arrays as [|[name val] arrays IH]; intros m m'; cbn [app.forEach].
  - now intros [= <-].
  - unfold app.chrootArray at 1.
    destruct (app.oneOf name app.chrootArrayNames) eqn:En.
    + destruct (app.copyArray name val m) as [m1| |] eqn:Ec; cbn [bind]; try discriminate.
      intros H. rewrite (IH _ _ H).
      destruct (copyArray_inv _ _ _ _ Ec) as [->| ->]; [reflexivity|].
      apply lookup_insert_ne. apply String.eqb_neq. exact (oneOf_other _ _ _ En Hk).
    + cbn [bind]. apply IH.
Qed.

(** X18. When [createAmazonChroot] succeeds, each of the four required
    settings [access_key], [ami_name], [secret_key] and [source_ami] is in
    the merged settings of the builder, and the result holds for it the
    value of its last entry after variable replacement, as a string: the
    communicator pass and the arrays do not change it. *)
Theorem createAmazonChroot_required_settings (r : app.RawTemplate) (ID : string)
    (m : gmap string value) :
  app.createAmazonChroot replaceVariables processCommunicator r ID = Ok m ->
  exists b ws,
    app.Builders r !! ID = Some b
    /\ app.workSettings r b = Ok ws
    /\ forall k, In k ["access_key"; "ami_name"; "secret_key"; "source_ami"] ->
         exists e, app.lastEntry k ws = Some e
                   /\ m !! k = Some (VString (replaceVariables r (app.settingValue e))).
Proof.
  unfold app.createAmazonChroot.
  destruct (app.Builders r !! ID) as [b|]; [|discriminate]. cbv zeta.
  destruct (app.workSettings r b) as [ws| |] eqn:Ews; cbn [bind]; try discriminate.
  destruct (processCommunicator r ID ws _) as [e|[prefix m0]]; cbn [call wrapErr bind];
    [discriminate|].
  destruct (app.forEach _ _ ws) as [w| |] eqn:Ew; cbn [bind]; try discriminate.
  destruct (app.hasAccessKey w) eqn:F1; cbn [negb]; [|discriminate].
  destruct (app.hasAmiName w) eqn:F2; cbn [negb]; [|discriminate].
  destruct (app.hasSecretKey w) eqn:F3; cbn [negb]; [|discriminate].
  destruct (app.hasSourceAmi w) eqn:F4; cbn [negb]; [|discriminate].
  intros Ha. exists b, ws. split; [reflexivity|]. split; [exact Ews|].
  intros k Hk.
  destruct (forEach_chrootSetting_required r ws k Hk _ _ Ew) as (H0 & H1 & H2 & H3 & H4).
  cbn [app.c_settings app.hasAccessKey app.hasAmiName app.hasSecretKey app.hasSourceAmi orb]
    in H0, H1, H2, H3, H4.
  assert (app.hasKey k ws = true) as Hhas.
  { cbn [In] in Hk. destruct Hk as [<-|[<-|[<-|[<-|[]]]]]; congruence. }
  destruct (app.lastEntry k ws) as [e|] eqn:El.
  2:{ apply lastEntry_None in El. congruence. }
  exists e. split; [reflexivity|].
  assert (app.oneOf k app.chrootArrayNames = false) as Hno.
  { cbn [In] in Hk. destruct Hk as [<-|[<-|[<-|[<-|[]]]]]; reflexivity. }
  rewrite (forEach_chrootArray_other _ k Hno _ _ Ha). exact H0.
Qed.

(** One entry of the walk of [createVirtualBoxISO]: the credentials flags,
    and the integer settings. *)
Lemma vbisoSetting_credentials (r : app.RawTemplate) (ID prefix : string) (hc : bool)
    (w w' : app.walk) (s : string) :
  app.vbisoSetting replaceVariables commandsFromFile r ID prefix hc w s = Ok w' ->
  app.hasUsername w'
  = app.hasUsername w || (negb hc && String.eqb (app.settingKey s) "ssh_username")
  /\ app.hasPassword w'
     = app.hasPassword w || (negb hc && String.eqb (app.settingKey s) "ssh_password").
Proof.
  unfold app.settingKey, app.vbisoSetting.
  destruct (app.parseVar s) as [k v]. cbn [fst]. cbv zeta.
  repeat match goal with
         | |- (if String.eqb k ?lit then _ else _) = _ -> _ =>
             destruct (String.eqb_spec k lit) as [->|?]
         | |- (if app.oneOf k ?keys then _ else _) = _ -> _ =>
             let E := fresh "E" in
             destruct (app.oneOf k keys) eqn:E;
             [ pose proof (oneOf_other k "ssh_username" keys E eq_refl);
               pose proof (oneOf_other k "ssh_password" keys E eq_refl) |]
         | |- (if ?c then _ else _) = _ -> _ => destruct c
         | |- match strconv.Atoi ?v with _ => _ end = _ -> _ => destruct (strconv.Atoi v)
         | |- bind (wrapErr _ (call ?m)) _ = _ -> _ => destruct m; cbn [call wrapErr bind]
         end;
    intros Hres; try discriminate Hres; injection Hres as <-;
    repeat match goal with
           | |- context [if ?c then _ else _] => destruct c
           end;
    cbn [app.hasUsername app.hasPassword app.put
         app.set_hasChecksum app.set_hasChecksumType app.set_hasISOURL
         app.set_hasUsername app.set_hasPassword app.set_bootCmdFile
         app.set_guestOSType negb andb];
    repeat match goal with
           | H : String.eqb k _ = false |- _ => rewrite H; clear H
           | H : k <> ?lit |- _ => apply String.eqb_neq in H
           end;
    repeat match goal with
           | |- context [String.eqb ?a ?b] =>
               let c := eval vm_compute in (String.eqb a b) in
               match c with
               | true => change (String.eqb a b) with true
               | false => change (String.eqb a b) with false
               end
           end;
    rewrite ?andb_false_r, ?orb_false_r, ?orb_true_r; auto.
Qed.

Lemma forEach_vbisoSetting_credentials (r : app.RawTemplate) (ID prefix : string) (hc : bool)
    (ws : list string) :
  forall w w',
    app.forEach (app.vbisoSetting replaceVariables commandsFromFile r ID prefix hc) w ws
    = Ok w' ->
    app.hasUsername w' = app.hasUsername w || (negb hc && app.hasKey "ssh_username" ws)
    /\ app.hasPassword w' = app.hasPassword w || (negb hc && app.hasKey "ssh_password" ws).
Proof.
  induction ws as [|x ws IH]; intros w w'; cbn [app.forEach].
  - intros [= <-]. cbn. now rewrite !andb_false_r, !orb_false_r.
  - destruct (app.vbisoSetting _ _ _ _ _ _ w x) as [w1| |] eqn:E; cbn [bind];
      try discriminate.
    intros H. apply vbisoSetting_credentials in E as (E1 & E2).
    apply IH in H as (H1 & H2).
    rewrite !hasKey_cons, H1, H2, E1, E2.
    destruct hc, (app.hasUsername w), (app.hasPassword w),
      (String.eqb (app.settingKey x) "ssh_username"),
      (String.eqb (app.settingKey x) "ssh_password"),
      (app.hasKey "ssh_username" ws), (app.hasKey "ssh_password" ws); auto.
Qed.

Lemma vbisoSetting_integer (r : app.RawTemplate) (ID prefix : string) (hc : bool)
    (w w' : app.walk) (s : string) :
  app.vbisoSetting replaceVariables commandsFromFile r ID prefix hc w s = Ok w' ->
  app.oneOf (app.settingKey s) ["disk_size"; "http_port_min"; "http_port_max"] = true ->
  exists i, strconv.Atoi (replaceVariables r (app.settingValue s)) = inl i.
Proof.
  unfold app.settingKey, app.settingValue, app.vbisoSetting.
  destruct (app.parseVar s) as [k v]. cbn [fst snd]. cbv zeta. intros H Hk.
  pose proof (oneOf_In _ _ Hk) as Hin. cbn [In] in Hin.
  assert (String.eqb k "boot_command" = false) as E1.
  { destruct Hin as [<-|[<-|[<-|[]]]]; reflexivity. }
  assert (app.oneOf k app.vbisoStringKeys = false) as E2.
  { destruct Hin as [<-|[<-|[<-|[]]]]; reflexivity. }
  rewrite E1, E2, Hk in H.
  destruct (strconv.Atoi (replaceVariables r v)) as [i|why]; [eauto | discriminate].
Qed.

(** X19. When [createVirtualBoxISO] succeeds, every [disk_size],
    [http_port_min] and [http_port_max] entry of the merged settings is an
    integer after variable replacement; and the credentials are there:
    without a communicator the merged settings have [ssh_username] and
    [ssh_password], with one the communicator pass has set
    [<prefix>_username] and [<prefix>_password]. *)
Theorem createVirtualBoxISO_validated (r : app.RawTemplate) (ID : string)
    (m : gmap string value) :
  app.createVirtualBoxISO replaceVariables processCommunicator commandsFromFile
                          ISOInfo stat r ID = Ok m ->
  exists b ws prefix settings,
    app.Builders r !! ID = Some b
    /\ app.workSettings r b = Ok ws
    /\ processCommunicator r ID ws {[ "type" := VString "virtualbox-iso" ]}
       = inr (prefix, settings)
    /\ (forall e, In e ws ->
          app.oneOf (app.settingKey e) ["disk_size"; "http_port_min"; "http_port_max"] = true ->
          exists i, strconv.Atoi (replaceVariables r (app.settingValue e)) = inl i)
    /\ (prefix = "" ->
        app.hasKey "ssh_username" ws = true /\ app.hasKey "ssh_password" ws = true)
    /\ (prefix <> "" ->
        is_Some (settings !! (prefix +:+ "_username"))
        /\ is_Some (settings !! (prefix +:+ "_password"))).
Proof.
  unfold app.createVirtualBoxISO.
  destruct (app.vbisoPrepare _ _ _ _ _ r ID) as [p| |] eqn:Ep; cbn [bind]; try discriminate.
  intros _. revert Ep. unfold app.vbisoPrepare.
  destruct (app.Builders r !! ID) as [b|]; [|discriminate]. cbv zeta.
  destruct (app.workSettings r b) as [ws| |] eqn:Ews; cbn [wrapErr bind]; try discriminate.
  change (Builder_String VirtualBoxISO) with "virtualbox-iso".
  destruct (processCommunicator r ID ws _) as [e|[prefix settings]] eqn:Epc;
    cbn [call wrapErr bind]; [discriminate|].
  destruct (app.forEach _ _ ws) as [w| |] eqn:Ew; cbn [bind]; try discriminate.
  destruct (app.hasUsername w) eqn:Fu; cbn [negb]; [|discriminate].
  destruct (app.hasPassword w) eqn:Fp; cbn [negb]; [|discriminate].
  intros _. exists b, ws, prefix, settings.
  split; [reflexivity|]. split; [exact Ews|]. split; [exact Epc|].
  destruct (forEach_vbisoSetting_credentials _ _ _ _ _ _ _ Ew) as [Hu Hp].
  cbn [app.hasUsername app.hasPassword] in Hu, Hp. rewrite Fu in Hu. rewrite Fp in Hp.
  split; [|split].
  - intros e Hin Hk.
    destruct (forEach_Ok_each _ _ _ _ _ Ew Hin) as (s1 & s2 & Hs).
    exact (vbisoSetting_integer _ _ _ _ _ _ _ Hs Hk).
  - intros ->. cbn [String.eqb negb andb orb] in Hu, Hp. auto.
  - intros Hne. apply String.eqb_neq in Hne. rewrite Hne in Hu, Hp.
    cbn [negb andb orb] in Hu, Hp. rewrite orb_false_r in Hu, Hp.
    symmetry in Hu, Hp. apply bool_decide_eq_true in Hu, Hp. auto.
Qed.

(** X20. [setHTTP] with an [http_directory] setting: a nil value panics
    (the error message asks for the kind of a nil type), any other value
    that is not a string is an error, and an empty string is an error of
    the resolver.  For a string that the resolver finds, the source is
    entered in [Dirs] under the output path of the value, the setting
    becomes the value's path relative to the output tree, and no other
    setting changes. *)
Theorem setHTTP_given_directory (r : app.RawTemplate) (component : string)
    (m : gmap string value) (v : value) :
  m !! "http_directory" = Some v ->
  (v = VNil -> app.setHTTP stat r component m = Panic)
  /\ (v <> VNil -> (forall val, v <> VString val) ->
      app.setHTTP stat r component m = Fail (Errorf "http_directory: expected string" None))
  /\ (v = VString "" ->
      app.setHTTP stat r component m = Fail (Errorf "setHTTP error" (Some ErrEmptyPath)))
  /\ (forall val src,
        v = VString val ->
        app.findSource stat r val component true = Ok src ->
        exists r' m',
          app.setHTTP stat r component m = Ok (r', m')
          /\ app.Dirs r' = <[app.buildOutPath r "" val := src]> (app.Dirs r)
          /\ m' !! "http_directory"
             = Some (VString (app.buildTemplateResourcePath r "" val false))
          /\ forall k, k <> "http_directory" -> m' !! k = m !! k).
Proof.
  intros Hm. unfold app.setHTTP. rewrite Hm.
  change (default (VString "http") (Some v)) with v.
  split; [|split; [|split]].
  - intros ->. reflexivity.
  - intros Hn Hs. destruct v; try reflexivity; [contradiction | now destruct (Hs s)].
  - intros ->. reflexivity.
  - intros val src -> Hsrc. cbv beta iota zeta. rewrite Hsrc. cbn [wrapErr bind].
    pose proof (findSource_nonempty _ _ _ _ _ _ Hsrc) as Hne.
    destruct (String.eqb_spec src ""); [contradiction|]. cbn [negb].
    do 2 eexists. split; [reflexivity|]. repeat split.
    + apply lookup_insert_eq.
    + intros k Hk. now apply lookup_insert_ne.
Qed.

End create_facts.

(** ** Ubuntu point releases *)

Ltac norm_append :=
  repeat first [rewrite append_assoc | rewrite append_cons | rewrite append_nil_l].

Lemma hasByte_append (c : ascii) (a b : string) :
  hasByte c (a +:+ b) = hasByte c a || hasByte c b.
Proof.
  induction a as [|x a IH]; [now rewrite append_nil_l|].
  rewrite append_cons. cbn [hasByte]. now rewrite IH, orb_assoc.
Qed.

(** X21. The second search of [ubuntu.findChecksum].  When the ISO's name
    is not on the page (or only at its very start), the text before the
    first [.iso] is split on [-] and its second part becomes the full
    release; the name is made again from it, and the checksum is read
    before that name.  So on a page whose first line is a 64 byte
    checksum, a 2 byte separator and the name of a point release, the
    release comes back with that full release, that name and that
    checksum. *)
Theorem ubuntu_findChecksum_point_release
    (u : ranchr.ubuntu) (checksum sep full rest : string) :
  let name := "ubuntu-" +:+ full +:+ "-" +:+ ranchr.Image u +:+ "-" +:+ ranchr.Arch u
                +:+ ".iso" in
  let page := checksum +:+ sep +:+ name +:+ rest in
  String.length checksum = 64%nat ->
  String.length sep = 2%nat ->
  hasByte "-"%char checksum = false ->
  hasByte "-"%char sep = false ->
  hasByte "-"%char full = false ->
  full <> "" ->
  (strings.Index page (ranchr.Name u) <= 0)%Z ->
  strings.Index page ".iso"
  = strlen (checksum +:+ sep +:+ "ubuntu-" +:+ full +:+ "-" +:+ ranchr.Image u +:+ "-"
              +:+ ranchr.Arch u) ->
  strings.Index page name = 66%Z ->
  ranchr.ubuntu_findChecksum u page
  = Ok (ranchr.set_Checksum checksum (ranchr.set_Name name (ranchr.set_ReleaseFull full u)),
        checksum).
Proof.
  intros name page Hc Hs Hdc Hds Hdf Hfull Hfirst Hiso Hname.
  set (P := checksum +:+ sep +:+ "ubuntu-" +:+ full +:+ "-" +:+ ranchr.Image u +:+ "-"
              +:+ ranchr.Arch u) in *.
  assert (page = P +:+ ".iso" +:+ rest) as EP.
  { subst page P name. norm_append. reflexivity. }
  assert (P = (checksum +:+ sep +:+ "ubuntu")
                +:+ String "-"%char (full +:+ String "-"%char
                      (ranchr.Image u +:+ String "-"%char (ranchr.Arch u)))) as EP2.
  { subst P. norm_append. reflexivity. }
  unfold ranchr.ubuntu_findChecksum.
  assert (String.eqb page "" = false) as ->.
  { apply String.eqb_neq. subst page. destruct checksum; discriminate. }
  destruct (Z.leb_spec (strings.Index page (ranchr.Name u)) 0) as [_|]; [|lia].
  rewrite Hiso.
  pose proof (strlen_nonneg P).
  destruct (Z.ltb_spec (strlen P) 0); [lia|].
  assert (slice page 0 (strlen P) = Ok P) as ->.
  { rewrite EP. apply slice_prefix. }
  cbn [bind].
  assert (exists l, strings.Split P "-"%char = (checksum +:+ sep +:+ "ubuntu") :: full :: l
                    /\ l <> []) as (l & -> & Hl).
  { rewrite EP2. rewrite Split_at_first.
    2:{ rewrite !hasByte_append, Hdc, Hds. reflexivity. }
    rewrite (Split_at_first _ _ _ Hdf). eexists. split; [reflexivity|].
    apply Split_nonempty. }
  unfold len. cbn [length].
  destruct (Z.ltb_spec (Z.of_nat (S (S (length l)))) 3).
  { destruct l; [contradiction | cbn [length] in *; lia]. }
  assert (index ((checksum +:+ sep +:+ "ubuntu") :: full :: l) 1 = Ok full) as ->
    by reflexivity.
  cbn [bind].
  assert (ranchr.ubuntu_setISOName (ranchr.set_ReleaseFull full u)
          = ranchr.set_Name name (ranchr.set_ReleaseFull full u)) as ->.
  { unfold ranchr.ubuntu_setISOName. destruct u.
    cbn [ranchr.set_ReleaseFull ranchr.ReleaseFull].
    apply String.eqb_neq in Hfull. rewrite Hfull. reflexivity. }
  change (ranchr.Name (ranchr.set_Name name _)) with name.
  rewrite Hname. cbn [Z.ltb Z.compare bind].
  pose proof (strlen_nonneg page).
  destruct (Z.ltb_spec (strlen page) (66 - 2)) as [Hlt|_].
  { subst page. rewrite !strlen_append in Hlt. unfold strlen in Hlt.
    rewrite Hc, Hs in Hlt. lia. }
  change (66 - 66 <? 1)%Z with true. cbv iota.
  replace (66 - 2)%Z with (strlen checksum) by (unfold strlen; lia).
  subst page. rewrite slice_prefix. reflexivity.
Qed.

(** ** Debian and Ubuntu ISO information *)

(** X22. [debian.SetISOInfo] with the full release already set makes no
    request for the version.  The name is
    [debian-<full>-<arch>-<image>.iso], the base URL defaults to the
    Debian CD image site, the ISO URL is the name under
    [<base>/<full>/<arch>/iso-cd/], and the checksum is read from the page
    [<base>/<full>/amd64/iso-cd/<TYPE>SUMS]: the checksum page is that of
    amd64 whatever the arch of the release is. *)
Theorem debian_SetISOInfo_with_full_release
    (fetch : string -> error + string) (appendSlash : string -> string)
    (d : ranchr.debian) (page checksum : string) :
  ranchr.Arch d <> "" ->
  ranchr.Release d <> "" ->
  ranchr.ReleaseFull d <> "" ->
  let name := "debian-" +:+ ranchr.ReleaseFull d +:+ "-" +:+ ranchr.Arch d +:+ "-"
                +:+ ranchr.Image d +:+ ".iso" in
  let base := if String.eqb (ranchr.BaseURL d) ""
              then "http://cdimage.debian.org/debian-cd/" else ranchr.BaseURL d in
  fetch (appendSlash base +:+ appendSlash (ranchr.ReleaseFull d) +:+ "amd64/iso-cd/"
           +:+ strings.ToUpper (ranchr.ChecksumType d) +:+ "SUMS") = inr page ->
  ranchr.debian_findISOChecksum (ranchr.set_Name name d) page = Ok checksum ->
  ranchr.debian_SetISOInfo fetch appendSlash d
  = Ok (ranchr.mkRelease base checksum (ranchr.ChecksumType d) name
          (appendSlash base +:+ appendSlash (ranchr.ReleaseFull d)
             +:+ appendSlash (ranchr.Arch d) +:+ appendSlash "iso-cd" +:+ name)
          (ranchr.Arch d) (ranchr.Distro d) (ranchr.Image d)
          (ranchr.Release d) (ranchr.ReleaseFull d)).
Proof.
  intros Ha Hr Hf name base Hpage Hsum.
  unfold ranchr.debian_SetISOInfo.
  apply String.eqb_neq in Ha, Hr. rewrite Ha, Hr.
  unfold ranchr.debian_getReleaseVersion.
  pose proof Hf as Hf'. apply String.eqb_neq in Hf'. rewrite Hf'. cbn [negb bind].
  unfold ranchr.debian_setISOChecksum, ranchr.debian_setISOName, ranchr.debian_setISOURL.
  rewrite Hf'. unfold ranchr.debian_findISOChecksum in *.
  destruct d as [bu cs ct nm iu ar di im re rf].
  cbn [ranchr.set_Name ranchr.set_isoURL ranchr.set_BaseURL ranchr.set_Checksum
       ranchr.set_ReleaseFull ranchr.BaseURL ranchr.Checksum ranchr.ChecksumType
       ranchr.Name ranchr.isoURL ranchr.Arch ranchr.Distro ranchr.Image ranchr.Release
       ranchr.ReleaseFull] in *.
  subst base. destruct (String.eqb bu "");
    cbn [ranchr.set_Name ranchr.set_isoURL ranchr.set_BaseURL ranchr.set_Checksum
         ranchr.set_ReleaseFull ranchr.BaseURL ranchr.Checksum ranchr.ChecksumType
         ranchr.Name ranchr.isoURL ranchr.Arch ranchr.Distro ranchr.Image ranchr.Release
         ranchr.ReleaseFull];
    rewrite Hpage; cbn [call bind]; fold name; rewrite Hsum; reflexivity.
Qed.

(** X23. [ubuntu.SetISOInfo] makes the name from the release, reads the
    checksum from the page [<base>/<release>/<TYPE>SUMS], and only then
    makes the ISO URL: the URL ends in the name that the checksum search
    settled on, which is that of a point release after a second search,
    under the directory of the release as configured. *)
Theorem ubuntu_SetISOInfo_url_after_checksum
    (fetch : string -> error + string) (appendSlash : string -> string)
    (u u1 : ranchr.ubuntu) (page checksum : string) :
  fetch (appendSlash (ranchr.BaseURL u) +:+ appendSlash (ranchr.Release u)
           +:+ strings.ToUpper (ranchr.ChecksumType u) +:+ "SUMS") = inr page ->
  ranchr.ubuntu_findChecksum (ranchr.ubuntu_setISOName u) page = Ok (u1, checksum) ->
  exists u',
    ranchr.ubuntu_SetISOInfo fetch appendSlash u = Ok u'
    /\ ranchr.isoURL u'
       = appendSlash (ranchr.BaseURL u) +:+ appendSlash (ranchr.Release u) +:+ ranchr.Name u'
    /\ ranchr.Name u' = ranchr.Name u1
    /\ ranchr.ReleaseFull u' = ranchr.ReleaseFull u1
    /\ ranchr.Checksum u' = checksum
    /\ ranchr.Release u' = ranchr.Release u.
Proof.
  intros Hpage Hsum.
  assert (ranchr.BaseURL u1 = ranchr.BaseURL u /\ ranchr.Release u1 = ranchr.Release u)
    as [Hb Hr].
  { revert Hsum. unfold ranchr.ubuntu_findChecksum.
    destruct (String.eqb page ""); [discriminate|].
    set (u0 := ranchr.ubuntu_setISOName u).
    assert (ranchr.BaseURL u0 = ranchr.BaseURL u /\ ranchr.Release u0 = ranchr.Release u)
      as H0.
    { subst u0. unfold ranchr.ubuntu_setISOName.
      destruct (String.eqb (ranchr.ReleaseFull u) ""); destruct u; auto. }
    clearbody u0.
    match goal with
    | |- bind ?m _ = _ -> _ => destruct m as [[u2 pos]| |] eqn:E; cbn [bind]; try discriminate
    end.
    assert (ranchr.BaseURL u2 = ranchr.BaseURL u0 /\ ranchr.Release u2 = ranchr.Release u0)
      as H2.
    { revert E. destruct (strings.Index page (ranchr.Name u0) <=? 0)%Z.
      - destruct (strings.Index page ".iso" <? 0)%Z; [discriminate|].
        destruct (slice page 0 _) as [t| |]; cbn [bind]; try discriminate.
        destruct (len _ <? 3)%Z; [discriminate|].
        destruct (index _ 1) as [f| |]; cbn [bind]; try discriminate.
        destruct (_ <? 0)%Z; [discriminate|]. intros [= <- _].
        unfold ranchr.ubuntu_setISOName.
        destruct (String.eqb _ ""); destruct u0; auto.
      - intros [= <- _]. auto. }
    destruct (strlen page <? pos - 2)%Z; [discriminate|].
    destruct (if (pos - 66 <? 1)%Z then _ else _) as [c| |]; cbn [bind]; try discriminate.
    intros [= <- _]. destruct H0 as [<- <-], H2 as [<- <-]. destruct u2; auto. }
  unfold ranchr.ubuntu_SetISOInfo, ranchr.ubuntu_setISOChecksum.
  assert (ranchr.BaseURL (ranchr.ubuntu_setISOName u) = ranchr.BaseURL u
          /\ ranchr.Release (ranchr.ubuntu_setISOName u) = ranchr.Release u
          /\ ranchr.ChecksumType (ranchr.ubuntu_setISOName u) = ranchr.ChecksumType u)
    as (-> & -> & ->).
  { unfold ranchr.ubuntu_setISOName.
    destruct (String.eqb (ranchr.ReleaseFull u) ""); destruct u; auto. }
  rewrite Hpage. cbn [call bind]. rewrite Hsum. cbn [bind].
  eexists. split; [reflexivity|].
  unfold ranchr.ubuntu_setISOURL. destruct u1.
  cbn [ranchr.set_Name ranchr.set_isoURL ranchr.set_BaseURL ranchr.set_Checksum
       ranchr.BaseURL ranchr.Checksum ranchr.Name ranchr.isoURL ranchr.Release
       ranchr.ReleaseFull] in *.
  subst. auto.
Qed.

(** ** More on the checksum of Ubuntu *)

Lemma append_prefix_split (x y x' y' : string) :
  x +:+ y = x' +:+ y' -> (String.length x <= String.length x')%nat ->
  exists d, x' = x +:+ d /\ y = d +:+ y'.
Proof.
  revert x'. induction x as [|c x IH]; intros x' E Hl.
  - exists x'. rewrite !append_nil_l in *. auto.
  - destruct x' as [|c' x']; [cbn in Hl; lia|].
    rewrite !append_cons in E. injection E as -> E.
    destruct (IH x' E ltac:(cbn in Hl; lia)) as (d & -> & ->).
    exists d. rewrite append_cons. auto.
Qed.

(** X24. Whenever [ubuntu.findChecksum] succeeds, the checksum it returns
    and stores is the text of the page that ends two bytes before the
    first occurrence of the name the search settled on: the 64 bytes
    before those two when there are more than 64, and everything from the
    start of the page otherwise.  It is never longer than 64 bytes. *)
Theorem ubuntu_findChecksum_shape
    (u u' : ranchr.ubuntu) (page checksum : string) :
  ranchr.ubuntu_findChecksum u page = Ok (u', checksum) ->
  ranchr.Checksum u' = checksum
  /\ (String.length checksum <= 64)%nat
  /\ exists a sep b,
       page = a +:+ checksum +:+ sep +:+ ranchr.Name u' +:+ b
       /\ String.length sep = 2%nat
       /\ strlen (a +:+ checksum +:+ sep) = strings.Index page (ranchr.Name u')
       /\ (a <> "" -> String.length checksum = 64%nat).
Proof.
  unfold ranchr.ubuntu_findChecksum.
  destruct (String.eqb page ""); [discriminate|].
  match goal with
  | |- bind ?m _ = _ -> _ => destruct m as [[u2 pos]| |] eqn:E; cbn [bind]; try discriminate
  end.
  assert (pos = strings.Index page (ranchr.Name u2) /\ (0 <= pos)%Z) as [Hpos Hge].
  { revert E. destruct (Z.leb_spec (strings.Index page (ranchr.Name u)) 0).
    - destruct (strings.Index page ".iso" <? 0)%Z; [discriminate|].
      destruct (slice page 0 _) as [t| |]; cbn [bind]; try discriminate.
      destruct (len _ <? 3)%Z; [discriminate|].
      destruct (index _ 1) as [f| |]; cbn [bind]; try discriminate.
      match goal with
      | |- (if (?p <? 0)%Z then _ else _) = _ -> _ => destruct (Z.ltb_spec p 0)
      end; [discriminate|].
      intros [= <- <-]. auto.
    - intros [= <- <-]. split; [reflexivity | lia]. }
  destruct (strlen page <? pos - 2)%Z; [discriminate|].
  destruct (Index_found page (ranchr.Name u2) pos (eq_sym Hpos) Hge) as (a' & b & Ep & Ha').
  destruct (Z.ltb_spec (pos - 66) 1) as [Hlt|Hlt].
  - destruct (slice page 0 (pos - 2)) as [cs| |] eqn:Es; cbn [bind]; try discriminate.
    intros [= <- <-].
    destruct (slice_Ok _ _ _ _ Es) as (a & rest & Ea & Hla & Hlc).
    apply strlen_0 in Hla. subst a. rewrite append_nil_l in Ea.
    destruct (append_prefix_split cs rest a' (ranchr.Name u2 +:+ b)) as (d & -> & ->).
    { now rewrite <- Ea. }
    { unfold strlen in *. lia. }
    split; [now destruct u2|]. split; [unfold strlen in *; lia|].
    exists "", d, b. rewrite append_nil_l.
    change (ranchr.Name (ranchr.set_Checksum cs u2)) with (ranchr.Name u2).
    split; [rewrite Ep; now rewrite !append_assoc|].
    rewrite strlen_append in Ha'. split; [unfold strlen in *; lia|].
    split; [rewrite ?append_nil_l, strlen_append; lia | congruence].
  - destruct (slice page (pos - 66) (pos - 2)) as [cs| |] eqn:Es; cbn [bind];
      try discriminate.
    intros [= <- <-].
    destruct (slice_Ok _ _ _ _ Es) as (a & rest & Ea & Hla & Hlc).
    destruct (append_prefix_split (a +:+ cs) rest a' (ranchr.Name u2 +:+ b)) as (d & -> & ->).
    { rewrite append_assoc, <- Ea. exact Ep. }
    { rewrite length_append. unfold strlen in *. lia. }
    split; [now destruct u2|]. split; [unfold strlen in *; lia|].
    exists a, d, b.
    change (ranchr.Name (ranchr.set_Checksum cs u2)) with (ranchr.Name u2).
    split; [rewrite Ep; now rewrite !append_assoc|].
    rewrite !strlen_append in Ha'. split; [unfold strlen in *; lia|].
    split; [rewrite !strlen_append; lia | intros _; unfold strlen in *; lia].
Qed.

(** ** The mirror list of CentOS *)

(** X25. [centOS.setReleaseNumber] panics when the first line of the
    mirror list has fewer than four parts between slashes, as the empty
    page has: the index [len(urlParts)-4] is negative.  So does
    [centOS.setReleaseInfo] for a release without a dot. *)
Theorem setReleaseNumber_short_first_line
    (fetch : string -> error + string) (c : ranchr.centOS)
    (page line0 : string) (rest : list string) :
  fetch (ranchr.mirrorlistURL c) = inr page ->
  strings.Split page ranchr.newline = line0 :: rest ->
  (length (strings.Split line0 "/"%char) < 4)%nat ->
  ranchr.setReleaseNumber fetch c = Panic
  /\ (hasByte "."%char (ranchr.Release c) = false -> ranchr.setReleaseInfo fetch c = Panic).
Proof.
  intros Hf Hs Hl.
  assert (ranchr.setReleaseNumber fetch c = Panic) as Hp.
  { unfold ranchr.setReleaseNumber. rewrite Hf. cbn [call bind]. rewrite Hs, index_0.
    cbn [bind]. unfold index, len.
    destruct (Z.ltb_spec (Z.of_nat (length (strings.Split line0 "/"%char)) - 4) 0); [|lia].
    reflexivity. }
  split; [exact Hp|].
  intros Hdot. unfold ranchr.setReleaseInfo. rewrite (Split_no_sep _ _ Hdot). exact Hp.
Qed.

(** ** The arrays of an amazon-chroot builder *)

Lemma forEach_app {S A} (body : S -> A -> outcome S) (l1 l2 : list A) (st : S) :
  app.forEach body st (l1 ++ l2)
  = bind (app.forEach body st l1) (fun s => app.forEach body s l2).
Proof.
  revert st. induction l1 as [|a l1 IH]; intros st; [reflexivity|].
  cbn [List.app app.forEach]. destruct (body st a); cbn [bind]; [apply IH | reflexivity..].
Qed.

Lemma forEach_chrootArray_absent (arrays : list (string * value)) (name : string) :
  name ∉ arrays.*1 ->
  forall m m', app.forEach app.chrootArray m arrays = Ok m' -> m' !! name = m !! name.
Proof.
  induction arrays as [|[n val] arrays IH]; intros Hn m m'; cbn [app.forEach].
  - now intros [= <-].
  - cbn [fmap list_fmap fst] in Hn. apply not_elem_of_cons in Hn as [Hne Hn].
    unfold app.chrootArray at 1.
    destruct (app.oneOf n app.chrootArrayNames).
    + destruct (app.copyArray n val m) as [m1| |] eqn:Ec; cbn [bind]; try discriminate.
      intros H. rewrite (IH Hn _ _ H).
      destruct (copyArray_inv _ _ _ _ Ec) as [->| ->]; [reflexivity|].
      apply lookup_insert_ne. congruence.
    + cbn [bind]. apply IH. exact Hn.
Qed.

(** X26. When [createAmazonChroot] succeeds, every array of the builder
    with one of the eight supported names is a slice or a map (the nil
    check panics on anything else), and unless it is nil the result holds
    it under its name as it is. *)
Theorem createAmazonChroot_arrays
    (replaceVariables : app.RawTemplate -> string -> string)
    (processCommunicator :
       app.RawTemplate -> string -> list string -> gmap string value ->
       error + (string * gmap string value))
    (r : app.RawTemplate) (ID : string) (b : app.BuilderC)
    (m : gmap string value) (name : string) (v : value) :
  app.createAmazonChroot replaceVariables processCommunicator r ID = Ok m ->
  app.Builders r !! ID = Some b ->
  app.Arrays b !! name = Some v ->
  app.oneOf name app.chrootArrayNames = true ->
  exists isnil,
    reflect_IsNil v = Ok isnil
    /\ (isnil = false -> m !! name = Some v).
Proof.
  unfold app.createAmazonChroot. intros H Hb Hv Hn. rewrite Hb in H. cbv zeta in H.
  destruct (app.workSettings r b) as [ws| |]; cbn [bind] in H; try discriminate.
  destruct (processCommunicator r ID ws _) as [e|[prefix m0]]; cbn [call wrapErr bind] in H;
    [discriminate|].
  destruct (app.forEach _ _ ws) as [w| |]; cbn [bind] in H; try discriminate.
  destruct (app.hasAccessKey w); cbn [negb] in H; [|discriminate].
  destruct (app.hasAmiName w); cbn [negb] in H; [|discriminate].
  destruct (app.hasSecretKey w); cbn [negb] in H; [|discriminate].
  destruct (app.hasSourceAmi w); cbn [negb] in H; [|discriminate].
  pose proof (NoDup_fst_map_to_list (app.Arrays b)) as Hnd.
  apply elem_of_map_to_list in Hv.
  destruct (list_elem_of_split _ _ Hv) as (l1 & l2 & El).
  rewrite El in H, Hnd. rewrite forEach_app in H.
  destruct (app.forEach app.chrootArray (app.c_settings w) l1) as [m1| |];
    cbn [bind] in H; try discriminate.
  cbn [app.forEach] in H. unfold app.chrootArray at 1 in H. rewrite Hn in H.
  unfold app.copyArray, deepcopy_Copy in H.
  destruct (reflect_IsNil v) as [isnil| |]; cbn [bind] in H; try discriminate.
  exists isnil. split; [reflexivity|]. intros ->.
  rewrite fmap_app in Hnd. apply NoDup_app in Hnd as (_ & _ & Hnd).
  cbn [fmap list_fmap fst] in Hnd. apply NoDup_cons in Hnd as [Hnot _].
  rewrite (forEach_chrootArray_absent l2 name Hnot _ _ H). apply lookup_insert_eq.
Qed.

(** ** Examples for the properties above *)

Lemma findChecksum_reads_line_witness :
  ranchr.findChecksum samples.centos78 samples.sumsPage = Ok "bbbb"
  /\ ranchr.debian_findISOChecksum samples.centos78 samples.sumsPage = Ok "bbbb".
Proof.
  apply (findChecksum_reads_line samples.centos78 samples.sumsHead samples.sumsLine
           (String ranchr.newline "")).
  - vm_compute. discriminate.
  - vm_compute. reflexivity.
  - right. exists "aaaa  CentOS-7.8-x86_64-netinstall.iso". reflexivity.
  - vm_compute. reflexivity.
Defined.

Lemma findChecksum_outcome_witness :
  (exists e, ranchr.findChecksum samples.centos78 samples.sumsHead = Fail e)
  /\ exists a b l last,
       samples.sumsPage = a +:+ ranchr.Name samples.centos78 +:+ b
       /\ strlen a = 45%Z
       /\ strings.Split a ranchr.newline = l ++ [last]
       /\ ranchr.findChecksum samples.centos78 samples.sumsPage
          = Ok (strings.TrimSpace last).
Proof.
  destruct (findChecksum_outcome samples.centos78 samples.sumsHead) as [H _].
  destruct (findChecksum_outcome samples.centos78 samples.sumsPage) as [_ H'].
  split.
  - apply H. right. vm_compute. reflexivity.
  - destruct H' as (a & b & l & last & E & Ha & Hs & Hc & _).
    + vm_compute. discriminate.
    + vm_compute. discriminate.
    + exists a, b, l, last. repeat split; assumption.
Defined.

Lemma centOS_checksumURL_beside_iso_witness :
  ranchr.checksumURL
    (ranchr.set_isoURL
       "http://mirror.example.org/centos/7.8/isos/x86_64/CentOS-7.8-x86_64-minimal.iso"
       (ranchr.set_ReleaseFull "7.8" samples.centos78))
  = "http://mirror.example.org/centos/7.8/isos/x86_64/sha256sum.txt".
Proof.
  exact (proj2 (centOS_checksumURL_beside_iso samples.offline (samples.parsed samples.oneMirror)
                  0 (ranchr.set_ReleaseFull "7.8" samples.centos78)
                  ltac:(vm_compute; discriminate))).
Defined.

Lemma centOS_SetISOInfo_with_base_url_witness :
  ranchr.SetISOInfo
    (samples.serves "http://mirror.example.org/centos/7.8/isos/x86_64/sha256sum.txt"
                    samples.sumsPage)
    (samples.parsed samples.oneMirror) 0 samples.centos78
  = Ok (ranchr.mkRelease "http://mirror.example.org/centos" "bbbb" "sha256"
          "CentOS-7.8-x86_64-minimal.iso"
          "http://mirror.example.org/centos/7.8/isos/x86_64/CentOS-7.8-x86_64-minimal.iso"
          "x86_64" "centos" "minimal" "7" "7.8").
Proof.
  apply (centOS_SetISOInfo_with_base_url
           (samples.serves "http://mirror.example.org/centos/7.8/isos/x86_64/sha256sum.txt"
                           samples.sumsPage)
           (samples.parsed samples.oneMirror) 0 samples.centos78 "7" "8"
           samples.sumsPage "bbbb").
  - vm_compute. discriminate.
  - reflexivity.
  - reflexivity.
  - vm_compute. discriminate.
  - vm_compute. discriminate.
  - vm_compute. reflexivity.
  - vm_compute. reflexivity.
Defined.

Lemma debian_setReleaseInfo_five_bytes_witness :
  ranchr.debian_setReleaseInfo samples.debian7 samples.debianIndex
  = Ok (ranchr.set_ReleaseFull "7.8.0" samples.debian7)
  /\ String.prefix "7" "7.8.0" = true
  /\ exists e, ranchr.debian_setReleaseInfo samples.debian7 "<html></html>" = Fail e.
Proof.
  destruct (debian_setReleaseInfo_five_bytes samples.debian7 samples.debianIndex)
    as (_ & _ & H).
  destruct (H (ranchr.set_ReleaseFull "7.8.0" samples.debian7) ltac:(vm_compute; reflexivity))
    as (E & _ & _ & Hp).
  destruct (debian_setReleaseInfo_five_bytes samples.debian7 "<html></html>")
    as (_ & Hf & _).
  split; [vm_compute; reflexivity|]. split.
  - apply Hp. vm_compute. lia.
  - apply Hf. vm_compute. reflexivity.
Defined.

Lemma debian_getReleaseVersion_fetch_error_witness :
  ranchr.debian_getReleaseVersion samples.offline samples.debian7
  = Fail (Errorf "unable to determine the current debian version: search string not found" None)
  /\ ranchr.debian_getReleaseVersion samples.offline
       (ranchr.set_ReleaseFull "7.8.0" samples.debian7)
     = Ok (ranchr.set_ReleaseFull "7.8.0" samples.debian7).
Proof.
  split.
  - destruct (debian_getReleaseVersion_fetch_error samples.offline samples.debian7)
      as [_ H].
    exact (proj1 (H eq_refl (ErrNotExist "http://cdimage.debian.org/debian-cd/") eq_refl)).
  - destruct (debian_getReleaseVersion_fetch_error samples.offline
                (ranchr.set_ReleaseFull "7.8.0" samples.debian7)) as [H _].
    apply H. vm_compute. discriminate.
Defined.

Lemma ubuntu_findChecksum_reads_checksum_witness :
  ranchr.ubuntu_findChecksum samples.ubuntu1404 samples.ubuntuSums
  = Ok (ranchr.set_Checksum samples.sha256B samples.ubuntu1404, samples.sha256B).
Proof.
  apply (ubuntu_findChecksum_reads_checksum samples.ubuntu1404
           (samples.sha256A +:+ " *ubuntu-14.04-desktop-amd64.iso" +:+ String ranchr.newline "")
           samples.sha256B " *" (String ranchr.newline "")).
  - reflexivity.
  - reflexivity.
  - vm_compute. reflexivity.
Defined.

Lemma ubuntu_findChecksum_panics_at_offset_1_witness :
  ranchr.ubuntu_findChecksum samples.ubuntu1404 ("*ubuntu-14.04-server-amd64.iso") = Panic.
Proof.
  apply ubuntu_findChecksum_panics_at_offset_1. vm_compute. reflexivity.
Defined.

Lemma createVMXData_last_wins_witness :
  app.createVMXData samples.noVariables (samples.vboxTemplate []) (VInt 1) = Panic
  /\ exists m,
       app.createVMXData samples.noVariables (samples.vboxTemplate [])
                         (VStrings ["memsize = 512"; "numvcpus = 1"; "memsize = 1024"])
       = Ok m
       /\ m !! "memsize" = Some "1024".
Proof.
  split.
  - destruct (createVMXData_last_wins samples.noVariables (samples.vboxTemplate []) (VInt 1))
      as [H _].
    apply H. reflexivity.
  - destruct (createVMXData_last_wins samples.noVariables (samples.vboxTemplate [])
                (VStrings ["memsize = 512"; "numvcpus = 1"; "memsize = 1024"])) as [_ H].
    destruct (H _ eq_refl) as (m & E & Hm). exists m. split; [exact E|].
    rewrite Hm. vm_compute. reflexivity.
Defined.

Lemma stringIsCommandFilename_last_two_parts_witness :
  app.stringIsCommandFilename "shutdown" = false
  /\ app.stringIsCommandFilename "shutdown.command" = true
  /\ app.stringIsCommandFilename "scripts/v1.2/.command" = true
  /\ app.stringIsCommandFilename ".command" = false.
Proof.
  destruct (stringIsCommandFilename_last_two_parts "shutdown" "command" eq_refl eq_refl)
    as (H1 & H2 & _).
  destruct (stringIsCommandFilename_last_two_parts "2/" "command" eq_refl eq_refl)
    as (_ & _ & H3).
  destruct (stringIsCommandFilename_last_two_parts "" "command" eq_refl eq_refl)
    as (_ & H4 & _).
  split; [exact H1|]. split; [exact H2|]. split; [exact (H3 "scripts/v1") | exact H4].
Defined.

Lemma processAMIBlockDeviceMappings_mappings_witness :
  (exists e,
      app.processAMIBlockDeviceMappings
        (VStringss [["device_name = /dev/sdb"; "volume_size = 20"];
                    ["device_name = /dev/sdc"; "volume_size = big"]]) = Fail e)
  /\ exists ret,
       app.processAMIBlockDeviceMappings
         (VStringss [["device_name = /dev/sdb"; "volume_size = 20"; "comment = x"]]) = Ok ret
       /\ length ret = 1%nat.
Proof.
  split.
  - destruct (processAMIBlockDeviceMappings_mappings
                [["device_name = /dev/sdb"; "volume_size = 20"];
                 ["device_name = /dev/sdc"; "volume_size = big"]]) as (_ & _ & H).
    apply (H ["device_name = /dev/sdc"; "volume_size = big"] "volume_size = big"
             strconv.ErrSyntax).
    + right. left. reflexivity.
    + right. left. reflexivity.
    + vm_compute. reflexivity.
    + vm_compute. reflexivity.
  - destruct (processAMIBlockDeviceMappings_mappings
                [["device_name = /dev/sdb"; "volume_size = 20"; "comment = x"]])
      as (_ & H & _).
    destruct (app.processAMIBlockDeviceMappings _) as [ret| |] eqn:E; try discriminate E.
    exists ret. split; [reflexivity|]. exact (proj1 (H ret eq_refl)).
Defined.

Lemma createNull_outcome_witness :
  (exists e',
      app.createNull samples.noCommunicator (samples.vboxTemplate []) "virtualbox-iso"
      = Fail (BuilderErr "virtualbox-iso" Null e'))
  /\ exists m ws prefix,
       app.createNull samples.sshCommunicator (samples.vboxTemplate []) "virtualbox-iso" = Ok m
       /\ samples.sshCommunicator (samples.vboxTemplate []) "virtualbox-iso" ws
            {[ "type" := VString "null" ]} = inr (prefix, m)
       /\ prefix <> "".
Proof.
  split.
  - destruct (createNull_outcome samples.noCommunicator (samples.vboxTemplate [])
                "virtualbox-iso") as (_ & H & _).
    destruct (app.createNull samples.noCommunicator _ _) as [m|e|] eqn:E;
      try discriminate E.
    destruct (H e eq_refl) as [e' ->]. exists e'. reflexivity.
  - destruct (createNull_outcome samples.sshCommunicator (samples.vboxTemplate [])
                "virtualbox-iso") as (_ & _ & H).
    destruct (app.createNull samples.sshCommunicator _ _) as [m|e|] eqn:E;
      try discriminate E.
    destruct (H m eq_refl) as (ws & prefix & Hpc & Hne & _).
    exists m, ws, prefix. auto.
Defined.

Lemma createAmazonChroot_required_settings_witness :
  exists m,
    app.createAmazonChroot samples.noVariables samples.noCommunicator
      (samples.chrootTemplate ("ami_name = first" :: samples.chrootSettings)) "amazon-chroot"
    = Ok m
    /\ m !! "ami_name" = Some (VString "test")
    /\ m !! "access_key" = Some (VString "AKIA").
Proof.
  destruct (app.createAmazonChroot samples.noVariables samples.noCommunicator
              (samples.chrootTemplate ("ami_name = first" :: samples.chrootSettings))
              "amazon-chroot") as [m| |] eqn:E; try discriminate E.
  destruct (createAmazonChroot_required_settings samples.noVariables samples.noCommunicator
              _ _ m E) as (b & ws & Hb & Hws & H).
  vm_compute in Hb. injection Hb as <-. vm_compute in Hws. injection Hws as <-.
  exists m. split; [reflexivity|]. split.
  - destruct (H "ami_name") as (e & He & ->); [right; left; reflexivity|].
    vm_compute in He. injection He as <-. reflexivity.
  - destruct (H "access_key") as (e & He & ->); [left; reflexivity|].
    vm_compute in He. injection He as <-. reflexivity.
Defined.

Lemma createVirtualBoxISO_validated_witness :
  exists b ws prefix settings,
    app.Builders (samples.vboxTemplate ["disk_size = 20000"]) !! "virtualbox-iso" = Some b
    /\ app.workSettings (samples.vboxTemplate ["disk_size = 20000"]) b = Ok ws
    /\ samples.noCommunicator (samples.vboxTemplate ["disk_size = 20000"]) "virtualbox-iso" ws
         {[ "type" := VString "virtualbox-iso" ]} = inr (prefix, settings)
    /\ app.hasKey "ssh_username" ws = true
    /\ exists i, strconv.Atoi "20000" = inl i.
Proof.
  destruct (app.createVirtualBoxISO samples.noVariables samples.noCommunicator
              samples.noCommandFiles samples.noDiscovery samples.emptyDisk
              (samples.vboxTemplate ["disk_size = 20000"]) "virtualbox-iso")
    as [m| |] eqn:E; try discriminate E.
  destruct (createVirtualBoxISO_validated samples.noVariables samples.noCommunicator
              samples.noCommandFiles samples.noDiscovery samples.emptyDisk _ _ m E)
    as (b & ws & prefix & settings & Hb & Hws & Hpc & Hint & Hcred & _).
  exists b, ws, prefix, settings. split; [exact Hb|]. split; [exact Hws|].
  split; [exact Hpc|].
  vm_compute in Hb. injection Hb as <-. vm_compute in Hws. injection Hws as <-.
  vm_compute in Hpc. injection Hpc as <- <-. split.
  - exact (proj1 (Hcred eq_refl)).
  - apply (Hint "disk_size = 20000"); [|reflexivity].
    right. right. right. left. reflexivity.
Defined.

Lemma setHTTP_given_directory_witness :
  app.setHTTP samples.emptyDisk (samples.vboxTemplate []) "virtualbox-iso"
              (<["http_directory" := VNil]> (samples.typeOnly "virtualbox-iso"))
  = Panic
  /\ app.setHTTP samples.emptyDisk (samples.vboxTemplate []) "virtualbox-iso"
                 (<["http_directory" := VInt 80]> (samples.typeOnly "virtualbox-iso"))
     = Fail (Errorf "http_directory: expected string" None)
  /\ exists r' m',
       app.setHTTP samples.emptyDisk (samples.vboxTemplate []) "virtualbox-iso"
                   (<["http_directory" := VString "www"]> (samples.typeOnly "virtualbox-iso"))
       = Ok (r', m')
       /\ app.Dirs r' !! "out/www" = Some "virtualbox-iso/www/"
       /\ m' !! "http_directory" = Some (VString "www").
Proof.
  split; [|split].
  - apply (setHTTP_given_directory samples.emptyDisk (samples.vboxTemplate [])
             "virtualbox-iso" _ VNil); [vm_compute; reflexivity | reflexivity].
  - apply (setHTTP_given_directory samples.emptyDisk (samples.vboxTemplate [])
             "virtualbox-iso" _ (VInt 80)); [vm_compute; reflexivity | discriminate..].
  - destruct (setHTTP_given_directory samples.emptyDisk (samples.vboxTemplate [])
                "virtualbox-iso"
                (<["http_directory" := VString "www"]> (samples.typeOnly "virtualbox-iso"))
                (VString "www")) as (_ & _ & _ & H); [vm_compute; reflexivity|].
    destruct (H "www" "virtualbox-iso/www/" eq_refl) as (r' & m' & E & Hd & Hm & _);
      [vm_compute; reflexivity|].
    exists r', m'. split; [exact E|]. split.
    + rewrite Hd. vm_compute. reflexivity.
    + rewrite Hm. vm_compute. reflexivity.
Defined.

Lemma ubuntu_findChecksum_point_release_witness :
  ranchr.ubuntu_findChecksum samples.ubuntu1404 samples.ubuntuPointSums
  = Ok (ranchr.mkRelease "http://releases.ubuntu.com/" samples.sha256B "sha256"
          "ubuntu-14.04.4-server-amd64.iso" "" "amd64" "ubuntu" "server" "14.04" "14.04.4",
        samples.sha256B).
Proof.
  apply (ubuntu_findChecksum_point_release samples.ubuntu1404 samples.sha256B " *" "14.04.4"
           (String ranchr.newline "")).
  - reflexivity.
  - reflexivity.
  - vm_compute. reflexivity.
  - vm_compute. reflexivity.
  - vm_compute. reflexivity.
  - discriminate.
  - vm_compute. discriminate.
  - vm_compute. reflexivity.
  - vm_compute. reflexivity.
Defined.

Lemma debian_SetISOInfo_with_full_release_witness :
  ranchr.debian_SetISOInfo
    (samples.serves "http://cdimage.debian.org/debian-cd/7.8.0/amd64/iso-cd/SHA256SUMS"
                    samples.debianSums)
    samples.withSlash (ranchr.set_ReleaseFull "7.8.0" samples.debian7)
  = Ok (ranchr.mkRelease "http://cdimage.debian.org/debian-cd/" "cccc" "sha256"
          "debian-7.8.0-i386-netinst.iso"
          "http://cdimage.debian.org/debian-cd/7.8.0/i386/iso-cd/debian-7.8.0-i386-netinst.iso"
          "i386" "debian" "netinst" "7" "7.8.0").
Proof.
  apply (debian_SetISOInfo_with_full_release
           (samples.serves "http://cdimage.debian.org/debian-cd/7.8.0/amd64/iso-cd/SHA256SUMS"
                           samples.debianSums)
           samples.withSlash (ranchr.set_ReleaseFull "7.8.0" samples.debian7)
           samples.debianSums "cccc").
  - vm_compute. discriminate.
  - vm_compute. discriminate.
  - vm_compute. discriminate.
  - vm_compute. reflexivity.
  - vm_compute. reflexivity.
Defined.

Lemma ubuntu_SetISOInfo_url_after_checksum_witness :
  exists u',
    ranchr.ubuntu_SetISOInfo
      (samples.serves "http://releases.ubuntu.com/14.04/SHA256SUMS" samples.ubuntuPointSums)
      samples.withSlash samples.ubuntu1404 = Ok u'
    /\ ranchr.isoURL u'
       = "http://releases.ubuntu.com/14.04/ubuntu-14.04.4-server-amd64.iso"
    /\ ranchr.ReleaseFull u' = "14.04.4"
    /\ ranchr.Checksum u' = samples.sha256B.
Proof.
  destruct (ubuntu_SetISOInfo_url_after_checksum
              (samples.serves "http://releases.ubuntu.com/14.04/SHA256SUMS"
                              samples.ubuntuPointSums)
              samples.withSlash samples.ubuntu1404
              (ranchr.mkRelease "http://releases.ubuntu.com/" samples.sha256B "sha256"
                 "ubuntu-14.04.4-server-amd64.iso" "" "amd64" "ubuntu" "server" "14.04"
                 "14.04.4")
              samples.ubuntuPointSums samples.sha256B)
    as (u' & E & Hurl & Hn & Hf & Hc & _).
  - vm_compute. reflexivity.
  - vm_compute. reflexivity.
  - exists u'. split; [exact E|]. split; [|split].
    + rewrite Hurl, Hn. vm_compute. reflexivity.
    + rewrite Hf. reflexivity.
    + exact Hc.
Defined.

Lemma ubuntu_findChecksum_shape_witness :
  (String.length samples.sha256B <= 64)%nat
  /\ exists a sep b,
       samples.ubuntuSums
       = a +:+ samples.sha256B +:+ sep +:+ "ubuntu-14.04-server-amd64.iso" +:+ b
       /\ String.length sep = 2%nat
       /\ (a <> "" -> String.length samples.sha256B = 64%nat).
Proof.
  assert (ranchr.ubuntu_findChecksum samples.ubuntu1404 samples.ubuntuSums
          = Ok (ranchr.set_Checksum samples.sha256B samples.ubuntu1404, samples.sha256B)) as E.
  { vm_compute. reflexivity. }
  destruct (ubuntu_findChecksum_shape samples.ubuntu1404
              (ranchr.set_Checksum samples.sha256B samples.ubuntu1404)
              samples.ubuntuSums samples.sha256B E)
    as (_ & Hl & a & sep & b & E' & Hs & _ & Ha).
  split; [exact Hl|]. exists a, sep, b. repeat split; assumption.
Defined.

Lemma setReleaseNumber_short_first_line_witness :
  ranchr.setReleaseNumber (samples.fetch "") samples.centos7 = Panic
  /\ ranchr.setReleaseInfo (samples.fetch "") samples.centos7 = Panic.
Proof.
  destruct (setReleaseNumber_short_first_line (samples.fetch "") samples.centos7 "" "" []
              eq_refl eq_refl ltac:(cbn; lia)) as [H1 H2].
  split; [exact H1 | exact (H2 eq_refl)].
Defined.

Lemma createAmazonChroot_arrays_witness :
  app.createAmazonChroot samples.noVariables samples.noCommunicator
                         samples.chrootWithRegions "amazon-chroot"
  = Ok samples.chrootRegionsResult
  /\ samples.chrootRegionsResult !! "ami_regions"
     = Some (VStrings ["us-east-1"; "us-west-2"]).
Proof.
  assert (app.createAmazonChroot samples.noVariables samples.noCommunicator
            samples.chrootWithRegions "amazon-chroot" = Ok samples.chrootRegionsResult) as E.
  { vm_compute. reflexivity. }
  split; [exact E|].
  destruct (createAmazonChroot_arrays samples.noVariables samples.noCommunicator
              samples.chrootWithRegions "amazon-chroot" samples.regionsSection
              samples.chrootRegionsResult "ami_regions"
              (VStrings ["us-east-1"; "us-west-2"]) E) as (isnil & Hnil & Hm).
  - vm_compute. reflexivity.
  - vm_compute. reflexivity.
  - reflexivity.
  - injection Hnil as <-. exact (Hm eq_refl).
Defined.

Lemma randomISOURL_mirror_witness :
  exists page doc u,
    samples.serves "http://isoredirect.centos.org/centos/7/isos/x86_64/" ""
      ("http://isoredirect.centos.org/centos/" +:+ ranchr.Release samples.centos7 +:+ "/isos/"
         +:+ ranchr.Arch samples.centos7 +:+ "/") = inr page
    /\ samples.parsed samples.twoMirrors page = inr doc
    /\ In u (ranchr.anchorHrefs doc)
    /\ strings.Contains u "x86_64" = true
    /\ strings.Contains u "ftp://" = false
    /\ "http://mirror.example.org/centos/7/isos/x86_64/CentOS-7.8.2003-x86_64-minimal.iso"
       = strings.TrimSuffix u (String ranchr.newline "") +:+ ranchr.Name samples.centos7.
Proof.
  apply (randomISOURL_mirror
           (samples.serves "http://isoredirect.centos.org/centos/7/isos/x86_64/" "")
           (samples.parsed samples.twoMirrors) 5 samples.centos7).
  vm_compute. reflexivity.
Defined.

Lemma ParseBuilder_round_trip_witness :
  ParseBuilder (fun s => s) "VirtualBox-ISO" = VirtualBoxISO
  /\ ParseBuilder (fun s => s) "VIRTUALBOX-ISO" = VirtualBoxISO.
Proof.
  destruct (ParseBuilder_round_trip (fun s => s)) as [Hr Hc].
  destruct (Hc "VirtualBox-ISO" eq_refl) as [Hl Hu].
  split.
  - rewrite <- Hl. exact (Hr VirtualBoxISO).
  - change "VIRTUALBOX-ISO" with (strings.ToUpper "VirtualBox-ISO").
    rewrite Hu, <- Hl. exact (Hr VirtualBoxISO).
Defined.

